(** * Dragon-tiger list: seat processing and funding-battle facts

    A shallow embedding of the deterministic core of the repository:

    - [DataProcessor] follows [src/core/data_processor.py]: amount and
      percentage formatting, seat classification against the registry of
      named traders, de-duplication, ordering and the split of the seat rows
      of one stock into [buy_seats] and [sell_seats];
    - [FundingBattleBuilder] follows
      [src/core/Fund_battle_V1/funding_battle_builder.py]: amount parsing,
      concentration metrics, the analysis of one side, battle metrics and
      [build_structured_facts].

    Numbers.  Python floats are modelled by exact rationals: [Q] where the
    code only computes, and canonical rationals [Qc] (plus a [NaN] cell) in
    the DataFrame rows, where pandas compares cells for identity.  Decimal
    rounding ([round(x, 1)], [f"{x:,.2f}"]) is half-to-even on the exact
    value.  The program computes in binary64, so the two can part: a value
    that lies exactly halfway between two decimals may be rounded to the
    other neighbour, a sum of floats depends on the order of its terms, and
    terms of both signs that cancel exactly need not cancel in floats.  The
    properties below are worded so that they do not depend on which
    neighbour a tie goes to, nor on the order of a sum; [Binary64] follows
    [calculate_concentration_metrics] in binary64 itself and shows such a
    tie.

    Strings.  A Python [str] is the [string] of its UTF-8 bytes; for the
    operations used here ([in], [replace], [startswith], [strip]) working on
    bytes or on code points gives the same result.

    Exceptions.  Operations that can raise in Python (division, indexing,
    [float()]) return in the monad [Py.M]; [try ... except] is [Py.catch]. *)

From Stdlib Require Import List String Ascii Bool ZArith NArith QArith Qround
  Qabs Qcanon Lia Lqa Permutation Sorted DecimalString DecimalN Floats.
Import ListNotations.

Open Scope string_scope.
Open Scope Q_scope.

(** ** Python primitives *)

Module Py.

Inductive exn : Set := ZeroDivisionError | IndexError | ValueError.

(** A computation either raises or returns. *)
Definition M (A : Type) : Type := (exn + A)%type.

Definition ret {A} (a : A) : M A := inr a.
Definition raise {A} (e : exn) : M A := inl e.

Definition bind {A B} (c : M A) (k : A -> M B) : M B :=
  match c with
  | inl e => inl e
  | inr a => k a
  end.

(** [try c except (ValueError, TypeError): h] *)
Definition catch {A} (c : M A) (h : A) : M A :=
  match c with
  | inl ValueError => inr h
  | other => other
  end.

(** *** Strings *)

(** [pat in s] *)
Fixpoint contains (pat s : string) : bool :=
  prefix pat s ||
  match s with
  | EmptyString => false
  | String _ s' => contains pat s'
  end.

(** [s.startswith(pat)] *)
Definition startswith (s pat : string) : bool := prefix pat s.

(** [s.replace(pat, e)] with [e] the empty string, for a non-empty [pat]:
    occurrences are found left to right and do not overlap.  [skip] counts the bytes of the current
    occurrence still to be dropped. *)
Fixpoint remove_from (skip : nat) (pat s : string) : string :=
  match s with
  | EmptyString => EmptyString
  | String c s' =>
      match skip with
      | S k => remove_from k pat s'
      | O =>
          if prefix pat s
          then remove_from (String.length pat - 1) pat s'
          else String c (remove_from 0 pat s')
      end
  end.

Definition remove (pat s : string) : string :=
  match pat with
  | EmptyString => s
  | _ => remove_from 0 pat s
  end.

(** ASCII white space as [str.strip] and [float] see it. *)
Definition is_space (c : ascii) : bool :=
  let n := nat_of_ascii c in
  ((9 <=? n) && (n <=? 13) || (28 <=? n) && (n <=? 32))%nat.

Fixpoint lstrip (s : string) : string :=
  match s with
  | EmptyString => EmptyString
  | String c s' => if is_space c then lstrip s' else s
  end.

Fixpoint rstrip (s : string) : string :=
  match s with
  | EmptyString => EmptyString
  | String c s' =>
      match rstrip s' with
      | EmptyString => if is_space c then EmptyString else String c EmptyString
      | r => String c r
      end
  end.

Definition strip (s : string) : string := rstrip (lstrip s).

Definition is_empty (s : string) : bool :=
  match s with
  | EmptyString => true
  | _ => false
  end.

(** Every byte of [s] satisfies [p]. *)
Fixpoint all_chars (p : ascii -> bool) (s : string) : bool :=
  match s with
  | EmptyString => true
  | String c s' => p c && all_chars p s'
  end.

(** *** Decimal numerals *)

Definition is_digit (c : ascii) : bool :=
  let n := nat_of_ascii c in ((48 <=? n) && (n <=? 57))%nat.

(** Longest prefix of digits, and what follows it. *)
Fixpoint span_digits (s : string) : string * string :=
  match s with
  | EmptyString => (EmptyString, EmptyString)
  | String c s' =>
      if is_digit c
      then let (d, r) := span_digits s' in (String c d, r)
      else (EmptyString, s)
  end.

(** Value of a run of digits (0 for the empty run). *)
Definition digits_value (d : string) : N :=
  match NilEmpty.uint_of_string d with
  | Some u => N.of_uint u
  | None => 0%N
  end.

(** Decimal numeral of a natural number, without leading zeros. *)
Definition digits_of (n : N) : string := NilZero.string_of_uint (N.to_uint n).

Definition pow10 (k : nat) : Q := inject_Z (10 ^ Z.of_nat k).

(** Optional sign: [(negative, rest)]. *)
Definition read_sign (s : string) : bool * string :=
  match s with
  | String "-" s' => (true, s')
  | String "+" s' => (false, s')
  | _ => (false, s)
  end.

(** Optional exponent part [e[+-]ddd] reaching the end of the string. *)
Definition read_exponent (s : string) : option Z :=
  match s with
  | EmptyString => Some 0%Z
  | String c s' =>
      if Ascii.eqb c "e" || Ascii.eqb c "E" then
        let (neg, s1) := read_sign s' in
        let (d, r) := span_digits s1 in
        if is_empty d || negb (is_empty r) then None
        else
          let e := Z.of_N (digits_value d) in
          Some (if neg then (- e)%Z else e)
      else None
  end.

(** [float(s)] on decimal numerals: surrounding white space, a sign, digits
    with an optional fraction, an optional exponent; the result is the exact
    value of the numeral.  Anything else raises [ValueError] here: the
    spellings of infinity and NaN, digit-group underscores and digits
    outside ASCII, which Python accepts, are not modelled. *)
Definition float (s : string) : M Q :=
  let (neg, s1) := read_sign (strip s) in
  let (ip, s2) := span_digits s1 in
  let (fp, s3) :=
    match s2 with
    | String "." s2' => span_digits s2'
    | _ => (EmptyString, s2)
    end in
  if is_empty ip && is_empty fp then raise ValueError
  else
    match read_exponent s3 with
    | None => raise ValueError
    | Some e =>
        let m := inject_Z (Z.of_N (digits_value ip))
                 + inject_Z (Z.of_N (digits_value fp)) / pow10 (String.length fp) in
        let v := m * Qpower 10 e in
        ret (if neg then - v else v)
    end.

(** *** Decimal rounding and formatting *)

(** Nearest integer, ties to even. *)
Definition round_half_even (q : Q) : Z :=
  let f := Qfloor q in
  match Qcompare (q - inject_Z f) (1 # 2) with
  | Lt => f
  | Gt => (f + 1)%Z
  | Eq => if Z.even f then f else (f + 1)%Z
  end.

(** [round(q, 1)], on the exact value: where the program's binary64 value
    of an expression falls on the other side of a tie, it returns the other
    neighbour (see [Binary64.round]). *)
Definition round1 (q : Q) : Q := inject_Z (round_half_even (q * 10)) / 10.

(** [round(q, 2)] *)
Definition round2 (q : Q) : Q := inject_Z (round_half_even (q * 100)) / 100.

(** Thousands separators: a comma before every group of three digits that
    is not the first. *)
Fixpoint group3 (d : string) : string :=
  match d with
  | EmptyString => EmptyString
  | String c d' =>
      String c
        (match d' with
         | EmptyString => EmptyString
         | _ => if (String.length d' mod 3 =? 0)%nat
                then String "," (group3 d')
                else group3 d'
         end)
  end.

Definition two_digits (n : N) : string :=
  if (n <? 10)%N then String "0" (digits_of n) else digits_of n.

(** [f"{q:.2f}"] and, with [comma], [f"{q:,.2f}"], on the exact value; the
    program formats a binary64 number, which can differ in the last digit at
    a tie and has a negative zero, printed [-0.00]. *)
Definition format_2f (comma : bool) (q : Q) : string :=
  let n := Z.to_N (round_half_even (Qabs q * 100)) in
  let ip := digits_of (n / 100) in
  (if Qlt_le_dec q 0 then "-" else EmptyString)
    ++ (if comma then group3 ip else ip)
    ++ "." ++ two_digits (n mod 100).

(** [x / y] *)
Definition div (x y : Q) : M Q :=
  if Qeq_bool y 0 then raise ZeroDivisionError else ret (x / y).

(** [sum(l)], exact: in binary64 the result depends on the order of the
    terms (see [Binary64.sum]). *)
Definition sum (l : list Q) : Q := fold_left Qplus l 0.

(** [l[:k]] *)
Definition slice_to {A} (k : nat) (l : list A) : list A := firstn k l.

(** [l[0]] *)
Definition item0 {A} (l : list A) : M A :=
  match l with
  | [] => raise IndexError
  | a :: _ => ret a
  end.

(** [sorted(l, reverse=True)]: stable, descending. *)
Fixpoint insert_desc (x : Q) (l : list Q) : list Q :=
  match l with
  | [] => [x]
  | y :: l' => if Qle_bool y x then x :: l else y :: insert_desc x l'
  end.

Definition sorted_reverse (l : list Q) : list Q := fold_right insert_desc [] l.

(** [d.get(k, default)] and [d[k] = v] on a dict in insertion order. *)
Fixpoint dict_get {V} (k : string) (d : list (string * V)) (default : V) : V :=
  match d with
  | [] => default
  | (k', v) :: d' => if String.eqb k k' then v else dict_get k d' default
  end.

Fixpoint dict_set {V} (k : string) (v : V) (d : list (string * V))
    : list (string * V) :=
  match d with
  | [] => [(k, v)]
  | (k', a) :: d' =>
      if String.eqb k k' then (k', v) :: d' else (k', a) :: dict_set k v d'
  end.

(** [try: c except: h], the handler that catches every exception. *)
Definition catch_any {A} (c : M A) (h : A) : A :=
  match c with
  | inl _ => h
  | inr a => a
  end.

(** [re.sub('[...]', '', s)]: every character of the class is removed.  The
    class is given by the UTF-8 encodings of its characters; [skip] counts
    the bytes of the current character still to be dropped. *)
Fixpoint remove_class_from (skip : nat) (cls : list string) (s : string)
    : string :=
  match s with
  | EmptyString => EmptyString
  | String c s' =>
      match skip with
      | S k => remove_class_from k cls s'
      | O =>
          match find (fun p => prefix p s) cls with
          | Some p => remove_class_from (String.length p - 1) cls s'
          | None => String c (remove_class_from 0 cls s')
          end
      end
  end.

Definition remove_class (cls : list string) (s : string) : string :=
  remove_class_from 0 cls s.

(** A byte that continues a UTF-8 character. *)
Definition is_continuation (c : ascii) : bool :=
  let n := nat_of_ascii c in ((128 <=? n) && (n <=? 191))%nat.

(** [len(s)]: the number of characters, one per byte that starts one. *)
Fixpoint len (s : string) : nat :=
  match s with
  | EmptyString => O
  | String c s' => if is_continuation c then len s' else S (len s')
  end.

(** [s[:k]]: the bytes before the character of index [k]. *)
Fixpoint take_chars (k : nat) (s : string) : string :=
  match s with
  | EmptyString => EmptyString
  | String c s' =>
      if is_continuation c then String c (take_chars k s')
      else
        match k with
        | O => EmptyString
        | S k' => String c (take_chars k' s')
        end
  end.

(** [s[k:]]: the bytes from the character of index [k] on. *)
Fixpoint drop_chars (k : nat) (s : string) : string :=
  match s with
  | EmptyString => EmptyString
  | String c s' =>
      if is_continuation c then drop_chars k s'
      else
        match k with
        | O => s
        | S k' => drop_chars k' s'
        end
  end.

(** [s[i:j]] for [i <= j]. *)
Definition slice (i j : nat) (s : string) : string :=
  take_chars (j - i) (drop_chars i s).

End Py.

Notation "x <- c ;; k" := (Py.bind c (fun x => k))
  (at level 61, c at next level, right associativity).


(** ** [src/core/data_processor.py] *)

Module DataProcessor.

(** A float cell of a DataFrame: a number or the missing value. *)
Inductive cell : Set :=
| Num (q : Qc)
| NaN.

Definition cell_eq_dec (a b : cell) : {a = b} + {a <> b}.
Proof. decide equality. apply Qc_eq_dec. Defined.

(** [float(c) > 0] *)
Definition gt0 (c : cell) : bool :=
  match c with
  | Num q => if Qclt_le_dec 0 q then true else false
  | NaN => false
  end.

(** [max(0, float(c))] *)
Definition max0 (c : cell) : Qc :=
  match c with
  | Num q => if Qclt_le_dec 0 q then q else Q2Qc 0
  | NaN => Q2Qc 0
  end.

(** One row of [top_data_df] (the per-seat disclosure table). *)
Module TopData.
Record row : Set := {
  trade_date : string;
  ts_code : string;
  exalter : string;
  buy : cell;
  buy_rate : cell;
  sell : cell;
  sell_rate : cell;
  net_buy : cell;
  side : string;
  reason : string
}.
End TopData.

(** One row of [hm_list_df] (the registry of named traders).  [orgs] is the
    alias list as [json.loads] returns it; [None] stands for a cell on which
    the parse raises, which the caller skips. *)
Module HmList.
Record row : Set := {
  name : string;
  desc : string;
  orgs : option (list string)
}.
End HmList.

(** One entry of the curated style table [self.player_profiles]. *)
Record profile_data : Set := {
  profile : string;
  preference : string;
  code : string;
  reputation : string
}.

(** The [style] value: the default is a list, a registry hit gives a dict. *)
Inductive style_value : Set :=
| StyleList (l : list string)
| StyleDict (d : list (string * string)).

Record player_info : Set := {
  name : string;
  type : string;
  description : string;
  style : style_value
}.

Record seat_info : Set := {
  seat_name : string;
  buy_amount : string;
  sell_amount : string;
  net_amount : string;
  buy_rate : string;
  sell_rate : string;
  player : player_info
}.

Record seat_data : Set := {
  buy_seats : list seat_info;
  sell_seats : list seat_info;
  buy_total : string;
  sell_total : string
}.

(** The quotients are exact here; the program divides in binary64, which
    can change the last digit when the amount lies halfway between two
    displayed values. *)
Definition _format_amount (amount : cell) : string :=
  match amount with
  | NaN => "0.00万元"
  | Num a =>
      if Qeq_bool a 0 then "0.00万元"
      else if Qlt_le_dec a 10000000
      then Py.format_2f true (a / 10000) ++ "万元"
      else Py.format_2f true (a / 100000000) ++ "亿元"
  end.

(** On the exact value; for a small negative value the program prints
    [-0.00%]. *)
Definition _format_percentage (percentage : cell) : string :=
  match percentage with
  | NaN => "0.00%"
  | Num p => Py.format_2f false (Py.round2 p) ++ "%"
  end.

Definition quant_names : list string :=
  ["量化抢筹"; "量化打扮"; "量化基金"; "竞价抢筹"].

Definition institution_names : list string :=
  ["深股通专用"; "沪股通专用"; "机构专用"; "境外机构"; "中信总部"].

Definition mem (s : string) (l : list string) : bool :=
  existsb (String.eqb s) l.

Definition _determine_player_type (name description : string) : string :=
  if mem name quant_names then "量化"
  else if mem name institution_names then "机构"
  else "知名游资".

Fixpoint lookup {A} (k : string) (d : list (string * A)) : option A :=
  match d with
  | [] => None
  | (k', v) :: d' => if String.eqb k k' then Some v else lookup k d'
  end.

Definition _get_player_style_from_profile
    (player_profiles : list (string * profile_data)) (player_name : string)
    : style_value :=
  match lookup player_name player_profiles with
  | Some profile_data =>
      let style_info :=
        [("核心交易档案", profile profile_data);
         ("标的选择偏好", preference profile_data);
         ("盘中操盘密码", code profile_data);
         ("软实力与市场标签", reputation profile_data)] in
      let style_info :=
        filter (fun kv => negb (Py.is_empty (snd kv))) style_info in
      match style_info with
      | [] => StyleDict [("风格画像", "暂无详细信息")]
      | _ => StyleDict style_info
      end
  | None => StyleDict [("风格画像", "暂无详细信息")]
  end.

(** [org in seat_name or seat_name in org] *)
Definition org_matches (seat_name org : string) : bool :=
  Py.contains org seat_name || Py.contains seat_name org.

(** The loop over the registry: a row whose alias list does not parse is
    skipped; on the first alias that matches the row's profile is taken, and
    the scan stops as soon as the type is no longer a default one. *)
Fixpoint scan_registry (player_profiles : list (string * profile_data))
    (seat_name : string) (hm_rows : list HmList.row) (info : player_info)
    : player_info :=
  match hm_rows with
  | [] => info
  | hm_row :: rest =>
      match HmList.orgs hm_row with
      | None => scan_registry player_profiles seat_name rest info
      | Some orgs =>
          let info' :=
            if existsb (org_matches seat_name) orgs then
              {| name := HmList.name hm_row;
                 type := _determine_player_type (HmList.name hm_row)
                                                (HmList.desc hm_row);
                 description := HmList.desc hm_row;
                 style := _get_player_style_from_profile player_profiles
                            (HmList.name hm_row) |}
            else info in
          if negb (mem (type info') ["普通席位"; "机构专用"]) then info'
          else scan_registry player_profiles seat_name rest info'
      end
  end.

Definition _identify_player (player_profiles : list (string * profile_data))
    (seat_name : string) (hm_list_df : list HmList.row) : player_info :=
  let player_info :=
    {| name := "普通席位";
       type := if Py.contains "机构专用" seat_name
               then "机构专用" else "普通席位";
       description := "暂无相关信息";
       style := StyleList ["风格未明"] |} in
  scan_registry player_profiles seat_name hm_list_df player_info.

(** The columns [drop_duplicates] compares. *)
Definition key : Set := (string * cell * cell * cell * cell * cell)%type.

Definition key_of (r : TopData.row) : key :=
  (TopData.exalter r, TopData.buy r, TopData.sell r, TopData.net_buy r,
   TopData.buy_rate r, TopData.sell_rate r).

Definition key_eq_dec (a b : key) : {a = b} + {a <> b}.
Proof. repeat decide equality; apply Qc_eq_dec. Defined.

(** [df.drop_duplicates(subset=...)]: the first row of each key is kept, in
    the order of the frame. *)
Fixpoint drop_duplicates_seen (seen : list key) (df : list TopData.row)
    : list TopData.row :=
  match df with
  | [] => []
  | r :: df' =>
      if in_dec key_eq_dec (key_of r) seen
      then drop_duplicates_seen seen df'
      else r :: drop_duplicates_seen (key_of r :: seen) df'
  end.

Definition drop_duplicates (df : list TopData.row) : list TopData.row :=
  drop_duplicates_seen [] df.

(** Order of [sort_values('net_buy', ascending=False)]: larger first, missing
    values last. *)
Definition goes_before (a b : cell) : bool :=
  match a, b with
  | Num x, Num y => if Qclt_le_dec x y then false else true
  | Num _, NaN => true
  | NaN, Num _ => false
  | NaN, NaN => true
  end.

Fixpoint insert_row (r : TopData.row) (df : list TopData.row)
    : list TopData.row :=
  match df with
  | [] => [r]
  | r' :: df' =>
      if goes_before (TopData.net_buy r') (TopData.net_buy r)
         && negb (goes_before (TopData.net_buy r) (TopData.net_buy r'))
      then r' :: insert_row r df'
      else r :: df
  end.

(** Rows with equal [net_buy] keep the order of the frame here; pandas'
    default sort is not stable, so in the program their order is not
    determined.  No property below depends on it. *)
Definition sort_values_net_buy_desc (df : list TopData.row)
    : list TopData.row :=
  fold_right insert_row [] df.

Definition make_seat_info (player_profiles : list (string * profile_data))
    (hm_list_df : list HmList.row) (seat_row : TopData.row) : seat_info :=
  {| seat_name := TopData.exalter seat_row;
     buy_amount := _format_amount (Num (max0 (TopData.buy seat_row)));
     sell_amount := _format_amount (Num (max0 (TopData.sell seat_row)));
     net_amount := _format_amount (TopData.net_buy seat_row);
     buy_rate := _format_percentage (Num (max0 (TopData.buy_rate seat_row)));
     sell_rate := _format_percentage (Num (max0 (TopData.sell_rate seat_row)));
     player := _identify_player player_profiles (TopData.exalter seat_row)
                 hm_list_df |}.

(** The exact sum; the program adds binary64 values in the order of the
    sorted rows. *)
Definition total_of (f : TopData.row -> cell) (df : list TopData.row) : Qc :=
  fold_left Qcplus (map (fun r => max0 (f r)) df) (Q2Qc 0).

Definition _process_seat_data (player_profiles : list (string * profile_data))
    (ts_code : string) (top_data_df : list TopData.row)
    (hm_list_df : list HmList.row) : seat_data :=
  let stock_seats :=
    filter (fun r => String.eqb (TopData.ts_code r) ts_code) top_data_df in
  match stock_seats with
  | [] => {| buy_seats := []; sell_seats := [];
             buy_total := "0.00万元"; sell_total := "0.00万元" |}
  | _ =>
      let stock_seats_dedup := drop_duplicates stock_seats in
      let stock_seats_sorted := sort_values_net_buy_desc stock_seats_dedup in
      let '(buy_seats, sell_seats) :=
        fold_left
          (fun '(buy_seats, sell_seats) seat_row =>
             let seat_info :=
               make_seat_info player_profiles hm_list_df seat_row in
             if gt0 (TopData.net_buy seat_row)
             then ((buy_seats ++ [seat_info])%list, sell_seats)
             else (buy_seats, (sell_seats ++ [seat_info])%list))
          stock_seats_sorted ([], []) in
      {| buy_seats := buy_seats;
         sell_seats := sell_seats;
         buy_total := _format_amount (Num (total_of TopData.buy stock_seats_sorted));
         sell_total := _format_amount (Num (total_of TopData.sell stock_seats_sorted)) |}
  end.

(** One row of [top_list_df] (the per-stock daily list).  The fetcher only
    warns about missing codes, so [ts_code] can be missing: [None]. *)
Module TopList.
Record row : Set := {
  trade_date : string;
  ts_code : option string;
  name : string;
  close : cell;
  pct_change : cell;
  turnover_rate : cell;
  amount : cell;
  l_sell : cell;
  l_buy : cell;
  l_amount : cell;
  net_amount : cell;
  net_rate : cell;
  amount_rate : cell;
  float_values : cell;
  reason : string
}.
End TopList.

(** The dict [_merge_stock_records] returns. *)
Module MergedInfo.
Record t : Set := {
  close : Q;
  pct_change : string;
  turnover_rate : string;
  amount : string;
  l_sell : string;
  l_buy : string;
  l_amount : string;
  net_amount : string;
  net_rate : string;
  amount_rate : string;
  float_values : string;
  reasons : list string;
  trade_date_display : string
}.
End MergedInfo.

(** The dict [_extract_basic_info] returns. *)
Module BasicInfo.
Record t : Set := {
  close : Q;
  pct_change : string;
  turnover_rate : string;
  amount : string;
  l_sell : string;
  l_buy : string;
  l_amount : string;
  net_amount : string;
  net_rate : string;
  amount_rate : string;
  float_values : string;
  reason : string;
  trade_date_display : string
}.
End BasicInfo.

Definition _format_price (price : cell) : Q :=
  match price with
  | NaN => 0
  | Num p => Py.round2 p
  end.

(** The date column holds strings. *)
Definition _format_date_display (date_str : string) : string :=
  if Py.is_empty date_str then EmptyString
  else if (Py.len date_str =? 8)%nat
  then Py.take_chars 4 date_str ++ "-" ++ Py.slice 4 6 date_str
         ++ "-" ++ Py.slice 6 8 date_str
  else date_str.

(** The local helper of [_merge_stock_records] and [_extract_basic_info],
    with its default 0.0. *)
Definition safe_float (value : cell) : Qc :=
  match value with
  | NaN => Q2Qc 0
  | Num q => q
  end.

(** [series.max()]: the largest value that is not missing, and the missing
    value when there is none. *)
Definition series_max (l : list cell) : cell :=
  fold_left
    (fun acc c =>
       match acc, c with
       | NaN, _ => c
       | _, NaN => acc
       | Num a, Num b => if Qclt_le_dec a b then Num b else Num a
       end)
    l NaN.

(** [drop_duplicates] on one column: the first row of each value is kept,
    in the order of the frame.  [same] tells when two cells count as
    duplicates. *)
Fixpoint drop_duplicates_on {A K} (same : K -> K -> bool) (col : A -> K)
    (seen : list K) (df : list A) : list A :=
  match df with
  | [] => []
  | r :: df' =>
      if existsb (same (col r)) seen
      then drop_duplicates_on same col seen df'
      else r :: drop_duplicates_on same col (col r :: seen) df'
  end.

(** Duplicates in the code column: two missing codes count as equal. *)
Definition same_code (a b : option string) : bool :=
  match a, b with
  | Some x, Some y => String.eqb x y
  | None, None => true
  | _, _ => false
  end.

(** [df['ts_code'] == ts_code]: a missing code equals no code, not even a
    missing one. *)
Definition code_eq (a b : option string) : bool :=
  match a, b with
  | Some x, Some y => String.eqb x y
  | _, _ => false
  end.

Definition _merge_stock_records (stock_records : list TopList.row)
    : Py.M MergedInfo.t :=
  first_record <- Py.item0 stock_records ;;
  Py.ret
    {| MergedInfo.close := _format_price (TopList.close first_record);
       MergedInfo.pct_change :=
         _format_percentage (TopList.pct_change first_record);
       MergedInfo.turnover_rate :=
         _format_percentage
           (series_max (map TopList.turnover_rate stock_records));
       MergedInfo.amount :=
         _format_amount
           (Num (safe_float (series_max (map TopList.amount stock_records))));
       MergedInfo.l_sell :=
         _format_amount
           (Num (safe_float (series_max (map TopList.l_sell stock_records))));
       MergedInfo.l_buy :=
         _format_amount
           (Num (safe_float (series_max (map TopList.l_buy stock_records))));
       MergedInfo.l_amount :=
         _format_amount
           (Num (safe_float (series_max (map TopList.l_amount stock_records))));
       MergedInfo.net_amount :=
         _format_amount
           (Num (safe_float
                   (series_max (map TopList.net_amount stock_records))));
       MergedInfo.net_rate :=
         _format_percentage (series_max (map TopList.net_rate stock_records));
       MergedInfo.amount_rate :=
         _format_percentage
           (series_max (map TopList.amount_rate stock_records));
       MergedInfo.float_values :=
         _format_amount (Num (safe_float (TopList.float_values first_record)));
       MergedInfo.reasons :=
         drop_duplicates_on String.eqb (fun x => x) []
           (map TopList.reason stock_records);
       MergedInfo.trade_date_display :=
         _format_date_display (TopList.trade_date first_record) |}.

Definition _extract_basic_info (stock_row : TopList.row) : BasicInfo.t :=
  {| BasicInfo.close := _format_price (TopList.close stock_row);
     BasicInfo.pct_change := _format_percentage (TopList.pct_change stock_row);
     BasicInfo.turnover_rate :=
       _format_percentage (TopList.turnover_rate stock_row);
     BasicInfo.amount :=
       _format_amount (Num (safe_float (TopList.amount stock_row)));
     BasicInfo.l_sell :=
       _format_amount (Num (safe_float (TopList.l_sell stock_row)));
     BasicInfo.l_buy :=
       _format_amount (Num (safe_float (TopList.l_buy stock_row)));
     BasicInfo.l_amount :=
       _format_amount (Num (safe_float (TopList.l_amount stock_row)));
     BasicInfo.net_amount :=
       _format_amount (Num (safe_float (TopList.net_amount stock_row)));
     BasicInfo.net_rate := _format_percentage (TopList.net_rate stock_row);
     BasicInfo.amount_rate :=
       _format_percentage (TopList.amount_rate stock_row);
     BasicInfo.float_values :=
       _format_amount (Num (safe_float (TopList.float_values stock_row)));
     BasicInfo.reason := TopList.reason stock_row;
     BasicInfo.trade_date_display :=
       _format_date_display (TopList.trade_date stock_row) |}.

(** One entry of the list [_process_stock_data] returns. *)
Module StockInfo.
Record t {H : Type} : Type := {
  ts_code : option string;
  name : string;
  trade_date : string;
  basic_info : MergedInfo.t;
  seat_data : seat_data;
  historical_data : H
}.
Arguments t : clear implicits.
End StockInfo.

Section StockData.

(** [_process_historical_data] computes a standard deviation, which has no
    exact rational value: it is a parameter here, with the frame it reads
    and the dict it returns.  It reads columns of the frame by name and so
    can raise. *)
Variables daily_frame historical : Type.
Variable _process_historical_data :
  option string -> daily_frame -> Py.M historical.

Definition stock_entry (player_profiles : list (string * profile_data))
    (top_list_df : list TopList.row) (top_data_df : list TopData.row)
    (daily_df : daily_frame) (hm_list_df : list HmList.row)
    (stock_row : TopList.row) : Py.M (StockInfo.t historical) :=
  let ts_code := TopList.ts_code stock_row in
  let stock_records :=
    filter (fun r => code_eq (TopList.ts_code r) ts_code) top_list_df in
  merged_info <- _merge_stock_records stock_records ;;
  let seat_data :=
    match ts_code with
    | Some code =>
        _process_seat_data player_profiles code top_data_df hm_list_df
    | None =>
        (* a missing code selects no row of the seat table *)
        {| buy_seats := []; sell_seats := [];
           buy_total := "0.00万元"; sell_total := "0.00万元" |}
    end in
  historical_data <- _process_historical_data ts_code daily_df ;;
  Py.ret
    {| StockInfo.ts_code := ts_code;
       StockInfo.name := TopList.name stock_row;
       StockInfo.trade_date := TopList.trade_date stock_row;
       StockInfo.basic_info := merged_info;
       StockInfo.seat_data := seat_data;
       StockInfo.historical_data := historical_data |}.

(** The loop over [unique_stocks]: [stocks_data.append(stock_info)]. *)
Fixpoint append_entries (player_profiles : list (string * profile_data))
    (top_list_df : list TopList.row) (top_data_df : list TopData.row)
    (daily_df : daily_frame) (hm_list_df : list HmList.row)
    (unique_stocks : list TopList.row)
    (stocks_data : list (StockInfo.t historical))
    : Py.M (list (StockInfo.t historical)) :=
  match unique_stocks with
  | [] => Py.ret stocks_data
  | stock_row :: rest =>
      stock_info <- stock_entry player_profiles top_list_df top_data_df
                      daily_df hm_list_df stock_row ;;
      append_entries player_profiles top_list_df top_data_df daily_df
        hm_list_df rest (stocks_data ++ [stock_info])%list
  end.

Definition _process_stock_data (player_profiles : list (string * profile_data))
    (top_list_df : list TopList.row) (top_data_df : list TopData.row)
    (daily_df : daily_frame) (hm_list_df : list HmList.row)
    : Py.M (list (StockInfo.t historical)) :=
  let unique_stocks :=
    drop_duplicates_on same_code TopList.ts_code [] top_list_df in
  append_entries player_profiles top_list_df top_data_df daily_df hm_list_df
    unique_stocks [].

End StockData.

End DataProcessor.

(** ** [src/core/Fund_battle_V1/funding_battle_builder.py] *)

Module FundingBattleBuilder.

(** The JSON input.  A key that may be absent is an [option]; the defaults
    are those of the [dict.get] calls below.  A key that is present holds a
    value of the expected type: JSON [null], on which several of the calls
    below raise AttributeError, is not represented. *)
Record player_info : Set := {
  type : option string;
  name : option string;
  description : option string;
  style : option DataProcessor.style_value
}.

Record seat : Set := {
  seat_name : option string;
  net_amount : option string;
  buy_amount : option string;
  sell_amount : option string;
  buy_rate : option string;
  sell_rate : option string;
  seat_player_info : option player_info
}.

Record seat_data : Set := {
  buy_seats : option (list seat);
  sell_seats : option (list seat)
}.

Record stock : Set := {
  ts_code : option string;
  stock_name : option string;
  basic_info : option (list (string * string));
  stock_seat_data : option seat_data
}.

Record raw_data : Set := {
  stocks : option (list stock)
}.

(** The output. *)
Record concentration : Set := {
  top1_pct : Q;
  top2_pct : Q;
  top5_pct : Q
}.

Record player_data : Set := {
  p_seat_name : string;
  p_net_amount : string;
  p_buy : string;
  p_sell : string;
  p_buy_rate : string;
  p_sell_rate : string;
  p_net_rate : string;
  p_type : string;
  p_name : string;
  p_description : string;
  p_style : DataProcessor.style_value
}.

Record side_facts : Set := {
  total_amount_wan : Q;
  player_count : nat;
  famous_player_count : nat;
  concentration_metrics : concentration;
  contribution_by_type : list (string * Q);
  players : list player_data
}.

Record battle_facts_t : Set := {
  net_advantage_wan : Q;
  winner : string;
  net_advantage_pct : Q;
  on_list_turnover_pct : Q
}.

Record structured_facts : Set := {
  sf_ts_code : string;
  sf_name : string;
  raw_basic_info : list (string * string);
  long_side_facts : side_facts;
  short_side_facts : side_facts;
  battle_facts : battle_facts_t
}.

(** [d.get(k, default)] *)
Definition get {A} (v : option A) (default : A) : A :=
  match v with
  | Some a => a
  | None => default
  end.

Definition parse_amount_to_wan (amount_str : string) : Py.M Q :=
  Py.catch
    (if Py.is_empty amount_str || Py.is_empty (Py.strip amount_str)
     then Py.ret 0
     else
       let clean_str :=
         Py.remove "," (Py.remove "元" (Py.remove " " amount_str)) in
       if Py.contains "亿" clean_str then
         let num_str := Py.remove "亿" clean_str in
         x <- Py.float num_str ;; Py.ret (x * 10000)
       else if Py.contains "万" clean_str then
         let num_str := Py.remove "万" clean_str in
         Py.float num_str
       else Py.float clean_str)
    0.

Definition parse_percentage (pct_str : string) : Py.M Q :=
  Py.catch
    (if Py.is_empty pct_str || Py.is_empty (Py.strip pct_str)
     then Py.ret 0
     else
       let clean_str := Py.strip (Py.remove "%" pct_str) in
       Py.float clean_str)
    0.

Definition zero_concentration : concentration :=
  {| top1_pct := 0; top2_pct := 0; top5_pct := 0 |}.

Definition calculate_concentration_metrics (amounts : list Q)
    : Py.M concentration :=
  match amounts with
  | [] => Py.ret zero_concentration
  | _ =>
      let sorted_amounts := Py.sorted_reverse amounts in
      let total := Py.sum amounts in
      if Qeq_bool total 0 then Py.ret zero_concentration
      else
        top1_pct <-
          (if (1 <=? List.length sorted_amounts)%nat
           then a0 <- Py.item0 sorted_amounts ;;
                r <- Py.div a0 total ;; Py.ret (r * 100)
           else Py.ret 0) ;;
        let top2_sum :=
          if (2 <=? List.length sorted_amounts)%nat
          then Py.sum (Py.slice_to 2 sorted_amounts)
          else Py.sum sorted_amounts in
        r2 <- Py.div top2_sum total ;;
        let top2_pct := r2 * 100 in
        let top5_sum :=
          if (5 <=? List.length sorted_amounts)%nat
          then Py.sum (Py.slice_to 5 sorted_amounts)
          else Py.sum sorted_amounts in
        r5 <- Py.div top5_sum total ;;
        let top5_pct := r5 * 100 in
        Py.ret {| top1_pct := Py.round1 top1_pct;
                  top2_pct := Py.round1 top2_pct;
                  top5_pct := Py.round1 top5_pct |}
  end.

(** [d[k] += v], with [d[k] = 0.0] first when [k] is new: a dict keeps its
    keys in insertion order. *)
Fixpoint add_contribution (k : string) (v : Q) (d : list (string * Q))
    : list (string * Q) :=
  match d with
  | [] => [(k, 0 + v)]
  | (k', a) :: d' =>
      if String.eqb k k' then (k', a + v) :: d'
      else (k', a) :: add_contribution k v d'
  end.

(** The variables the loop of [analyze_side_data] updates. *)
Record loop_state : Set := {
  processed_players : list player_data;
  amounts : list Q;
  famous_count : nat;
  contributions : list (string * Q)
}.

Definition empty_player_info : player_info :=
  {| type := None; name := None; description := None; style := None |}.

Definition analyze_seat (side_type : string) (st : loop_state) (seat : seat)
    : Py.M loop_state :=
  let amount_str :=
    if String.eqb side_type "buy" then get (net_amount seat) "0万元"
    else
      let amount_str := get (net_amount seat) "0万元" in
      if Py.startswith amount_str "-"
      then substring 1 (String.length amount_str - 1) amount_str
      else amount_str in
  amount_wan <- parse_amount_to_wan amount_str ;;
  let player_info := get (seat_player_info seat) empty_player_info in
  let player_type := get (type player_info) "普通席位" in
  let famous_count :=
    if String.eqb player_type "知名游资"
    then S (famous_count st) else famous_count st in
  let contribution_by_type :=
    add_contribution player_type amount_wan (contributions st) in
  let player_data :=
    {| p_seat_name := get (seat_name seat) EmptyString;
       p_net_amount := get (net_amount seat) "0万元";
       p_buy := get (buy_amount seat) "0万元";
       p_sell := get (sell_amount seat) "0万元";
       p_buy_rate := get (buy_rate seat) "0.00%";
       p_sell_rate := get (sell_rate seat) "0.00%";
       p_net_rate :=
         if Qlt_le_dec 0 amount_wan
         then Py.format_2f false (amount_wan / 10000) ++ "%"
         else "0.00%";
       p_type := player_type;
       p_name := get (name player_info) player_type;
       p_description := get (description player_info) "暂无相关信息";
       p_style := get (style player_info)
                    (DataProcessor.StyleList ["风格未明"]) |} in
  Py.ret {| processed_players := (processed_players st ++ [player_data])%list;
            amounts := (amounts st ++ [amount_wan])%list;
            famous_count := famous_count;
            contributions := contribution_by_type |}.

Fixpoint for_each {S A} (body : S -> A -> Py.M S) (l : list A) (st : S)
    : Py.M S :=
  match l with
  | [] => Py.ret st
  | a :: l' => st' <- body st a ;; for_each body l' st'
  end.

Definition analyze_side_data (seats : list seat) (side_type : string)
    : Py.M side_facts :=
  match seats with
  | [] =>
      Py.ret {| total_amount_wan := 0;
                player_count := 0;
                famous_player_count := 0;
                concentration_metrics := zero_concentration;
                contribution_by_type := [];
                players := [] |}
  | _ =>
      st <- for_each (analyze_seat side_type) seats
              {| processed_players := []; amounts := [];
                 famous_count := 0; contributions := [] |} ;;
      concentration_metrics <- calculate_concentration_metrics (amounts st) ;;
      let formatted_contribution :=
        map (fun '(ptype, amount) => (ptype ++ "_net_wan", Py.round1 amount))
            (contributions st) in
      Py.ret {| total_amount_wan := Py.round1 (Py.sum (amounts st));
                player_count := List.length seats;
                famous_player_count := famous_count st;
                concentration_metrics := concentration_metrics;
                contribution_by_type := formatted_contribution;
                players := processed_players st |}
  end.

Definition calculate_battle_metrics (long_side short_side : side_facts)
    (basic_info : list (string * string)) : Py.M battle_facts_t :=
  let long_amount := total_amount_wan long_side in
  let short_amount := total_amount_wan short_side in
  let net_advantage_wan := long_amount - short_amount in
  let winner :=
    if Qlt_le_dec 0 net_advantage_wan then "多方"
    else if Qlt_le_dec net_advantage_wan 0 then "空方"
    else "平局" in
  let total_amount := long_amount + short_amount in
  net_advantage_pct <-
    (if Qlt_le_dec 0 total_amount
     then r <- Py.div (Qabs net_advantage_wan) total_amount ;; Py.ret (r * 100)
     else Py.ret 0) ;;
  let amount_rate_str :=
    get (DataProcessor.lookup "amount_rate" basic_info) "0.00%" in
  on_list_turnover_pct <- parse_percentage amount_rate_str ;;
  Py.ret {| net_advantage_wan := Py.round1 net_advantage_wan;
            winner := winner;
            net_advantage_pct := Py.round1 net_advantage_pct;
            on_list_turnover_pct := Py.round1 on_list_turnover_pct |}.

(** The result is [None] for the empty dict [{}]. *)
Definition build_structured_facts (raw_data : raw_data)
    : Py.M (option structured_facts) :=
  let stocks := get (stocks raw_data) [] in
  match stocks with
  | [] => Py.ret None
  | _ =>
      stock_data <- Py.item0 stocks ;;
      let ts_code := get (ts_code stock_data) EmptyString in
      let name := get (stock_name stock_data) EmptyString in
      let basic_info := get (basic_info stock_data) [] in
      let seat_data :=
        get (stock_seat_data stock_data)
            {| buy_seats := None; sell_seats := None |} in
      let buy_seats := get (buy_seats seat_data) [] in
      long_side_facts <- analyze_side_data buy_seats "buy" ;;
      let sell_seats := get (sell_seats seat_data) [] in
      short_side_facts <- analyze_side_data sell_seats "sell" ;;
      battle_facts <-
        calculate_battle_metrics long_side_facts short_side_facts basic_info ;;
      Py.ret (Some {| sf_ts_code := ts_code;
                      sf_name := name;
                      raw_basic_info := basic_info;
                      long_side_facts := long_side_facts;
                      short_side_facts := short_side_facts;
                      battle_facts := battle_facts |})
  end.

(** Truth value of the returned dict. *)
Definition truthy (d : option structured_facts) : bool :=
  match d with
  | Some _ => true
  | None => false
  end.

End FundingBattleBuilder.

(** ** The concentration metrics in binary64

    Python's [float] is an IEEE 754 binary64 number.  This module follows
    [calculate_concentration_metrics] in that arithmetic, operation by
    operation, on the kernel's primitive floats. *)

Module Binary64.

(** The exact value of a finite number; [None] for an infinity or NaN. *)
Definition to_Q (x : float) : option Q :=
  match Prim2SF x with
  | S754_zero _ => Some 0
  | S754_finite s m e =>
      let v := inject_Z (Z.pos m) * Qpower 2 e in
      Some (if s then - v else v)
  | _ => None
  end.

(** The number nearest to [n / d], ties to even: the float of a decimal
    numeral. *)
Definition of_ratio (n : Z) (d : positive) : float :=
  match n with
  | Z0 => 0%float
  | Z.pos m =>
      SF2Prim (SFdiv prec emax (S754_finite false m 0) (S754_finite false d 0))
  | Z.neg m =>
      SF2Prim (SFdiv prec emax (S754_finite true m 0) (S754_finite false d 0))
  end.

(** [round(x, ndigits)]: the exact value of [x] is rounded to [ndigits]
    decimals, half to even, and the float of that decimal is returned; an
    infinity or NaN is returned as it is. *)
Definition round (x : float) (ndigits : nat) : float :=
  match to_Q x with
  | None => x
  | Some q =>
      let p := Z.to_pos (10 ^ Z.of_nat ndigits) in
      let n := Py.round_half_even (q * inject_Z (Z.pos p)) in
      if (n =? 0)%Z then (if get_sign x then (-0)%float else 0%float)
      else of_ratio n p
  end.

(** [x / y] *)
Definition div (x y : float) : Py.M float :=
  if PrimFloat.eqb y 0 then Py.raise Py.ZeroDivisionError
  else Py.ret (x / y)%float.

(** [sum(l)]: from 0, adding left to right. *)
Definition sum (l : list float) : float := fold_left PrimFloat.add l 0%float.

(** [sorted(l, reverse=True)]: stable, descending. *)
Fixpoint insert_desc (x : float) (l : list float) : list float :=
  match l with
  | [] => [x]
  | y :: l' => if PrimFloat.leb y x then x :: l else y :: insert_desc x l'
  end.

Definition sorted_reverse (l : list float) : list float :=
  fold_right insert_desc [] l.

Record concentration : Set := {
  top1_pct : float;
  top2_pct : float;
  top5_pct : float
}.

Definition zero_concentration : concentration :=
  {| top1_pct := 0; top2_pct := 0; top5_pct := 0 |}.

Definition calculate_concentration_metrics (amounts : list float)
    : Py.M concentration :=
  match amounts with
  | [] => Py.ret zero_concentration
  | _ =>
      let sorted_amounts := sorted_reverse amounts in
      let total := sum amounts in
      if PrimFloat.eqb total 0 then Py.ret zero_concentration
      else
        top1_pct <-
          (if (1 <=? List.length sorted_amounts)%nat
           then a0 <- Py.item0 sorted_amounts ;;
                r <- div a0 total ;; Py.ret (r * 100)%float
           else Py.ret 0%float) ;;
        let top2_sum :=
          if (2 <=? List.length sorted_amounts)%nat
          then sum (Py.slice_to 2 sorted_amounts)
          else sum sorted_amounts in
        r2 <- div top2_sum total ;;
        let top2_pct := (r2 * 100)%float in
        let top5_sum :=
          if (5 <=? List.length sorted_amounts)%nat
          then sum (Py.slice_to 5 sorted_amounts)
          else sum sorted_amounts in
        r5 <- div top5_sum total ;;
        let top5_pct := (r5 * 100)%float in
        Py.ret {| top1_pct := round top1_pct 1;
                  top2_pct := round top2_pct 1;
                  top5_pct := round top5_pct 1 |}
  end.

End Binary64.

(** ** [src/core/seat_visualization.py] *)

Module SeatVisualization.

Definition format_amount (amount : string) : Q :=
  if Py.is_empty amount || String.eqb amount "0.00万元" then 0
  else
    let amount_clean := Py.remove_class ["万"; "元"; "亿"] amount in
    let amount_clean := Py.remove "," amount_clean in
    Py.catch_any
      (value <- Py.float amount_clean ;;
       Py.ret (if Py.contains "亿" amount then value * 10000 else value))
      0.

End SeatVisualization.

(** ** [src/dragon_tiger_pipeline.py] *)

Module DragonTigerPipeline.

Definition _format_date_display (date_str : string) : string :=
  if (Py.len date_str =? 8)%nat
  then Py.take_chars 4 date_str ++ "-" ++ Py.slice 4 6 date_str
         ++ "-" ++ Py.slice 6 8 date_str
  else date_str.

Definition _count_items (items : list string) : list (string * nat) :=
  fold_left
    (fun count_dict item =>
       Py.dict_set item (Py.dict_get item count_dict 0 + 1)%nat count_dict)
    items [].

End DragonTigerPipeline.

(** ** From the processor's output to the builder's input

    The processor's stock entry is written to JSON and read back by the
    builder; every key the builder looks up is present. *)

Module Pipeline.

Definition json_of_player (p : DataProcessor.player_info)
    : FundingBattleBuilder.player_info :=
  {| FundingBattleBuilder.type := Some (DataProcessor.type p);
     FundingBattleBuilder.name := Some (DataProcessor.name p);
     FundingBattleBuilder.description := Some (DataProcessor.description p);
     FundingBattleBuilder.style := Some (DataProcessor.style p) |}.

Definition json_of_seat (s : DataProcessor.seat_info)
    : FundingBattleBuilder.seat :=
  {| FundingBattleBuilder.seat_name := Some (DataProcessor.seat_name s);
     FundingBattleBuilder.net_amount := Some (DataProcessor.net_amount s);
     FundingBattleBuilder.buy_amount := Some (DataProcessor.buy_amount s);
     FundingBattleBuilder.sell_amount := Some (DataProcessor.sell_amount s);
     FundingBattleBuilder.buy_rate := Some (DataProcessor.buy_rate s);
     FundingBattleBuilder.sell_rate := Some (DataProcessor.sell_rate s);
     FundingBattleBuilder.seat_player_info :=
       Some (json_of_player (DataProcessor.player s)) |}.

Definition json_of_seat_data (d : DataProcessor.seat_data)
    : FundingBattleBuilder.seat_data :=
  {| FundingBattleBuilder.buy_seats :=
       Some (map json_of_seat (DataProcessor.buy_seats d));
     FundingBattleBuilder.sell_seats :=
       Some (map json_of_seat (DataProcessor.sell_seats d)) |}.

(** The raw record of one stock as the processor emits it. *)
Definition raw_record (player_profiles : list (string * DataProcessor.profile_data))
    (ts_code name : string) (basic_info : list (string * string))
    (top_data_df : list DataProcessor.TopData.row)
    (hm_list_df : list DataProcessor.HmList.row)
    : FundingBattleBuilder.raw_data :=
  {| FundingBattleBuilder.stocks :=
       Some [ {| FundingBattleBuilder.ts_code := Some ts_code;
                 FundingBattleBuilder.stock_name := Some name;
                 FundingBattleBuilder.basic_info := Some basic_info;
                 FundingBattleBuilder.stock_seat_data :=
                   Some (json_of_seat_data
                           (DataProcessor._process_seat_data player_profiles
                              ts_code top_data_df hm_list_df)) |} ] |}.

End Pipeline.

(** ** The specification's own formulations

    Definitions that follow the wording of the specification, to be compared
    with the code above, and the predicates in which the properties below
    are stated. *)

Module Spec.

(** Concentration metrics as the specification words them: an empty list or
    a zero total gives 0.0 three times; otherwise sort descending, take the
    sum of the first min(k, n) amounts over the total, times 100, rounded to
    one decimal. *)
Definition concentration_metrics (amounts : list Q)
    : FundingBattleBuilder.concentration :=
  let n := List.length amounts in
  let total := Py.sum amounts in
  if (n =? 0)%nat || Qeq_bool total 0 then
    FundingBattleBuilder.zero_concentration
  else
    let sorted := Py.sorted_reverse amounts in
    let top k := Py.sum (firstn (Nat.min k n) sorted) / total * 100 in
    {| FundingBattleBuilder.top1_pct := Py.round1 (nth 0 sorted 0 / total * 100);
       FundingBattleBuilder.top2_pct := Py.round1 (top 2%nat);
       FundingBattleBuilder.top5_pct := Py.round1 (top 5%nat) |}.


(** A seat of the input is carried into a ProcessedPlayer entry: name,
    amounts, rates and category are passed through as they are. *)
Definition carried (s : FundingBattleBuilder.seat)
    (p : FundingBattleBuilder.player_data) : Prop :=
  let get := @FundingBattleBuilder.get in
  let info := get _ (FundingBattleBuilder.seat_player_info s)
                FundingBattleBuilder.empty_player_info in
  FundingBattleBuilder.p_seat_name p
    = get _ (FundingBattleBuilder.seat_name s) EmptyString
  /\ FundingBattleBuilder.p_net_amount p
    = get _ (FundingBattleBuilder.net_amount s) "0万元"
  /\ FundingBattleBuilder.p_buy p
    = get _ (FundingBattleBuilder.buy_amount s) "0万元"
  /\ FundingBattleBuilder.p_sell p
    = get _ (FundingBattleBuilder.sell_amount s) "0万元"
  /\ FundingBattleBuilder.p_buy_rate p
    = get _ (FundingBattleBuilder.buy_rate s) "0.00%"
  /\ FundingBattleBuilder.p_sell_rate p
    = get _ (FundingBattleBuilder.sell_rate s) "0.00%"
  /\ FundingBattleBuilder.p_type p
    = get _ (FundingBattleBuilder.type info) "普通席位".

(** "Strictly positive net amount" of a DataFrame cell. *)
Definition positive_net (c : DataProcessor.cell) : Prop :=
  match c with
  | DataProcessor.Num q => (0 < q)%Qc
  | DataProcessor.NaN => False
  end.

(** "Descending by net amount", missing values last. *)
Definition net_descending (a b : DataProcessor.cell) : Prop :=
  match a, b with
  | DataProcessor.Num x, DataProcessor.Num y => (y <= x)%Qc
  | _, DataProcessor.NaN => True
  | DataProcessor.NaN, DataProcessor.Num _ => False
  end.

Definition rows_descending (rows : list DataProcessor.TopData.row) : Prop :=
  StronglySorted
    (fun r r' => net_descending (DataProcessor.TopData.net_buy r)
                                (DataProcessor.TopData.net_buy r'))
    rows.

(** "Ascending by net amount, most negative first". *)
Definition rows_ascending (rows : list DataProcessor.TopData.row) : Prop :=
  StronglySorted
    (fun r r' => net_descending (DataProcessor.TopData.net_buy r')
                                (DataProcessor.TopData.net_buy r))
    rows.

(** The number that the two-decimal rendering of [q] denotes. *)
Definition shown_2f (q : Q) : Q :=
  let n := inject_Z (Py.round_half_even (Qabs q * 100)) / 100 in
  if Qlt_le_dec q 0 then - n else n.

(** The bytes of a formatted number: digits, sign, decimal point, and the
    thousands separator. *)
Definition plain_char (c : ascii) : bool :=
  Py.is_digit c || Ascii.eqb c "-" || Ascii.eqb c ".".

Definition plain_or_comma (c : ascii) : bool :=
  plain_char c || Ascii.eqb c ",".

(** A numeral below 100 is written with two digits that read back as it. *)
Definition two_digits_ok (n : N) : bool :=
  (String.length (Py.two_digits n) =? 2)%nat
  && Py.all_chars Py.is_digit (Py.two_digits n)
  && (Py.digits_value (Py.two_digits n) =? n)%N.

(** Some registry entry has an alias that matches the seat name. *)
Definition registry_hit (seat_name : string)
    (hm_list_df : list DataProcessor.HmList.row) : bool :=
  existsb
    (fun hm_row =>
       match DataProcessor.HmList.orgs hm_row with
       | Some orgs => existsb (DataProcessor.org_matches seat_name) orgs
       | None => false
       end)
    hm_list_df.

(** The text [analyze_side_data] parses for a seat: its net amount, on the
    sell side without one leading minus sign. *)
Definition side_amount_str (side_type : string)
    (s : FundingBattleBuilder.seat) : string :=
  let amount_str :=
    FundingBattleBuilder.get (FundingBattleBuilder.net_amount s) "0万元" in
  if String.eqb side_type "buy" then amount_str
  else if Py.startswith amount_str "-"
       then substring 1 (String.length amount_str - 1) amount_str
       else amount_str.

(** The amount of a seat in 万元, as [analyze_side_data] counts it. *)
Definition side_amount (side_type : string)
    (s : FundingBattleBuilder.seat) : Q :=
  match FundingBattleBuilder.parse_amount_to_wan (side_amount_str side_type s)
  with
  | inr q => q
  | inl _ => 0
  end.

(** The category of a seat, with the default of a seat without one. *)
Definition seat_type (s : FundingBattleBuilder.seat) : string :=
  FundingBattleBuilder.get
    (FundingBattleBuilder.type
       (FundingBattleBuilder.get (FundingBattleBuilder.seat_player_info s)
          FundingBattleBuilder.empty_player_info))
    "普通席位".


(** The categories [_identify_player] can produce. *)
Definition player_types : list string :=
  ["普通席位"; "机构专用"; "量化"; "机构"; "知名游资"].


(** The four labelled fields of a trader's profile, in the order of the
    dict. *)
Definition profile_fields (pd : DataProcessor.profile_data)
    : list (string * string) :=
  [("核心交易档案", DataProcessor.profile pd);
   ("标的选择偏好", DataProcessor.preference pd);
   ("盘中操盘密码", DataProcessor.code pd);
   ("软实力与市场标签", DataProcessor.reputation pd)].

(** What the entry of a stock holds, given the row of the daily list the
    loop of [_process_stock_data] is at. *)
Definition entry_of {historical : Type}
    (player_profiles : list (string * DataProcessor.profile_data))
    (top_list_df : list DataProcessor.TopList.row)
    (top_data_df : list DataProcessor.TopData.row)
    (hm_list_df : list DataProcessor.HmList.row)
    (stock_row : DataProcessor.TopList.row) (code : string)
    (h : historical)
    (e : DataProcessor.StockInfo.t historical) : Prop :=
  DataProcessor.TopList.ts_code stock_row = Some code
  /\ DataProcessor.StockInfo.ts_code e = Some code
  /\ DataProcessor.StockInfo.name e = DataProcessor.TopList.name stock_row
  /\ DataProcessor.StockInfo.trade_date e
     = DataProcessor.TopList.trade_date stock_row
  /\ DataProcessor._merge_stock_records
       (filter (fun r => DataProcessor.code_eq
                           (DataProcessor.TopList.ts_code r) (Some code))
          top_list_df)
     = Py.ret (DataProcessor.StockInfo.basic_info e)
  /\ DataProcessor.StockInfo.seat_data e
     = DataProcessor._process_seat_data player_profiles code top_data_df
         hm_list_df
  /\ DataProcessor.StockInfo.historical_data e = h.

(** The merged record [m] with another list of reasons. *)
Definition with_reasons (m : DataProcessor.MergedInfo.t)
    (reasons : list string) : DataProcessor.MergedInfo.t :=
  {| DataProcessor.MergedInfo.close := DataProcessor.MergedInfo.close m;
     DataProcessor.MergedInfo.pct_change :=
       DataProcessor.MergedInfo.pct_change m;
     DataProcessor.MergedInfo.turnover_rate :=
       DataProcessor.MergedInfo.turnover_rate m;
     DataProcessor.MergedInfo.amount := DataProcessor.MergedInfo.amount m;
     DataProcessor.MergedInfo.l_sell := DataProcessor.MergedInfo.l_sell m;
     DataProcessor.MergedInfo.l_buy := DataProcessor.MergedInfo.l_buy m;
     DataProcessor.MergedInfo.l_amount := DataProcessor.MergedInfo.l_amount m;
     DataProcessor.MergedInfo.net_amount :=
       DataProcessor.MergedInfo.net_amount m;
     DataProcessor.MergedInfo.net_rate := DataProcessor.MergedInfo.net_rate m;
     DataProcessor.MergedInfo.amount_rate :=
       DataProcessor.MergedInfo.amount_rate m;
     DataProcessor.MergedInfo.float_values :=
       DataProcessor.MergedInfo.float_values m;
     DataProcessor.MergedInfo.reasons := reasons;
     DataProcessor.MergedInfo.trade_date_display :=
       DataProcessor.MergedInfo.trade_date_display m |}.

(** The record [_extract_basic_info] returns, as a merged record with the
    one reason. *)
Definition merged_of_basic (b : DataProcessor.BasicInfo.t)
    : DataProcessor.MergedInfo.t :=
  {| DataProcessor.MergedInfo.close := DataProcessor.BasicInfo.close b;
     DataProcessor.MergedInfo.pct_change :=
       DataProcessor.BasicInfo.pct_change b;
     DataProcessor.MergedInfo.turnover_rate :=
       DataProcessor.BasicInfo.turnover_rate b;
     DataProcessor.MergedInfo.amount := DataProcessor.BasicInfo.amount b;
     DataProcessor.MergedInfo.l_sell := DataProcessor.BasicInfo.l_sell b;
     DataProcessor.MergedInfo.l_buy := DataProcessor.BasicInfo.l_buy b;
     DataProcessor.MergedInfo.l_amount := DataProcessor.BasicInfo.l_amount b;
     DataProcessor.MergedInfo.net_amount :=
       DataProcessor.BasicInfo.net_amount b;
     DataProcessor.MergedInfo.net_rate := DataProcessor.BasicInfo.net_rate b;
     DataProcessor.MergedInfo.amount_rate :=
       DataProcessor.BasicInfo.amount_rate b;
     DataProcessor.MergedInfo.float_values :=
       DataProcessor.BasicInfo.float_values b;
     DataProcessor.MergedInfo.reasons := [DataProcessor.BasicInfo.reason b];
     DataProcessor.MergedInfo.trade_date_display :=
       DataProcessor.BasicInfo.trade_date_display b |}.

End Spec.

(** ** Concrete inputs used in the examples below *)

Module Examples.

Import FundingBattleBuilder.

(** A seat dict that only has a name and a net amount. *)
Definition bare_seat (seat_name net_amount : string) : seat :=
  {| seat_name := Some seat_name;
     net_amount := Some net_amount;
     buy_amount := None;
     sell_amount := None;
     buy_rate := None;
     sell_rate := None;
     seat_player_info := None |}.

(** A raw record with one stock, given its two seat arrays. *)
Definition one_stock (buy_seats sell_seats : list seat) : raw_data :=
  {| stocks :=
       Some [ {| ts_code := Some "000001.SZ";
                 stock_name := Some "平安银行";
                 basic_info := Some [("amount_rate", "12.34%")];
                 stock_seat_data :=
                   Some {| buy_seats := Some buy_seats;
                           sell_seats := Some sell_seats |} |} ] |}.

(** The facts of a side of which only the total matters. *)
Definition side_of_total (total : Q) : side_facts :=
  {| total_amount_wan := total;
     player_count := 1;
     famous_player_count := 0;
     concentration_metrics := zero_concentration;
     contribution_by_type := [];
     players := [] |}.

(** A row of the seat table for stock 000001.SZ, amounts in yuan. *)
Definition top_row (exalter : string) (buy sell net_buy : Z) (reason : string)
    : DataProcessor.TopData.row :=
  {| DataProcessor.TopData.trade_date := "20250805";
     DataProcessor.TopData.ts_code := "000001.SZ";
     DataProcessor.TopData.exalter := exalter;
     DataProcessor.TopData.buy := DataProcessor.Num (Q2Qc (inject_Z buy));
     DataProcessor.TopData.buy_rate := DataProcessor.Num (Q2Qc 2.31);
     DataProcessor.TopData.sell := DataProcessor.Num (Q2Qc (inject_Z sell));
     DataProcessor.TopData.sell_rate := DataProcessor.Num (Q2Qc 0.87);
     DataProcessor.TopData.net_buy := DataProcessor.Num (Q2Qc (inject_Z net_buy));
     DataProcessor.TopData.side := "0";
     DataProcessor.TopData.reason := reason |}.

Definition seat_a := top_row "甲证券营业部" 8000000 3000000 5000000 "放量上涨".
Definition seat_b := top_row "乙证券营业部" 1000000 2000000 (-1000000) "放量上涨".
Definition seat_c := top_row "丙证券营业部" 0 3000000 (-3000000) "放量上涨".
Definition seat_zero := top_row "丁证券营业部" 2000000 2000000 0 "放量上涨".

Definition three_seats : list DataProcessor.TopData.row :=
  [seat_a; seat_b; seat_c].

(** [seat_a] as another listing reason, with another side label, reports
    it. *)
Definition seat_a_relisted : DataProcessor.TopData.row :=
  {| DataProcessor.TopData.trade_date := "20250805";
     DataProcessor.TopData.ts_code := "000001.SZ";
     DataProcessor.TopData.exalter := "甲证券营业部";
     DataProcessor.TopData.buy := DataProcessor.Num (Q2Qc 8000000);
     DataProcessor.TopData.buy_rate := DataProcessor.Num (Q2Qc 2.31);
     DataProcessor.TopData.sell := DataProcessor.Num (Q2Qc 3000000);
     DataProcessor.TopData.sell_rate := DataProcessor.Num (Q2Qc 0.87);
     DataProcessor.TopData.net_buy := DataProcessor.Num (Q2Qc 5000000);
     DataProcessor.TopData.side := "1";
     DataProcessor.TopData.reason := "换手率达20%" |}.

(** A seat of another stock. *)
Definition other_stock_seat : DataProcessor.TopData.row :=
  {| DataProcessor.TopData.trade_date := "20250805";
     DataProcessor.TopData.ts_code := "600000.SH";
     DataProcessor.TopData.exalter := "戊证券营业部";
     DataProcessor.TopData.buy := DataProcessor.Num (Q2Qc 9000000);
     DataProcessor.TopData.buy_rate := DataProcessor.Num (Q2Qc 5.5);
     DataProcessor.TopData.sell := DataProcessor.NaN;
     DataProcessor.TopData.sell_rate := DataProcessor.NaN;
     DataProcessor.TopData.net_buy := DataProcessor.Num (Q2Qc 9000000);
     DataProcessor.TopData.side := "0";
     DataProcessor.TopData.reason := "涨幅偏离值达7%" |}.

(** A registry with one named trader and one entry whose alias list does not
    parse. *)
Definition registry : list DataProcessor.HmList.row :=
  [ {| DataProcessor.HmList.name := "章盟主";
       DataProcessor.HmList.desc := "老牌游资";
       DataProcessor.HmList.orgs :=
         Some ["国泰君安证券股份有限公司上海江苏路证券营业部"] |};
    {| DataProcessor.HmList.name := "无名";
       DataProcessor.HmList.desc := EmptyString;
       DataProcessor.HmList.orgs := None |} ].

(** One seat listed under two reasons. *)
(** Three listings of one stock on one day, under three reasons. *)
Definition listing (reason : string) (amount net_amount : Z)
    (turnover_rate : Q) : DataProcessor.TopList.row :=
  {| DataProcessor.TopList.trade_date := "20250102";
     DataProcessor.TopList.ts_code := Some "000001.SZ";
     DataProcessor.TopList.name := "平安银行";
     DataProcessor.TopList.close := DataProcessor.Num (Q2Qc (1234 # 100));
     DataProcessor.TopList.pct_change := DataProcessor.Num (Q2Qc (1001 # 100));
     DataProcessor.TopList.turnover_rate := DataProcessor.Num (Q2Qc turnover_rate);
     DataProcessor.TopList.amount := DataProcessor.Num (Q2Qc (inject_Z amount));
     DataProcessor.TopList.l_sell := DataProcessor.NaN;
     DataProcessor.TopList.l_buy := DataProcessor.NaN;
     DataProcessor.TopList.l_amount := DataProcessor.NaN;
     DataProcessor.TopList.net_amount :=
       DataProcessor.Num (Q2Qc (inject_Z net_amount));
     DataProcessor.TopList.net_rate := DataProcessor.NaN;
     DataProcessor.TopList.amount_rate := DataProcessor.NaN;
     DataProcessor.TopList.float_values := DataProcessor.NaN;
     DataProcessor.TopList.reason := reason |}.

(** A history that is always there. *)
Definition history_always (ts_code : option string) (daily_df : unit)
    : Py.M unit :=
  Py.ret tt.

Definition listing_1 := listing "日涨幅偏离值达7%" 500000000 30000000 12.
Definition listing_2 := listing "日换手率达20%" 800000000 (-10000000) 21.
Definition listing_3 := listing "日振幅值达15%" 600000000 20000000 (35 # 2).

Definition citic_1 := top_row "中信证券A" 10000000 2000000 8000000 "放量上涨".
Definition citic_2 := top_row "中信证券A" 10000000 2000000 8000000 "换手率达20%".

End Examples.

(** * Properties *)

(** ** Rounding *)

Section Rounding.

Lemma round_half_even_bounds (q : Q) :
  inject_Z (Py.round_half_even q) - (1 # 2) <= q
  /\ q <= inject_Z (Py.round_half_even q) + (1 # 2).
Proof.
  unfold Py.round_half_even.
  pose proof (Qfloor_le q) as Hlo.
  pose proof (Qlt_floor q) as Hhi.
  rewrite inject_Z_plus in Hhi. change (inject_Z 1) with 1 in Hhi.
  destruct (Qcompare_spec (q - inject_Z (Qfloor q)) (1 # 2)) as [E | L | G].
  - destruct (Z.even (Qfloor q));
      [| rewrite inject_Z_plus; change (inject_Z 1) with 1]; lra.
  - lra.
  - rewrite inject_Z_plus. change (inject_Z 1) with 1. lra.
Qed.



Lemma round_half_even_mono (p q : Q) :
  p <= q -> (Py.round_half_even p <= Py.round_half_even q)%Z.
Proof.
  intros Hpq.
  pose proof (Qfloor_resp_le _ _ Hpq) as Hf.
  destruct (Z.eq_dec (Qfloor p) (Qfloor q)) as [E | N].
  - unfold Py.round_half_even. rewrite E.
    assert (Hfr : p - inject_Z (Qfloor q) <= q - inject_Z (Qfloor q)) by lra.
    destruct (Qcompare_spec (p - inject_Z (Qfloor q)) (1 # 2));
      destruct (Qcompare_spec (q - inject_Z (Qfloor q)) (1 # 2));
      destruct (Z.even (Qfloor q)); try lia; exfalso; lra.
  - assert (Hlt : (Qfloor p + 1 <= Qfloor q)%Z) by lia.
    assert (Hp : (Py.round_half_even p <= Qfloor p + 1)%Z).
    { unfold Py.round_half_even.
      destruct (Qcompare (p - inject_Z (Qfloor p)) (1 # 2));
        destruct (Z.even (Qfloor p)); lia. }
    assert (Hq : (Qfloor q <= Py.round_half_even q)%Z).
    { unfold Py.round_half_even.
      destruct (Qcompare (q - inject_Z (Qfloor q)) (1 # 2));
        destruct (Z.even (Qfloor q)); lia. }
    lia.
Qed.

Lemma round1_mono (p q : Q) : p <= q -> Py.round1 p <= Py.round1 q.
Proof.
  intros H. unfold Py.round1.
  assert (Hz : (Py.round_half_even (p * 10) <= Py.round_half_even (q * 10))%Z)
    by (apply round_half_even_mono; lra).
  rewrite Zle_Qle in Hz.
  apply Qmult_le_compat_r with (z := / 10) in Hz; [exact Hz | discriminate].
Qed.





Lemma round_half_even_Qeq (p q : Q) :
  p == q -> Py.round_half_even p = Py.round_half_even q.
Proof.
  intros E. unfold Py.round_half_even.
  rewrite (Qfloor_comp _ _ E).
  assert (C : Qcompare (p - inject_Z (Qfloor q)) (1 # 2)
              = Qcompare (q - inject_Z (Qfloor q)) (1 # 2))
    by (apply Qcompare_comp; [rewrite E |]; reflexivity).
  now rewrite C.
Qed.

Lemma round1_Qeq (p q : Q) : p == q -> Py.round1 p = Py.round1 q.
Proof.
  intros E. unfold Py.round1.
  rewrite (round_half_even_Qeq (p * 10) (q * 10)); [reflexivity |].
  now rewrite E.
Qed.



End Rounding.

(** ** Sums and sorting of amounts *)

Section Amounts.

Lemma fold_left_Qplus (l : list Q) (a : Q) :
  fold_left Qplus l a == a + fold_right Qplus 0 l.
Proof.
  revert a. induction l as [| x l IH]; intros a; simpl.
  - lra.
  - rewrite IH. lra.
Qed.

Lemma sum_fold_right (l : list Q) : Py.sum l == fold_right Qplus 0 l.
Proof. unfold Py.sum. rewrite fold_left_Qplus. lra. Qed.

Lemma sum_cons (x : Q) (l : list Q) : Py.sum (x :: l) == x + Py.sum l.
Proof. rewrite !sum_fold_right. simpl. reflexivity. Qed.

Lemma sum_nil : Py.sum [] == 0.
Proof. reflexivity. Qed.

Lemma sum_perm (l l' : list Q) : Permutation l l' -> Py.sum l == Py.sum l'.
Proof.
  induction 1 as [| x l l' _ IH | x y l | l l' l'' _ IH1 _ IH2].
  - reflexivity.
  - rewrite !sum_cons, IH. reflexivity.
  - rewrite !sum_cons. lra.
  - now rewrite IH1.
Qed.

Lemma sum_nonneg (l : list Q) : Forall (Qle 0) l -> 0 <= Py.sum l.
Proof.
  induction 1 as [| x l Hx _ IH].
  - rewrite sum_nil. lra.
  - rewrite sum_cons. lra.
Qed.

Lemma sum_firstn_le (k : nat) (l : list Q) :
  Forall (Qle 0) l -> Py.sum (firstn k l) <= Py.sum l.
Proof.
  intros H. revert k. induction H as [| x l Hx Hl IH]; intros [| k]; simpl.
  - lra.
  - lra.
  - rewrite sum_nil. apply sum_nonneg. now constructor.
  - rewrite !sum_cons. specialize (IH k). lra.
Qed.

Lemma sum_firstn_mono (j k : nat) (l : list Q) :
  (j <= k)%nat -> Forall (Qle 0) l ->
  Py.sum (firstn j l) <= Py.sum (firstn k l).
Proof.
  intros Hjk H. revert j k Hjk.
  induction H as [| x l Hx Hl IH]; intros j k Hjk.
  - rewrite !firstn_nil. lra.
  - destruct j as [| j]; destruct k as [| k]; simpl; try lia.
    + lra.
    + rewrite sum_cons, sum_nil.
      specialize (IH 0%nat k (Nat.le_0_l k)). simpl in IH.
      rewrite sum_nil in IH. lra.
    + rewrite !sum_cons. specialize (IH j k). assert (j <= k)%nat by lia.
      specialize (IH H). lra.
Qed.

Lemma insert_desc_perm (x : Q) (l : list Q) :
  Permutation (Py.insert_desc x l) (x :: l).
Proof.
  induction l as [| y l IH]; simpl.
  - reflexivity.
  - destruct (Qle_bool y x).
    + reflexivity.
    + rewrite IH. apply perm_swap.
Qed.

Lemma sorted_reverse_perm (l : list Q) : Permutation (Py.sorted_reverse l) l.
Proof.
  induction l as [| x l IH]; simpl.
  - reflexivity.
  - rewrite insert_desc_perm. now constructor.
Qed.



End Amounts.

(** ** Concentration metrics *)

Section Concentration.

Import FundingBattleBuilder.

Lemma sorted_reverse_length (l : list Q) :
  List.length (Py.sorted_reverse l) = List.length l.
Proof. apply Permutation_length, sorted_reverse_perm. Qed.

Lemma div_nonzero (x y : Q) : Qeq_bool y 0 = false -> Py.div x y = Py.ret (x / y).
Proof. intros H. unfold Py.div. now rewrite H. Qed.

(** The code computes what the specification's formula says. *)
Lemma concentration_code_eq_spec (amounts : list Q) :
  calculate_concentration_metrics amounts
  = Py.ret (Spec.concentration_metrics amounts).
Proof.
  unfold calculate_concentration_metrics, Spec.concentration_metrics.
  destruct amounts as [| a amounts']; [reflexivity |].
  set (amounts := a :: amounts').
  change (List.length amounts =? 0)%nat with false. simpl orb.
  destruct (Qeq_bool (Py.sum amounts) 0) eqn:Hz; [reflexivity |].
  pose proof (sorted_reverse_length amounts) as Hlen.
  destruct (Py.sorted_reverse amounts) as [| s0 rest] eqn:Hs;
    [discriminate Hlen |].
  rewrite <- Hlen.
  change (1 <=? List.length (s0 :: rest))%nat with true.
  cbn [Py.item0 Py.bind Py.ret nth].
  rewrite !div_nonzero by exact Hz.
  cbn [Py.bind Py.ret]. unfold Py.ret, Py.slice_to.
  do 2 f_equal.
  - destruct (2 <=? List.length (s0 :: rest))%nat eqn:H2.
    + apply Nat.leb_le in H2. now rewrite Nat.min_l by exact H2.
    + apply Nat.leb_gt in H2.
      rewrite Nat.min_r by lia. now rewrite firstn_all.
  - destruct (5 <=? List.length (s0 :: rest))%nat eqn:H5.
    + apply Nat.leb_le in H5. now rewrite Nat.min_l by exact H5.
    + apply Nat.leb_gt in H5.
      rewrite Nat.min_r by lia. now rewrite firstn_all.
Qed.




Lemma scale_pct_mono (a b total : Q) :
  0 < total -> a <= b -> a / total * 100 <= b / total * 100.
Proof.
  intros Ht Hab. unfold Qdiv.
  apply Qmult_le_compat_r; [| discriminate].
  apply Qmult_le_compat_r; [exact Hab |].
  apply Qinv_le_0_compat. lra.
Qed.

Lemma round1_0 : Py.round1 0 == 0.
Proof. reflexivity. Qed.

Lemma round1_100 : Py.round1 100 == 100.
Proof. reflexivity. Qed.

Lemma spec_concentration_bounds (amounts : list Q) :
  amounts <> [] -> Forall (Qle 0) amounts ->
  let m := Spec.concentration_metrics amounts in
  0 <= top1_pct m /\ top1_pct m <= top2_pct m
  /\ top2_pct m <= top5_pct m /\ top5_pct m <= 100.
Proof.
  intros Hne Hpos. unfold Spec.concentration_metrics.
  destruct amounts as [| a amounts']; [congruence |].
  set (amounts := a :: amounts') in *.
  change (List.length amounts =? 0)%nat with false. simpl orb.
  destruct (Qeq_bool (Py.sum amounts) 0) eqn:Hz.
  { cbn. repeat split; discriminate. }
  assert (Htot : 0 < Py.sum amounts).
  { pose proof (sum_nonneg amounts Hpos) as H0.
    destruct (Qeq_dec (Py.sum amounts) 0) as [E | N].
    - apply Qeq_bool_iff in E. congruence.
    - apply Qle_lteq in H0 as [H0 | H0]; [exact H0 |].
      exfalso. apply N. symmetry. exact H0. }
  set (n := List.length amounts).
  assert (Hn : (1 <= n)%nat) by (subst n amounts; simpl; lia).
  set (s := Py.sorted_reverse amounts).
  assert (Hs : Forall (Qle 0) s).
  { eapply Permutation_Forall; [| exact Hpos].
    symmetry. apply sorted_reverse_perm. }
  assert (Hlen : List.length s = n) by apply sorted_reverse_length.
  assert (H1 : nth 0 s 0 == Py.sum (firstn 1 s)).
  { destruct s as [| s0 r]; [simpl in Hlen; lia |].
    cbn [nth firstn]. rewrite sum_cons, sum_nil. lra. }
  assert (Hall : Py.sum s == Py.sum amounts)
    by apply sum_perm, sorted_reverse_perm.
  cbv zeta. cbn [top1_pct top2_pct top5_pct].
  split; [| split; [| split]].
  - apply (Qle_trans _ (Py.round1 0)); [rewrite round1_0; apply Qle_refl |].
    apply round1_mono.
    assert (H0 : 0 <= nth 0 s 0).
    { rewrite H1. apply sum_nonneg.
      destruct s as [| s0 r]; [constructor |].
      cbn [firstn]. inversion Hs; subst. repeat constructor; assumption. }
    assert (E : 0 == 0 / Py.sum amounts * 100) by (field; lra).
    rewrite E at 1. now apply scale_pct_mono.
  - apply round1_mono, scale_pct_mono; [exact Htot |].
    rewrite H1. apply sum_firstn_mono; [lia | exact Hs].
  - apply round1_mono, scale_pct_mono; [exact Htot |].
    apply sum_firstn_mono; [lia | exact Hs].
  - apply (Qle_trans _ (Py.round1 100));
      [| rewrite round1_100; apply Qle_refl].
    apply round1_mono.
    assert (E : Py.sum amounts / Py.sum amounts * 100 == 100) by (field; lra).
    apply (Qle_trans _ (Py.sum amounts / Py.sum amounts * 100));
      [| rewrite E; apply Qle_refl].
    apply scale_pct_mono; [exact Htot |].
    rewrite <- Hall. now apply sum_firstn_le.
Qed.

(** C6 (amended): for every non-empty list of non-negative amounts the
    calculator returns percentages with
    0 <= top1_pct <= top2_pct <= top5_pct <= 100. *)
Theorem concentration_bounds :
  forall amounts : list Q,
    amounts <> [] -> Forall (Qle 0) amounts ->
    exists m,
      calculate_concentration_metrics amounts = Py.ret m
      /\ 0 <= top1_pct m /\ top1_pct m <= top2_pct m
      /\ top2_pct m <= top5_pct m /\ top5_pct m <= 100.
Proof.
  intros amounts Hne Hpos.
  exists (Spec.concentration_metrics amounts). split.
  - apply concentration_code_eq_spec.
  - now apply spec_concentration_bounds.
Qed.

Lemma concentration_bounds_witness :
  exists m,
    calculate_concentration_metrics [650; 410; 50; 30; 10] = Py.ret m
    /\ 0 <= top1_pct m /\ top1_pct m <= top2_pct m
    /\ top2_pct m <= top5_pct m /\ top5_pct m <= 100.
Proof.
  apply (concentration_bounds [650; 410; 50; 30; 10]).
  - discriminate.
  - repeat constructor; unfold Qle; simpl; discriminate.
Defined.

(** C6 as stated fails on a list with a negative amount: for [10, -5] the
    total is 5, so top1_pct is 200.0, above top2_pct = 100.0 and above 100.
    Such a list reaches the calculator when a seat of the buy array carries a
    negative net amount. *)
Lemma concentration_bounds_negative_amount :
  exists f m,
    analyze_side_data
      [Examples.bare_seat "甲证券营业部" "10.00万元";
       Examples.bare_seat "乙证券营业部" "-5.00万元"] "buy"
    = Py.ret f
    /\ concentration_metrics f = m
    /\ calculate_concentration_metrics [10; -5] = Py.ret m
    /\ top1_pct m == 200 /\ top2_pct m == 100
    /\ ~ top1_pct m <= top2_pct m /\ ~ top1_pct m <= 100.
Proof.
  do 2 eexists. split; [vm_compute; reflexivity |].
  split; [reflexivity |]. split; [vm_compute; reflexivity |].
  repeat split; try reflexivity; intros H; vm_compute in H; apply H; reflexivity.
Qed.

End Concentration.

(** ** What the builder returns on well-typed input *)

Section BuilderTotal.

Import FundingBattleBuilder.

Lemma float_raises_ValueError (s : string) :
  (exists q, Py.float s = Py.ret q) \/ Py.float s = Py.raise Py.ValueError.
Proof.
  unfold Py.float.
  destruct (Py.read_sign (Py.strip s)) as [neg s1].
  destruct (Py.span_digits s1) as [ip s2].
  destruct (match s2 with
            | String "." s2' => Py.span_digits s2'
            | _ => (EmptyString, s2)
            end) as [fp s3].
  destruct (Py.is_empty ip && Py.is_empty fp); [now right |].
  destruct (Py.read_exponent s3); [left; eexists; reflexivity | now right].
Qed.

Lemma catch_float (s : string) (h : Q) : exists q, Py.catch (Py.float s) h = Py.ret q.
Proof.
  destruct (float_raises_ValueError s) as [[q ->] | ->]; eexists; reflexivity.
Qed.

Lemma parse_amount_to_wan_returns (s : string) :
  exists q, parse_amount_to_wan s = Py.ret q.
Proof.
  unfold parse_amount_to_wan.
  destruct (Py.is_empty s || Py.is_empty (Py.strip s));
    [eexists; reflexivity |].
  destruct (Py.contains "亿" _).
  - destruct (float_raises_ValueError
                (Py.remove "亿" (Py.remove "," (Py.remove "元" (Py.remove " " s)))))
      as [[q ->] | ->]; eexists; reflexivity.
  - destruct (Py.contains "万" _); apply catch_float.
Qed.

Lemma parse_percentage_returns (s : string) :
  exists q, parse_percentage s = Py.ret q.
Proof.
  unfold parse_percentage.
  destruct (Py.is_empty s || Py.is_empty (Py.strip s));
    [eexists; reflexivity | apply catch_float].
Qed.

Lemma analyze_seat_returns (side_type : string) (st : loop_state) (s : seat) :
  exists st' p,
    analyze_seat side_type st s = Py.ret st'
    /\ processed_players st' = (processed_players st ++ [p])%list
    /\ Spec.carried s p.
Proof.
  unfold analyze_seat.
  match goal with
  | |- context [parse_amount_to_wan ?x] =>
      destruct (parse_amount_to_wan_returns x) as [a ->]
  end.
  cbn [Py.bind Py.ret].
  do 2 eexists. split; [reflexivity |].
  split; [reflexivity |]. repeat split.
Qed.

Lemma for_each_analyze (side_type : string) (seats : list seat) :
  forall st, exists st' ps,
    for_each (analyze_seat side_type) seats st = Py.ret st'
    /\ processed_players st' = (processed_players st ++ ps)%list
    /\ Forall2 Spec.carried seats ps.
Proof.
  induction seats as [| s seats IH]; intros st; simpl.
  - exists st, []. rewrite app_nil_r. repeat split. constructor.
  - destruct (analyze_seat_returns side_type st s) as (st1 & p & -> & Hp1 & Hc).
    cbn [Py.bind Py.ret].
    destruct (IH st1) as (st' & ps & -> & Hp & Hf).
    exists st', (p :: ps). split; [reflexivity |]. split.
    + rewrite Hp, Hp1. now rewrite <- app_assoc.
    + now constructor.
Qed.

Lemma analyze_side_data_returns (seats : list seat) (side_type : string) :
  exists f,
    analyze_side_data seats side_type = Py.ret f
    /\ Forall2 Spec.carried seats (players f)
    /\ player_count f = List.length seats.
Proof.
  unfold analyze_side_data.
  destruct seats as [| s seats'].
  - eexists. split; [reflexivity |]. split; [constructor | reflexivity].
  - set (seats := s :: seats').
    match goal with
    | |- context [for_each _ seats ?st0] =>
        destruct (for_each_analyze side_type seats st0)
          as (st' & ps & -> & Hp & Hf)
    end.
    cbn [Py.bind Py.ret].
    rewrite concentration_code_eq_spec. cbn [Py.bind Py.ret].
    eexists. split; [reflexivity |].
    cbn [players player_count]. rewrite Hp. simpl. split; [exact Hf | reflexivity].
Qed.

Lemma calculate_battle_metrics_returns (long_side short_side : side_facts)
    (basic_info : list (string * string)) :
  exists turnover,
    calculate_battle_metrics long_side short_side basic_info
    = Py.ret
        (let adv := total_amount_wan long_side - total_amount_wan short_side in
         let total := total_amount_wan long_side + total_amount_wan short_side in
         {| net_advantage_wan := Py.round1 adv;
            winner := if Qlt_le_dec 0 adv then "多方"
                      else if Qlt_le_dec adv 0 then "空方" else "平局";
            net_advantage_pct :=
              Py.round1 (if Qlt_le_dec 0 total
                         then Qabs adv / total * 100 else 0);
            on_list_turnover_pct := turnover |}).
Proof.
  unfold calculate_battle_metrics.
  destruct (parse_percentage_returns
              (get (DataProcessor.lookup "amount_rate" basic_info) "0.00%"))
    as [t Ht].
  exists (Py.round1 t). rewrite Ht.
  destruct (Qlt_le_dec 0 (total_amount_wan long_side + total_amount_wan short_side))
    as [Hpos | Hneg].
  - rewrite div_nonzero; [reflexivity |].
    destruct (Qeq_bool _ 0) eqn:E; [| reflexivity].
    apply Qeq_bool_iff in E. lra.
  - reflexivity.
Qed.

(** What [build_structured_facts] returns when there is a first stock. *)
Lemma build_structured_facts_first_stock (s : stock) (rest : list stock) :
  let seat_data :=
    get (stock_seat_data s) {| buy_seats := None; sell_seats := None |} in
  exists f,
    build_structured_facts {| stocks := Some (s :: rest) |} = Py.ret (Some f)
    /\ sf_ts_code f = get (ts_code s) EmptyString
    /\ sf_name f = get (stock_name s) EmptyString
    /\ raw_basic_info f = get (basic_info s) []
    /\ analyze_side_data (get (buy_seats seat_data) []) "buy"
       = Py.ret (long_side_facts f)
    /\ analyze_side_data (get (sell_seats seat_data) []) "sell"
       = Py.ret (short_side_facts f)
    /\ calculate_battle_metrics (long_side_facts f) (short_side_facts f)
         (get (basic_info s) [])
       = Py.ret (battle_facts f).
Proof.
  cbv zeta. unfold build_structured_facts.
  cbn [stocks get Py.item0 Py.bind Py.ret].
  destruct (analyze_side_data_returns
              (get (buy_seats (get (stock_seat_data s)
                     {| buy_seats := None; sell_seats := None |})) []) "buy")
    as (lf & Hl & _).
  destruct (analyze_side_data_returns
              (get (sell_seats (get (stock_seat_data s)
                      {| buy_seats := None; sell_seats := None |})) []) "sell")
    as (sf & Hs & _).
  destruct (calculate_battle_metrics_returns lf sf (get (basic_info s) []))
    as (t & Hb).
  rewrite Hl, Hs. cbn [Py.bind Py.ret]. rewrite Hb. cbn [Py.bind Py.ret].
  eexists. split; [reflexivity |].
  cbn [sf_ts_code sf_name raw_basic_info long_side_facts short_side_facts
       battle_facts].
  repeat split. exact Hb.
Qed.

(** C9: without a [stocks] list, or with an empty one, [build_structured_facts]
    does not raise: it returns the empty dict, which is falsy.  With one or
    more stocks only the first is processed: what follows it in the list
    changes nothing, and when the analyses of the first stock's buy seats,
    of its sell seats and of the battle return, the result is the non-empty
    dict of that stock's code, name and basic info with exactly these three
    analyses. *)
Theorem build_structured_facts_missing_stocks :
  build_structured_facts {| stocks := None |} = Py.ret None
  /\ build_structured_facts {| stocks := Some [] |} = Py.ret None
  /\ truthy None = false
  /\ (forall (s : stock) (rest : list stock),
         build_structured_facts {| stocks := Some (s :: rest) |}
         = build_structured_facts {| stocks := Some [s] |})
  /\ (forall (s : stock) (rest : list stock)
             (long_side short_side : side_facts) (battle : battle_facts_t),
         let seat_data :=
           get (stock_seat_data s) {| buy_seats := None; sell_seats := None |} in
         analyze_side_data (get (buy_seats seat_data) []) "buy"
         = Py.ret long_side ->
         analyze_side_data (get (sell_seats seat_data) []) "sell"
         = Py.ret short_side ->
         calculate_battle_metrics long_side short_side (get (basic_info s) [])
         = Py.ret battle ->
         let f := {| sf_ts_code := get (ts_code s) EmptyString;
                     sf_name := get (stock_name s) EmptyString;
                     raw_basic_info := get (basic_info s) [];
                     long_side_facts := long_side;
                     short_side_facts := short_side;
                     battle_facts := battle |} in
         build_structured_facts {| stocks := Some (s :: rest) |}
         = Py.ret (Some f)
         /\ truthy (Some f) = true)
  /\ exists f,
       build_structured_facts
         (Examples.one_stock [Examples.bare_seat "甲证券营业部" "500.00万元"]
                             [Examples.bare_seat "乙证券营业部" "-100.00万元"])
       = Py.ret (Some f)
       /\ map p_seat_name (players (long_side_facts f)) = ["甲证券营业部"]
       /\ map p_seat_name (players (short_side_facts f)) = ["乙证券营业部"]
       /\ winner (battle_facts f) = "多方".
Proof.
  split; [reflexivity |]. split; [reflexivity |]. split; [reflexivity |].
  split; [reflexivity |]. split.
  - intros s rest long_side short_side battle seat_data Hl Hs Hb f.
    split; [| reflexivity].
    unfold build_structured_facts.
    cbn [stocks get Py.item0 Py.bind Py.ret]. fold seat_data.
    rewrite Hl. cbn [Py.bind Py.ret]. rewrite Hs. cbn [Py.bind Py.ret].
    rewrite Hb. reflexivity.
  - eexists. split; [vm_compute; reflexivity |]. repeat split.
Qed.



End BuilderTotal.

(** ** De-duplication *)

Section Dedup.

Import DataProcessor.

Lemma drop_duplicates_seen_sound (df : list TopData.row) :
  forall seen r,
    In r (drop_duplicates_seen seen df) ->
    In r df /\ ~ In (key_of r) seen.
Proof.
  induction df as [| x df IH]; intros seen r; simpl.
  - intros [].
  - destruct (in_dec key_eq_dec (key_of x) seen) as [Hin | Hnin].
    + intros H. apply IH in H as [H1 H2]. auto.
    + intros [<- | H].
      * auto.
      * apply IH in H as [H1 H2]. split; [auto |].
        intros H3. apply H2. now right.
Qed.

Lemma drop_duplicates_seen_NoDup (df : list TopData.row) :
  forall seen, NoDup (map key_of (drop_duplicates_seen seen df)).
Proof.
  induction df as [| x df IH]; intros seen; simpl.
  - constructor.
  - destruct (in_dec key_eq_dec (key_of x) seen) as [Hin | Hnin].
    + apply IH.
    + simpl. constructor; [| apply IH].
      intros H. apply in_map_iff in H as (r & Hk & Hr).
      apply drop_duplicates_seen_sound in Hr as [_ Hr].
      apply Hr. left. now symmetry.
Qed.

Lemma drop_duplicates_seen_complete (df : list TopData.row) :
  forall seen r,
    In r df ->
    In (key_of r) seen
    \/ In (key_of r) (map key_of (drop_duplicates_seen seen df)).
Proof.
  induction df as [| x df IH]; intros seen r; simpl.
  - intros [].
  - destruct (in_dec key_eq_dec (key_of x) seen) as [Hin | Hnin].
    + intros [<- | H]; [now left | now apply IH].
    + intros [<- | H]; [right; now left |].
      destruct (IH (key_of x :: seen) r H) as [[E | H1] | H1].
      * right. left. exact E.
      * now left.
      * right. now right.
Qed.

Lemma drop_duplicates_seen_fixed (l : list TopData.row) :
  forall seen,
    NoDup (map key_of l) ->
    (forall r, In r l -> ~ In (key_of r) seen) ->
    drop_duplicates_seen seen l = l.
Proof.
  induction l as [| x l IH]; intros seen Hnd Hseen; simpl.
  - reflexivity.
  - destruct (in_dec key_eq_dec (key_of x) seen) as [Hin | Hnin].
    + exfalso. apply (Hseen x); [now left | exact Hin].
    + f_equal. simpl in Hnd. inversion Hnd as [| k ks Hx Hl]; subst.
      apply IH; [exact Hl |].
      intros r Hr [E | H].
      * apply Hx. rewrite E. now apply in_map.
      * apply (Hseen r); [now right | exact H].
Qed.

Lemma drop_duplicates_NoDup (df : list TopData.row) :
  NoDup (map key_of (drop_duplicates df)).
Proof. apply drop_duplicates_seen_NoDup. Qed.

Lemma drop_duplicates_keys (df : list TopData.row) (k : key) :
  In k (map key_of (drop_duplicates df)) <-> In k (map key_of df).
Proof.
  split; intros H; apply in_map_iff in H as (r & <- & Hr).
  - apply drop_duplicates_seen_sound in Hr as [Hr _]. now apply in_map.
  - destruct (drop_duplicates_seen_complete df [] r Hr) as [[] | H].
    exact H.
Qed.

Lemma drop_duplicates_idempotent (df : list TopData.row) :
  drop_duplicates (drop_duplicates df) = drop_duplicates df.
Proof.
  apply drop_duplicates_seen_fixed.
  - apply drop_duplicates_NoDup.
  - intros r _ [].
Qed.

(** As many rows are kept as there are distinct keys. *)
Lemma drop_duplicates_length (df : list TopData.row) :
  List.length (drop_duplicates df)
  = List.length (nodup key_eq_dec (map key_of df)).
Proof.
  rewrite <- (length_map key_of).
  apply Permutation_length, NoDup_Permutation.
  - apply drop_duplicates_NoDup.
  - apply NoDup_nodup.
  - intros k. rewrite drop_duplicates_keys, nodup_In. reflexivity.
Qed.

Lemma drop_duplicates_rows_NoDup (df : list TopData.row) :
  NoDup (drop_duplicates df).
Proof. eapply NoDup_map_inv, drop_duplicates_NoDup. Qed.

End Dedup.

(** ** Ordering and the split into two sides *)

Section Partition.

Import DataProcessor.

Lemma gt0_positive (c : cell) : gt0 c = true <-> Spec.positive_net c.
Proof.
  destruct c as [q |]; simpl.
  - destruct (Qclt_le_dec 0 q) as [H | H]; split; intros H'; auto.
    + discriminate.
    + exfalso. apply (Qcle_not_lt _ _ H H').
  - split; [discriminate | intros []].
Qed.

Lemma goes_before_descending (a b : cell) :
  goes_before a b = true <-> Spec.net_descending a b.
Proof.
  destruct a as [x |], b as [y |]; simpl; try tauto.
  - destruct (Qclt_le_dec x y) as [H | H]; split; intros H'; auto.
    + discriminate.
    + exfalso. apply (Qcle_not_lt _ _ H' H).
  - split; [discriminate | intros []].
Qed.

Lemma net_descending_total (a b : cell) :
  Spec.net_descending a b \/ Spec.net_descending b a.
Proof.
  destruct a as [x |], b as [y |]; simpl; auto.
  destruct (Qclt_le_dec x y) as [H | H]; [right | left]; auto.
  now apply Qclt_le_weak.
Qed.

Lemma net_descending_trans (a b c : cell) :
  Spec.net_descending a b -> Spec.net_descending b c ->
  Spec.net_descending a c.
Proof.
  destruct a as [x |], b as [y |], c as [z |]; simpl; try tauto.
  intros H1 H2. eapply Qcle_trans; eassumption.
Qed.

Lemma insert_row_perm (r : TopData.row) (df : list TopData.row) :
  Permutation (insert_row r df) (r :: df).
Proof.
  induction df as [| r' df IH]; simpl.
  - reflexivity.
  - destruct (goes_before _ _ && negb (goes_before _ _)).
    + rewrite IH. apply perm_swap.
    + reflexivity.
Qed.

Lemma sort_values_perm (df : list TopData.row) :
  Permutation (sort_values_net_buy_desc df) df.
Proof.
  induction df as [| r df IH]; simpl.
  - reflexivity.
  - rewrite insert_row_perm. now constructor.
Qed.

Lemma insert_row_sorted (r : TopData.row) (df : list TopData.row) :
  Spec.rows_descending df -> Spec.rows_descending (insert_row r df).
Proof.
  unfold Spec.rows_descending.
  induction 1 as [| r' df Hdf IH Hr']; simpl.
  - repeat constructor.
  - destruct (goes_before (TopData.net_buy r') (TopData.net_buy r)) eqn:E1;
      [destruct (goes_before (TopData.net_buy r) (TopData.net_buy r')) eqn:E2 |];
      simpl.
    + apply goes_before_descending in E2.
      constructor; [now constructor |].
      constructor; [exact E2 |].
      eapply Forall_impl; [| exact Hr']. intros z Hz.
      eapply net_descending_trans; eassumption.
    + apply goes_before_descending in E1.
      constructor; [exact IH |].
      eapply Permutation_Forall; [symmetry; apply insert_row_perm |].
      now constructor.
    + assert (E2 : Spec.net_descending (TopData.net_buy r) (TopData.net_buy r')).
      { destruct (net_descending_total (TopData.net_buy r) (TopData.net_buy r'))
          as [H | H]; [exact H |].
        apply goes_before_descending in H. congruence. }
      constructor; [now constructor |].
      constructor; [exact E2 |].
      eapply Forall_impl; [| exact Hr']. intros z Hz.
      eapply net_descending_trans; eassumption.
Qed.

Lemma sort_values_sorted (df : list TopData.row) :
  Spec.rows_descending (sort_values_net_buy_desc df).
Proof.
  induction df as [| r df IH]; simpl.
  - constructor.
  - now apply insert_row_sorted.
Qed.

Lemma rows_descending_filter (f : TopData.row -> bool) (df : list TopData.row) :
  Spec.rows_descending df -> Spec.rows_descending (filter f df).
Proof.
  unfold Spec.rows_descending.
  induction 1 as [| r df Hdf IH Hr]; simpl.
  - constructor.
  - destruct (f r); [| exact IH].
    constructor; [exact IH |].
    apply Forall_forall. intros z Hz. apply filter_In in Hz as [Hz _].
    rewrite Forall_forall in Hr. now apply Hr.
Qed.

(** The loop of [_process_seat_data] appends each row to one of two lists. *)
Lemma split_loop (mk_info : TopData.row -> seat_info)
    (rows : list TopData.row) :
  forall b s,
    fold_left
      (fun '(buy_seats, sell_seats) seat_row =>
         let seat_info := mk_info seat_row in
         if gt0 (TopData.net_buy seat_row)
         then ((buy_seats ++ [seat_info])%list, sell_seats)
         else (buy_seats, (sell_seats ++ [seat_info])%list))
      rows (b, s)
    = ((b ++ map mk_info (filter (fun r => gt0 (TopData.net_buy r)) rows))%list,
       (s ++ map mk_info
               (filter (fun r => negb (gt0 (TopData.net_buy r))) rows))%list).
Proof.
  induction rows as [| r rows IH]; intros b s; simpl.
  - now rewrite !app_nil_r.
  - destruct (gt0 (TopData.net_buy r)); simpl; rewrite IH;
      now rewrite <- app_assoc.
Qed.

Lemma filter_split_perm {A} (f : A -> bool) (l : list A) :
  Permutation (filter f l ++ filter (fun a => negb (f a)) l) l.
Proof.
  induction l as [| a l IH]; simpl.
  - reflexivity.
  - destruct (f a); simpl.
    + now constructor.
    + rewrite <- Permutation_middle. now constructor.
Qed.

(** The two seat lists, in terms of the rows they come from. *)
Lemma process_seat_data_rows
    (player_profiles : list (string * profile_data)) (ts_code : string)
    (top_data_df : list TopData.row) (hm_list_df : list HmList.row) :
  let stock_seats :=
    filter (fun r => String.eqb (TopData.ts_code r) ts_code) top_data_df in
  let sd := _process_seat_data player_profiles ts_code top_data_df hm_list_df in
  exists buy_rows sell_rows,
    buy_seats sd = map (make_seat_info player_profiles hm_list_df) buy_rows
    /\ sell_seats sd = map (make_seat_info player_profiles hm_list_df) sell_rows
    /\ Permutation (buy_rows ++ sell_rows) (drop_duplicates stock_seats)
    /\ Forall (fun r => Spec.positive_net (TopData.net_buy r)) buy_rows
    /\ Forall (fun r => ~ Spec.positive_net (TopData.net_buy r)) sell_rows
    /\ Spec.rows_descending buy_rows
    /\ Spec.rows_descending sell_rows.
Proof.
  intros stock_seats sd.
  set (rows := sort_values_net_buy_desc (drop_duplicates stock_seats)).
  exists (filter (fun r => gt0 (TopData.net_buy r)) rows),
         (filter (fun r => negb (gt0 (TopData.net_buy r))) rows).
  assert (Hsd : buy_seats sd
                = map (make_seat_info player_profiles hm_list_df)
                      (filter (fun r => gt0 (TopData.net_buy r)) rows)
                /\ sell_seats sd
                   = map (make_seat_info player_profiles hm_list_df)
                       (filter (fun r => negb (gt0 (TopData.net_buy r))) rows)).
  { subst sd rows. unfold _process_seat_data. fold stock_seats.
    destruct stock_seats as [| r0 rest] eqn:E; [split; reflexivity |].
    rewrite split_loop. split; reflexivity. }
  destruct Hsd as [Hb Hs].
  split; [exact Hb |]. split; [exact Hs |].
  split; [| split; [| split; [| split]]].
  - rewrite filter_split_perm. apply sort_values_perm.
  - apply Forall_forall. intros r Hr. apply filter_In in Hr as [_ Hr].
    now apply gt0_positive.
  - apply Forall_forall. intros r Hr. apply filter_In in Hr as [_ Hr].
    intros Hp. apply gt0_positive in Hp. rewrite Hp in Hr. discriminate.
  - apply rows_descending_filter, sort_values_sorted.
  - apply rows_descending_filter, sort_values_sorted.
Qed.

End Partition.

(** ** The seat lists of [_process_seat_data] *)

Section SeatLists.

Import DataProcessor.

(** C5 (amended): after de-duplication and partition both seat lists are
    ordered descending by net amount: the buy side shows the largest net buy
    first, the sell side the least negative net amount first. *)
Theorem seat_lists_descending :
  forall (player_profiles : list (string * profile_data)) (ts_code : string)
         (top_data_df : list TopData.row) (hm_list_df : list HmList.row),
    let sd :=
      _process_seat_data player_profiles ts_code top_data_df hm_list_df in
    exists buy_rows sell_rows,
      buy_seats sd = map (make_seat_info player_profiles hm_list_df) buy_rows
      /\ sell_seats sd
         = map (make_seat_info player_profiles hm_list_df) sell_rows
      /\ Permutation (buy_rows ++ sell_rows)
           (drop_duplicates
              (filter (fun r => String.eqb (TopData.ts_code r) ts_code)
                      top_data_df))
      /\ Spec.rows_descending buy_rows
      /\ Spec.rows_descending sell_rows.
Proof.
  intros pp ts df hm sd.
  destruct (process_seat_data_rows pp ts df hm)
    as (b & s & Hb & Hs & Hp & _ & _ & Hdb & Hds).
  exists b, s. repeat split; assumption.
Qed.

(** C5 as stated fails on the sell side: with net amounts +500, -100 and
    -300 (万元) the sell list is -100 then -300, which is not ascending. *)
Lemma sell_side_not_ascending :
  sell_seats (_process_seat_data [] "000001.SZ" Examples.three_seats [])
  = map (make_seat_info [] []) [Examples.seat_b; Examples.seat_c]
  /\ map net_amount
       (sell_seats (_process_seat_data [] "000001.SZ" Examples.three_seats []))
     = ["-100.00万元"; "-300.00万元"]
  /\ ~ Spec.rows_ascending [Examples.seat_b; Examples.seat_c].
Proof.
  split; [vm_compute; reflexivity |].
  split; [vm_compute; reflexivity |].
  intros H. inversion H as [| r l _ Hall]; subst.
  inversion Hall as [| r' l' Hc _]; subst.
  vm_compute in Hc. now apply Hc.
Qed.

(** C10: a de-duplicated row whose net amount is exactly zero is put in the
    sell list, never in the buy list, and is not dropped.  The two lists are
    the seats of two lists of rows that together are the de-duplicated rows,
    each once: the rows with a strictly positive net amount make the buy
    list, all the others the sell list, and the zero-net row is among the
    latter. *)
Theorem zero_net_on_sell_side :
  forall (player_profiles : list (string * profile_data)) (ts_code : string)
         (top_data_df : list TopData.row) (hm_list_df : list HmList.row)
         (r : TopData.row),
    In r (drop_duplicates
            (filter (fun r => String.eqb (TopData.ts_code r) ts_code)
                    top_data_df)) ->
    TopData.net_buy r = Num (Q2Qc 0) ->
    let sd :=
      _process_seat_data player_profiles ts_code top_data_df hm_list_df in
    exists buy_rows sell_rows,
      buy_seats sd = map (make_seat_info player_profiles hm_list_df) buy_rows
      /\ sell_seats sd
         = map (make_seat_info player_profiles hm_list_df) sell_rows
      /\ Permutation (buy_rows ++ sell_rows)
           (drop_duplicates
              (filter (fun r => String.eqb (TopData.ts_code r) ts_code)
                      top_data_df))
      /\ NoDup (map key_of (buy_rows ++ sell_rows))
      /\ Forall (fun r => Spec.positive_net (TopData.net_buy r)) buy_rows
      /\ Forall (fun r => ~ Spec.positive_net (TopData.net_buy r)) sell_rows
      /\ In r sell_rows
      /\ ~ In r buy_rows
      /\ In (make_seat_info player_profiles hm_list_df r) (sell_seats sd).
Proof.
  intros pp ts df hm r Hin Hz sd.
  destruct (process_seat_data_rows pp ts df hm)
    as (b & s & Hb & Hs & Hp & Hpos & Hneg & _ & _).
  exists b, s.
  assert (Hnb : ~ In r b).
  { intros Hr. rewrite Forall_forall in Hpos. apply Hpos in Hr.
    rewrite Hz in Hr. simpl in Hr.
    apply Qclt_not_eq in Hr. now apply Hr. }
  assert (Hrs : In r s).
  { apply (Permutation_in _ (Permutation_sym Hp)) in Hin.
    apply in_app_or in Hin as [Hr | Hr]; [contradiction | exact Hr]. }
  assert (Hnd : NoDup (map key_of (b ++ s))).
  { apply (Permutation_NoDup
             (Permutation_sym (Permutation_map key_of Hp))).
    apply drop_duplicates_NoDup. }
  repeat split; try assumption.
  subst sd. rewrite Hs. now apply in_map.
Qed.

Lemma zero_net_on_sell_side_witness :
  In Examples.seat_zero
     (drop_duplicates
        (filter (fun r => String.eqb (TopData.ts_code r) "000001.SZ")
                [Examples.seat_a; Examples.seat_zero]))
  /\ TopData.net_buy Examples.seat_zero = Num (Q2Qc 0)
  /\ exists buy_rows sell_rows,
       buy_seats (_process_seat_data [] "000001.SZ"
                    [Examples.seat_a; Examples.seat_zero] [])
       = map (make_seat_info [] []) buy_rows
       /\ sell_seats (_process_seat_data [] "000001.SZ"
                        [Examples.seat_a; Examples.seat_zero] [])
          = map (make_seat_info [] []) sell_rows
       /\ Permutation (buy_rows ++ sell_rows)
            (drop_duplicates
               (filter (fun r => String.eqb (TopData.ts_code r) "000001.SZ")
                       [Examples.seat_a; Examples.seat_zero]))
       /\ NoDup (map key_of (buy_rows ++ sell_rows))
       /\ Forall (fun r => Spec.positive_net (TopData.net_buy r)) buy_rows
       /\ Forall (fun r => ~ Spec.positive_net (TopData.net_buy r)) sell_rows
       /\ In Examples.seat_zero sell_rows
       /\ ~ In Examples.seat_zero buy_rows
       /\ In (make_seat_info [] [] Examples.seat_zero)
             (sell_seats (_process_seat_data [] "000001.SZ"
                            [Examples.seat_a; Examples.seat_zero] [])).
Proof.
  assert (Hin : In Examples.seat_zero
                  (drop_duplicates
                     (filter (fun r => String.eqb (TopData.ts_code r) "000001.SZ")
                             [Examples.seat_a; Examples.seat_zero]))).
  { right. left. reflexivity. }
  split; [exact Hin |]. split; [reflexivity |].
  exact (zero_net_on_sell_side [] "000001.SZ"
           [Examples.seat_a; Examples.seat_zero] [] Examples.seat_zero
           Hin eq_refl).
Defined.

End SeatLists.

(** ** From the seat table to the structured facts *)

Section EndToEnd.

Import DataProcessor.

Lemma Forall2_map_left {A B C} (R : B -> C -> Prop) (g : A -> B)
    (l : list A) (l' : list C) :
  Forall2 R (map g l) l' -> Forall2 (fun a c => R (g a) c) l l'.
Proof.
  revert l'. induction l as [| a l IH]; intros l' H; inversion H; subst.
  - constructor.
  - constructor; [assumption | now apply IH].
Qed.

Lemma Forall2_same_length {A B} (R : A -> B -> Prop) (l : list A) (l' : list B) :
  Forall2 R l l' -> List.length l = List.length l'.
Proof. induction 1; simpl; congruence. Qed.

(** The builder carries the two seat arrays of the first stock into the two
    sides as they are. *)
Lemma build_carries_seat_arrays (s : FundingBattleBuilder.stock)
    (rest : list FundingBattleBuilder.stock) :
  let seat_data :=
    FundingBattleBuilder.get (FundingBattleBuilder.stock_seat_data s)
      {| FundingBattleBuilder.buy_seats := None;
         FundingBattleBuilder.sell_seats := None |} in
  let buy := FundingBattleBuilder.get
               (FundingBattleBuilder.buy_seats seat_data) [] in
  let sell := FundingBattleBuilder.get
                (FundingBattleBuilder.sell_seats seat_data) [] in
  exists f,
    FundingBattleBuilder.build_structured_facts
      {| FundingBattleBuilder.stocks := Some (s :: rest) |}
    = Py.ret (Some f)
    /\ Forall2 Spec.carried buy
         (FundingBattleBuilder.players (FundingBattleBuilder.long_side_facts f))
    /\ Forall2 Spec.carried sell
         (FundingBattleBuilder.players (FundingBattleBuilder.short_side_facts f))
    /\ FundingBattleBuilder.player_count (FundingBattleBuilder.long_side_facts f)
       = List.length buy
    /\ FundingBattleBuilder.player_count (FundingBattleBuilder.short_side_facts f)
       = List.length sell.
Proof.
  intros seat_data buy sell.
  destruct (build_structured_facts_first_stock s rest)
    as (f & Hf & _ & _ & _ & Hl & Hs & _).
  fold seat_data in Hl, Hs. fold buy in Hl. fold sell in Hs.
  destruct (analyze_side_data_returns buy "buy")
    as (lf & Hl' & Hlc & Hln).
  destruct (analyze_side_data_returns sell "sell")
    as (sf & Hs' & Hsc & Hsn).
  rewrite Hl in Hl'. rewrite Hs in Hs'.
  injection Hl' as <-. injection Hs' as <-.
  exists f. repeat split; assumption.
Qed.

(** The same for a record that comes out of [_process_seat_data]. *)
Lemma pipeline_sides (player_profiles : list (string * profile_data))
    (ts_code name : string) (basic_info : list (string * string))
    (top_data_df : list TopData.row) (hm_list_df : list HmList.row) :
  let carried_row r p :=
    Spec.carried
      (Pipeline.json_of_seat (make_seat_info player_profiles hm_list_df r)) p in
  exists f buy_rows sell_rows,
    FundingBattleBuilder.build_structured_facts
      (Pipeline.raw_record player_profiles ts_code name basic_info
         top_data_df hm_list_df)
    = Py.ret (Some f)
    /\ Forall2 carried_row buy_rows
         (FundingBattleBuilder.players (FundingBattleBuilder.long_side_facts f))
    /\ Forall2 carried_row sell_rows
         (FundingBattleBuilder.players (FundingBattleBuilder.short_side_facts f))
    /\ FundingBattleBuilder.player_count (FundingBattleBuilder.long_side_facts f)
       = List.length buy_rows
    /\ FundingBattleBuilder.player_count (FundingBattleBuilder.short_side_facts f)
       = List.length sell_rows
    /\ Permutation (buy_rows ++ sell_rows)
         (drop_duplicates
            (filter (fun r => String.eqb (TopData.ts_code r) ts_code)
                    top_data_df))
    /\ Forall (fun r => Spec.positive_net (TopData.net_buy r)) buy_rows
    /\ Forall (fun r => ~ Spec.positive_net (TopData.net_buy r)) sell_rows.
Proof.
  intros carried_row.
  destruct (process_seat_data_rows player_profiles ts_code top_data_df hm_list_df)
    as (b & s & Hb & Hs & Hp & Hpos & Hneg & _ & _).
  unfold Pipeline.raw_record.
  match goal with
  | |- context [Some [?st]] =>
      destruct (build_carries_seat_arrays st []) as (f & Hf & Hl & Hsh & Hln & Hsn)
  end.
  cbn [FundingBattleBuilder.stock_seat_data FundingBattleBuilder.get
       Pipeline.json_of_seat_data FundingBattleBuilder.buy_seats
       FundingBattleBuilder.sell_seats] in Hl, Hsh, Hln, Hsn.
  rewrite Hb in Hl, Hln. rewrite Hs in Hsh, Hsn.
  rewrite map_map in Hl, Hsh. rewrite !length_map in Hln, Hsn.
  exists f, b, s. split; [exact Hf |].
  split; [now apply Forall2_map_left in Hl |].
  split; [now apply Forall2_map_left in Hsh |].
  repeat split; assumption.
Qed.

(** C1 (amended): [_process_seat_data] puts every de-duplicated row in
    exactly one of its two lists, [buy_seats] when the net amount is strictly
    positive and [sell_seats] otherwise; [build_structured_facts] carries
    [buy_seats] into [long_side_facts] and [sell_seats] into
    [short_side_facts] as they arrive, seat for seat and in order, and does
    not look at the sign again.  For a record made by the processor no seat is
    dropped and none is on both sides. *)
Theorem sides_follow_seat_arrays :
  (forall (s : FundingBattleBuilder.stock)
          (rest : list FundingBattleBuilder.stock),
      let seat_data :=
        FundingBattleBuilder.get (FundingBattleBuilder.stock_seat_data s)
          {| FundingBattleBuilder.buy_seats := None;
             FundingBattleBuilder.sell_seats := None |} in
      exists f,
        FundingBattleBuilder.build_structured_facts
          {| FundingBattleBuilder.stocks := Some (s :: rest) |}
        = Py.ret (Some f)
        /\ Forall2 Spec.carried
             (FundingBattleBuilder.get
                (FundingBattleBuilder.buy_seats seat_data) [])
             (FundingBattleBuilder.players
                (FundingBattleBuilder.long_side_facts f))
        /\ Forall2 Spec.carried
             (FundingBattleBuilder.get
                (FundingBattleBuilder.sell_seats seat_data) [])
             (FundingBattleBuilder.players
                (FundingBattleBuilder.short_side_facts f)))
  /\ (forall (player_profiles : list (string * profile_data))
             (ts_code name : string) (basic_info : list (string * string))
             (top_data_df : list TopData.row) (hm_list_df : list HmList.row),
         let carried_row r p :=
           Spec.carried
             (Pipeline.json_of_seat
                (make_seat_info player_profiles hm_list_df r)) p in
         exists f buy_rows sell_rows,
           FundingBattleBuilder.build_structured_facts
             (Pipeline.raw_record player_profiles ts_code name basic_info
                top_data_df hm_list_df)
           = Py.ret (Some f)
           /\ Forall2 carried_row buy_rows
                (FundingBattleBuilder.players
                   (FundingBattleBuilder.long_side_facts f))
           /\ Forall2 carried_row sell_rows
                (FundingBattleBuilder.players
                   (FundingBattleBuilder.short_side_facts f))
           /\ Permutation (buy_rows ++ sell_rows)
                (drop_duplicates
                   (filter (fun r => String.eqb (TopData.ts_code r) ts_code)
                           top_data_df))
           /\ NoDup (buy_rows ++ sell_rows)
           /\ Forall (fun r => Spec.positive_net (TopData.net_buy r)) buy_rows
           /\ Forall (fun r => ~ Spec.positive_net (TopData.net_buy r))
                sell_rows).
Proof.
  split.
  - intros s rest seat_data.
    destruct (build_carries_seat_arrays s rest) as (f & Hf & Hl & Hs & _).
    exists f. repeat split; assumption.
  - intros pp ts name bi df hm carried_row.
    destruct (pipeline_sides pp ts name bi df hm)
      as (f & b & s & Hf & Hl & Hs & _ & _ & Hp & Hpos & Hneg).
    exists f, b, s. repeat split; try assumption.
    eapply Permutation_NoDup; [symmetry; exact Hp |].
    apply drop_duplicates_rows_NoDup.
Qed.

(** C1 as stated fails in the builder: a seat that arrives in [buy_seats]
    with a negative net amount stays on the long side, and the short side
    does not get it. *)
Lemma negative_net_seat_on_long_side :
  exists f q,
    FundingBattleBuilder.build_structured_facts
      (Examples.one_stock [Examples.bare_seat "甲证券营业部" "-100.00万元"] [])
    = Py.ret (Some f)
    /\ map FundingBattleBuilder.p_seat_name
         (FundingBattleBuilder.players (FundingBattleBuilder.long_side_facts f))
       = ["甲证券营业部"]
    /\ map FundingBattleBuilder.p_net_amount
         (FundingBattleBuilder.players (FundingBattleBuilder.long_side_facts f))
       = ["-100.00万元"]
    /\ FundingBattleBuilder.players (FundingBattleBuilder.short_side_facts f)
       = []
    /\ FundingBattleBuilder.parse_amount_to_wan "-100.00万元" = Py.ret q
    /\ q < 0.
Proof.
  do 2 eexists. split; [vm_compute; reflexivity |].
  split; [reflexivity |]. split; [reflexivity |]. split; [reflexivity |].
  split; [vm_compute; reflexivity | reflexivity].
Qed.

(** C4: de-duplication keeps one row per distinct
    (seat_name, buy, sell, net, buy_rate, sell_rate) tuple.  The number of
    ProcessedPlayer entries on the two sides is the number of distinct tuples
    of the stock's rows; rows that differ only in the listing reason collapse
    to one entry, whose amount is counted once; rows that differ in any field
    of the tuple are both kept; de-duplicating again changes nothing. *)
Theorem dedup_one_entry_per_tuple :
  (forall (player_profiles : list (string * profile_data))
          (ts_code name : string) (basic_info : list (string * string))
          (top_data_df : list TopData.row) (hm_list_df : list HmList.row),
      let stock_seats :=
        filter (fun r => String.eqb (TopData.ts_code r) ts_code) top_data_df in
      let distinct :=
        List.length (nodup key_eq_dec (map key_of stock_seats)) in
      let sd :=
        _process_seat_data player_profiles ts_code top_data_df hm_list_df in
      (List.length (buy_seats sd) + List.length (sell_seats sd))%nat = distinct
      /\ exists f,
           FundingBattleBuilder.build_structured_facts
             (Pipeline.raw_record player_profiles ts_code name basic_info
                top_data_df hm_list_df)
           = Py.ret (Some f)
           /\ (List.length (FundingBattleBuilder.players
                              (FundingBattleBuilder.long_side_facts f))
               + List.length (FundingBattleBuilder.players
                                (FundingBattleBuilder.short_side_facts f)))%nat
              = distinct
           /\ (FundingBattleBuilder.player_count
                 (FundingBattleBuilder.long_side_facts f)
               + FundingBattleBuilder.player_count
                   (FundingBattleBuilder.short_side_facts f))%nat
              = distinct)
  /\ (forall rows : list TopData.row,
         NoDup (map key_of (drop_duplicates rows))
         /\ (forall k, In k (map key_of (drop_duplicates rows))
                       <-> In k (map key_of rows))
         /\ (forall r, In r (drop_duplicates rows) -> In r rows)
         /\ drop_duplicates (drop_duplicates rows) = drop_duplicates rows)
  /\ (forall r1 r2 : TopData.row,
         (key_of r1 = key_of r2 -> drop_duplicates [r1; r2] = [r1])
         /\ (key_of r1 <> key_of r2 -> drop_duplicates [r1; r2] = [r1; r2]))
  /\ exists f v,
       FundingBattleBuilder.build_structured_facts
         (Pipeline.raw_record [] "000001.SZ" "平安银行" []
            [Examples.citic_1; Examples.citic_2] [])
       = Py.ret (Some f)
       /\ map FundingBattleBuilder.p_seat_name
            (FundingBattleBuilder.players
               (FundingBattleBuilder.long_side_facts f))
          = ["中信证券A"]
       /\ FundingBattleBuilder.players (FundingBattleBuilder.short_side_facts f)
          = []
       /\ FundingBattleBuilder.contribution_by_type
            (FundingBattleBuilder.long_side_facts f)
          = [("普通席位_net_wan", v)]
       /\ v == 800.
Proof.
  split; [| split; [| split]].
  - intros pp ts name bi df hm stock_seats distinct sd.
    destruct (pipeline_sides pp ts name bi df hm)
      as (f & b & s & Hf & Hl & Hs & Hln & Hsn & Hp & _ & _).
    assert (Hcount : (List.length b + List.length s)%nat = distinct).
    { rewrite <- length_app. subst distinct stock_seats.
      rewrite <- drop_duplicates_length. now apply Permutation_length. }
    split.
    + destruct (process_seat_data_rows pp ts df hm)
        as (b' & s' & Hb' & Hs' & Hp' & _).
      subst sd. rewrite Hb', Hs', !length_map, <- length_app.
      subst distinct stock_seats.
      rewrite <- drop_duplicates_length. now apply Permutation_length.
    + exists f. split; [exact Hf |]. split.
      * rewrite <- (Forall2_same_length _ _ _ Hl),
                <- (Forall2_same_length _ _ _ Hs). exact Hcount.
      * rewrite Hln, Hsn. exact Hcount.
  - intros rows. split; [apply drop_duplicates_NoDup |].
    split; [apply drop_duplicates_keys |].
    split; [| apply drop_duplicates_idempotent].
    intros r Hr. now apply drop_duplicates_seen_sound in Hr.
  - intros r1 r2. unfold drop_duplicates. cbn [drop_duplicates_seen in_dec].
    destruct (in_dec key_eq_dec (key_of r2) [key_of r1]) as [Hin | Hnin];
      split; intros H; try reflexivity.
    + destruct Hin as [E | []]. contradiction.
    + exfalso. apply Hnin. now left.
  - do 2 eexists. split; [vm_compute; reflexivity |].
    repeat split.
Qed.

End EndToEnd.

(** ** Seat classification *)

Section Classification.

Import DataProcessor.






End Classification.

(** ** Strings: removal, search, stripping, digit runs *)

Section Strings.

Lemma all_chars_app (p : ascii -> bool) (s t : string) :
  Py.all_chars p (s ++ t) = Py.all_chars p s && Py.all_chars p t.
Proof.
  induction s as [| c s IH]; simpl.
  - reflexivity.
  - now rewrite IH, andb_assoc.
Qed.

Lemma all_chars_impl (p q : ascii -> bool) (s : string) :
  (forall c, p c = true -> q c = true) ->
  Py.all_chars p s = true -> Py.all_chars q s = true.
Proof.
  intros Hpq. induction s as [| c s IH]; simpl.
  - reflexivity.
  - intros H. apply andb_true_iff in H as [Hc Hs].
    now rewrite (Hpq c Hc), IH.
Qed.

Lemma prefix_other_head (p0 c : ascii) (p s : string) :
  Ascii.eqb c p0 = false -> prefix (String p0 p) (String c s) = false.
Proof.
  intros H. simpl. destruct (ascii_dec p0 c) as [E | N]; [| reflexivity].
  subst. now rewrite Ascii.eqb_refl in H.
Qed.


Lemma remove_keep (p0 : ascii) (p a t : string) :
  Py.all_chars (fun c => negb (Ascii.eqb c p0)) a = true ->
  Py.remove_from 0 (String p0 p) (a ++ t)
  = a ++ Py.remove_from 0 (String p0 p) t.
Proof.
  induction a as [| c a IH]; intros H.
  - reflexivity.
  - simpl in H. apply andb_true_iff in H as [Hc Ha].
    apply negb_true_iff in Hc.
    change ((String c a) ++ t) with (String c (a ++ t)).
    cbn [Py.remove_from].
    rewrite (prefix_other_head p0 c p (a ++ t) Hc).
    now rewrite IH.
Qed.

Lemma contains_keep (p0 : ascii) (p a t : string) :
  Py.all_chars (fun c => negb (Ascii.eqb c p0)) a = true ->
  Py.contains (String p0 p) (a ++ t) = Py.contains (String p0 p) t.
Proof.
  induction a as [| c a IH]; intros H.
  - reflexivity.
  - simpl in H. apply andb_true_iff in H as [Hc Ha].
    apply negb_true_iff in Hc.
    change ((String c a) ++ t) with (String c (a ++ t)).
    cbn [Py.contains].
    rewrite (prefix_other_head p0 c p (a ++ t) Hc).
    now rewrite IH.
Qed.

Lemma remove_comma_group3 (d t : string) :
  Py.all_chars Py.is_digit d = true ->
  Py.remove_from 0 "," (Py.group3 d ++ t) = d ++ Py.remove_from 0 "," t.
Proof.
  induction d as [| c d IH]; intros H.
  - reflexivity.
  - simpl in H. apply andb_true_iff in H as [Hc Hd].
    assert (Hcomma : Ascii.eqb c "," = false).
    { destruct (Ascii.eqb_spec c ","); [subst; discriminate | reflexivity]. }
    cbn [Py.group3].
    change (String c ?x ++ t) with (String c (x ++ t)).
    cbn [Py.remove_from].
    rewrite (prefix_other_head "," c EmptyString _ Hcomma).
    change (String c d ++ ?x) with (String c (d ++ x)). f_equal.
    destruct d as [| c' d'].
    + reflexivity.
    + destruct (String.length (String c' d') mod 3 =? 0)%nat.
      * change (String "," ?x ++ t) with (String "," (x ++ t)).
        cbn [Py.remove_from prefix]. 
        destruct (ascii_dec "," ","); [| congruence].
        cbn [String.length Nat.sub]. now apply IH.
      * now apply IH.
Qed.

Lemma lstrip_id (s : string) :
  Py.all_chars (fun c => negb (Py.is_space c)) s = true -> Py.lstrip s = s.
Proof.
  destruct s as [| c s]; simpl; [reflexivity |].
  intros H. apply andb_true_iff in H as [Hc _].
  apply negb_true_iff in Hc. now rewrite Hc.
Qed.

Lemma rstrip_id (s : string) :
  Py.all_chars (fun c => negb (Py.is_space c)) s = true -> Py.rstrip s = s.
Proof.
  induction s as [| c s IH]; simpl; [reflexivity |].
  intros H. apply andb_true_iff in H as [Hc Hs].
  apply negb_true_iff in Hc. rewrite (IH Hs), Hc.
  now destruct s.
Qed.

Lemma strip_id (s : string) :
  Py.all_chars (fun c => negb (Py.is_space c)) s = true -> Py.strip s = s.
Proof.
  intros H. unfold Py.strip. rewrite (lstrip_id s H). now apply rstrip_id.
Qed.

Lemma span_digits_app (d t : string) :
  Py.all_chars Py.is_digit d = true ->
  match t with
  | EmptyString => True
  | String c _ => Py.is_digit c = false
  end ->
  Py.span_digits (d ++ t) = (d, t).
Proof.
  intros Hd Ht. induction d as [| c d IH]; simpl.
  - destruct t as [| c t]; simpl; [reflexivity | now rewrite Ht].
  - simpl in Hd. apply andb_true_iff in Hd as [Hc Hd].
    now rewrite Hc, (IH Hd).
Qed.

Lemma append_assoc (a b c : string) : (a ++ b) ++ c = a ++ (b ++ c).
Proof.
  induction a as [| x a IH]; simpl.
  - reflexivity.
  - now rewrite IH.
Qed.

Lemma string_of_uint_digits (d : Decimal.uint) :
  Py.all_chars Py.is_digit (NilEmpty.string_of_uint d) = true.
Proof. induction d; simpl; assumption || reflexivity. Qed.

Lemma to_uint_nonnil (n : N) : N.to_uint n <> Decimal.Nil.
Proof.
  destruct n as [| p]; simpl; [discriminate |].
  apply DecimalPos.Unsigned.to_uint_nonnil.
Qed.

Lemma digits_of_unfold (n : N) :
  Py.digits_of n = NilEmpty.string_of_uint (N.to_uint n).
Proof.
  unfold Py.digits_of, NilZero.string_of_uint.
  pose proof (to_uint_nonnil n) as H.
  destruct (N.to_uint n); [congruence | reflexivity ..].
Qed.

Lemma digits_of_digits (n : N) :
  Py.all_chars Py.is_digit (Py.digits_of n) = true.
Proof. rewrite digits_of_unfold. apply string_of_uint_digits. Qed.

Lemma digits_of_nonempty (n : N) : Py.is_empty (Py.digits_of n) = false.
Proof.
  rewrite digits_of_unfold.
  pose proof (to_uint_nonnil n) as H.
  destruct (N.to_uint n); [congruence | reflexivity ..].
Qed.

Lemma digits_value_digits_of (n : N) : Py.digits_value (Py.digits_of n) = n.
Proof.
  unfold Py.digits_value. rewrite digits_of_unfold, NilEmpty.usu.
  apply DecimalN.Unsigned.of_to.
Qed.

Lemma two_digits_below_100 (n : N) :
  (n < 100)%N -> Spec.two_digits_ok n = true.
Proof.
  intros H.
  assert (Hall : forallb Spec.two_digits_ok (map N.of_nat (seq 0 100)) = true)
    by (vm_compute; reflexivity).
  rewrite forallb_forall in Hall. apply Hall.
  apply in_map_iff. exists (N.to_nat n). split; [apply N2Nat.id |].
  apply in_seq. lia.
Qed.

End Strings.

(** ** Formatting an amount and parsing it back *)

Section RoundTrip.

Import FundingBattleBuilder.

Lemma plain_or_comma_facts (c : ascii) :
  Spec.plain_or_comma c = true ->
  Py.is_space c = false
  /\ Ascii.eqb c " " = false
  /\ Ascii.eqb c "229"%char = false
  /\ Ascii.eqb c "228"%char = false.
Proof.
  destruct c as [[] [] [] [] [] [] [] []]; intros H;
    try discriminate H; repeat split.
Qed.

Lemma plain_char_facts (c : ascii) :
  Spec.plain_char c = true ->
  Spec.plain_or_comma c = true /\ Ascii.eqb c "," = false.
Proof.
  destruct c as [[] [] [] [] [] [] [] []]; intros H;
    try discriminate H; repeat split.
Qed.

Lemma digit_is_plain (c : ascii) :
  Py.is_digit c = true -> Spec.plain_char c = true.
Proof. intros H. unfold Spec.plain_char. now rewrite H. Qed.

Lemma read_sign_digit (c : ascii) (s : string) :
  Py.is_digit c = true -> Py.read_sign (String c s) = (false, String c s).
Proof.
  destruct c as [[] [] [] [] [] [] [] []]; intros H;
    try discriminate H; reflexivity.
Qed.

Lemma append_nil_r (s : string) : s ++ EmptyString = s.
Proof. induction s as [| c s IH]; simpl; [reflexivity | now rewrite IH]. Qed.

(** [float] on a sign, a run of digits, a point and a run of digits. *)
Lemma float_decimal_text (neg : bool) (d ff : string) :
  Py.all_chars Py.is_digit d = true ->
  Py.is_empty d = false ->
  Py.all_chars Py.is_digit ff = true ->
  Py.float ((if neg then "-" else EmptyString) ++ d ++ "." ++ ff)
  = Py.ret
      (let v := (inject_Z (Z.of_N (Py.digits_value d))
                 + inject_Z (Z.of_N (Py.digits_value ff))
                   / Py.pow10 (String.length ff)) * Qpower 10 0 in
       if neg then - v else v).
Proof.
  intros Hd Hne Hff. unfold Py.float.
  assert (Hplain : Py.all_chars (fun c => negb (Py.is_space c))
                     ((if neg then "-" else EmptyString) ++ d ++ "." ++ ff) = true).
  { apply (all_chars_impl Spec.plain_or_comma).
    - intros c Hc. now destruct (plain_or_comma_facts c Hc) as [-> _].
    - rewrite !all_chars_app.
      assert (Hdp : forall s, Py.all_chars Py.is_digit s = true ->
                              Py.all_chars Spec.plain_or_comma s = true).
      { intros s. apply all_chars_impl. intros c Hc.
        now apply plain_char_facts, digit_is_plain. }
      rewrite (Hdp d Hd), (Hdp ff Hff). now destruct neg. }
  rewrite (strip_id _ Hplain).
  assert (Hsign : Py.read_sign ((if neg then "-" else EmptyString) ++ d ++ "." ++ ff)
                  = (neg, d ++ "." ++ ff)).
  { destruct neg; [reflexivity |].
    destruct d as [| c d']; [discriminate |].
    simpl in Hd. apply andb_true_iff in Hd as [Hc _].
    now apply read_sign_digit. }
  rewrite Hsign.
  rewrite (span_digits_app d ("." ++ ff) Hd) by reflexivity.
  change ("." ++ ff) with (String "." ff). cbv iota beta.
  rewrite <- (append_nil_r ff) at 1.
  rewrite (span_digits_app ff EmptyString Hff I).
  rewrite Hne. reflexivity.
Qed.

Lemma strip_nonempty (c : ascii) (s : string) :
  Py.is_space c = false -> Py.is_empty (Py.strip (String c s)) = false.
Proof.
  intros H. unfold Py.strip. cbn [Py.lstrip]. rewrite H.
  cbn [Py.rstrip]. rewrite H. now destruct (Py.rstrip s).
Qed.

Lemma group3_plain (d : string) :
  Py.all_chars Py.is_digit d = true ->
  Py.all_chars Spec.plain_or_comma (Py.group3 d) = true.
Proof.
  induction d as [| c d IH]; intros H; [reflexivity |].
  simpl in H. apply andb_true_iff in H as [Hc Hd].
  cbn [Py.group3 Py.all_chars].
  destruct (plain_char_facts c (digit_is_plain c Hc)) as [-> _].
  destruct d as [| c' d']; [reflexivity |].
  destruct (String.length (String c' d') mod 3 =? 0)%nat;
    cbn [Py.all_chars andb]; [change (Spec.plain_or_comma ",") with true |];
    now apply IH.
Qed.

Lemma group3_head (c : ascii) (d : string) :
  exists rest, Py.group3 (String c d) = String c rest.
Proof. eexists. reflexivity. Qed.

(** [parse_amount_to_wan] on a formatted number followed by its unit. *)
Lemma parse_amount_decimal_text (neg yi : bool) (d ff : string) :
  Py.all_chars Py.is_digit d = true ->
  Py.is_empty d = false ->
  Py.all_chars Py.is_digit ff = true ->
  parse_amount_to_wan
    (((if neg then "-" else EmptyString) ++ Py.group3 d ++ "." ++ ff)
       ++ (if yi then "亿元" else "万元"))
  = Py.ret
      (let v := (inject_Z (Z.of_N (Py.digits_value d))
                 + inject_Z (Z.of_N (Py.digits_value ff))
                   / Py.pow10 (String.length ff)) * Qpower 10 0 in
       let x := if neg then - v else v in
       if yi then x * 10000 else x).
Proof.
  intros Hd Hne Hff.
  set (sg := if neg then "-" else EmptyString).
  set (unit := if yi then "亿元" else "万元").
  assert (Hdp : forall s, Py.all_chars Py.is_digit s = true ->
                          Py.all_chars Spec.plain_char s = true).
  { intros s. apply all_chars_impl, digit_is_plain. }
  assert (Hpc : forall s, Py.all_chars Spec.plain_char s = true ->
                          Py.all_chars Spec.plain_or_comma s = true).
  { intros s. apply all_chars_impl. intros c Hc.
    now apply plain_char_facts. }
  assert (Hsg : Py.all_chars Spec.plain_char sg = true)
    by (subst sg; now destruct neg).
  assert (Htail : Py.all_chars Spec.plain_char ("." ++ ff) = true).
  { change ("." ++ ff) with (String "." ff). cbn [Py.all_chars].
    now rewrite (Hdp ff Hff). }
  (* the formatted number, with and without separators *)
  set (a := sg ++ Py.group3 d ++ "." ++ ff).
  set (a' := sg ++ d ++ "." ++ ff).
  assert (Ha : Py.all_chars Spec.plain_or_comma a = true).
  { subst a. rewrite !all_chars_app, (Hpc sg Hsg), (group3_plain d Hd).
    now rewrite (Hpc ff (Hdp ff Hff)). }
  assert (Ha' : Py.all_chars Spec.plain_char a' = true).
  { subst a'. rewrite !all_chars_app, Hsg, (Hdp d Hd).
    now rewrite (Hdp ff Hff). }
  assert (Hnot : forall p0 : ascii,
             (forall c, Spec.plain_or_comma c = true -> Ascii.eqb c p0 = false) ->
             forall s, Py.all_chars Spec.plain_or_comma s = true ->
                       Py.all_chars (fun c => negb (Ascii.eqb c p0)) s = true).
  { intros p0 Hp0 s. apply all_chars_impl. intros c Hc.
    now rewrite (Hp0 c Hc). }
  unfold parse_amount_to_wan.
  (* the string is not blank *)
  assert (Hblank : Py.is_empty (a ++ unit) || Py.is_empty (Py.strip (a ++ unit))
                   = false).
  { destruct d as [| c d']; [discriminate |].
    simpl in Hd. apply andb_true_iff in Hd as [Hc _].
    destruct (group3_head c d') as [rest Hrest].
    subst a sg. rewrite Hrest.
    destruct neg; cbn [String.append Py.is_empty orb];
      apply strip_nonempty; [reflexivity |].
    now destruct (plain_or_comma_facts c
                    (proj1 (plain_char_facts c (digit_is_plain c Hc)))). }
  rewrite Hblank.
  (* removing blanks and the currency sign *)
  assert (H1 : Py.remove " " (a ++ unit) = a ++ unit).
  { cbn [Py.remove]. rewrite remove_keep.
    - now destruct yi.
    - apply Hnot; [| exact Ha]. intros c Hc.
      now destruct (plain_or_comma_facts c Hc) as (_ & -> & _). }
  rewrite H1.
  set (u := if yi then "亿" else "万").
  assert (H2 : Py.remove "元" (a ++ unit) = a ++ u).
  { cbn [Py.remove]. rewrite remove_keep.
    - now destruct yi.
    - apply Hnot; [| exact Ha]. intros c Hc.
      now destruct (plain_or_comma_facts c Hc) as (_ & _ & -> & _). }
  rewrite H2.
  (* removing the separators *)
  assert (Hcomma : forall s, Py.all_chars Spec.plain_char s = true ->
             Py.all_chars (fun c => negb (Ascii.eqb c ",")) s = true).
  { intros s. apply all_chars_impl. intros c Hc.
    now destruct (plain_char_facts c Hc) as [_ ->]. }
  assert (H3 : Py.remove "," (a ++ u) = a' ++ u).
  { cbn [Py.remove]. subst a a'.
    set (t := "." ++ ff) in *.
    rewrite (append_assoc sg), (append_assoc (Py.group3 d)).
    rewrite (append_assoc sg), (append_assoc d).
    rewrite (remove_keep "," EmptyString sg _ (Hcomma sg Hsg)).
    rewrite (remove_comma_group3 d _ Hd).
    rewrite (remove_keep "," EmptyString t u (Hcomma _ Htail)).
    now destruct yi. }
  rewrite H3.
  assert (Hyi : Py.contains "亿" (a' ++ u) = yi).
  { rewrite contains_keep.
    - now destruct yi.
    - apply Hnot; [| exact (Hpc a' Ha')]. intros c Hc.
      now destruct (plain_or_comma_facts c Hc) as (_ & _ & _ & ->). }
  assert (Hwan : Py.contains "万" (a' ++ u) = negb yi).
  { rewrite contains_keep.
    - now destruct yi.
    - apply Hnot; [| exact (Hpc a' Ha')]. intros c Hc.
      now destruct (plain_or_comma_facts c Hc) as (_ & _ & _ & ->). }
  assert (Hrm : forall p, Py.remove_from 0 (String "228"%char p) (a' ++ u)
                          = a' ++ Py.remove_from 0 (String "228"%char p) u).
  { intros p. apply remove_keep.
    apply Hnot; [| exact (Hpc a' Ha')]. intros c Hc.
    now destruct (plain_or_comma_facts c Hc) as (_ & _ & _ & ->). }
  rewrite Hyi, Hwan.
  pose proof (float_decimal_text neg d ff Hd Hne Hff) as Hfloat.
  fold sg in Hfloat. fold a' in Hfloat.
  destruct yi; cbn [negb Py.remove]; subst u.
  - change "亿" with (String "228"%char (String "186"%char (String "191"%char EmptyString))).
    rewrite Hrm. cbn [Py.remove_from prefix String.length Nat.sub]. 
    rewrite append_nil_r, Hfloat. reflexivity.
  - change "万" with (String "228"%char (String "184"%char (String "135"%char EmptyString))).
    rewrite Hrm. cbn [Py.remove_from prefix String.length Nat.sub].
    rewrite append_nil_r, Hfloat. reflexivity.
Qed.

Lemma round_half_even_nonneg (q : Q) : 0 <= q -> (0 <= Py.round_half_even q)%Z.
Proof.
  intros H. change 0%Z with (Py.round_half_even (inject_Z 0)) at 1.
  - now apply round_half_even_mono.
Qed.

Lemma shown_2f_error (q : Q) : Qabs (Spec.shown_2f q - q) <= 1 # 200.
Proof.
  unfold Spec.shown_2f.
  destruct (round_half_even_bounds (Qabs q * 100)) as [Hlo Hhi].
  set (r := inject_Z (Py.round_half_even (Qabs q * 100))) in *.
  assert (E : r / 100 == r * (1 # 100)) by field.
  destruct (Qlt_le_dec q 0) as [Hneg | Hpos].
  - rewrite (Qabs_neg q) in Hlo, Hhi by lra.
    rewrite E. apply Qabs_case; intros _; lra.
  - rewrite (Qabs_pos q) in Hlo, Hhi by lra.
    rewrite E. apply Qabs_case; intros _; lra.
Qed.

(** What [parse_amount_to_wan] reads back from a formatted amount. *)
Lemma parse_formatted (q : Q) (yi : bool) :
  exists w,
    parse_amount_to_wan
      (Py.format_2f true q ++ (if yi then "亿元" else "万元"))
    = Py.ret w
    /\ w == if yi then Spec.shown_2f q * 10000 else Spec.shown_2f q.
Proof.
  unfold Py.format_2f.
  set (r := Py.round_half_even (Qabs q * 100)).
  assert (Hr : (0 <= r)%Z).
  { apply round_half_even_nonneg.
    apply Qmult_le_0_compat; [apply Qabs_nonneg | discriminate]. }
  set (n := Z.to_N r).
  assert (Hfp : (n mod 100 < 100)%N) by (apply N.mod_lt; discriminate).
  pose proof (two_digits_below_100 _ Hfp) as Hok.
  unfold Spec.two_digits_ok in Hok.
  apply andb_true_iff in Hok as [Hok Hval].
  apply andb_true_iff in Hok as [Hlen Hdig].
  apply Nat.eqb_eq in Hlen. apply N.eqb_eq in Hval.
  set (neg := if Qlt_le_dec q 0 then true else false).
  assert (Hsg : (if Qlt_le_dec q 0 then "-" else EmptyString)
                = (if neg then "-" else EmptyString))
    by (subst neg; now destruct (Qlt_le_dec q 0)).
  rewrite Hsg.
  rewrite (parse_amount_decimal_text neg yi _ _
             (digits_of_digits (n / 100)) (digits_of_nonempty (n / 100)) Hdig).
  eexists. split; [reflexivity |].
  cbv zeta. rewrite digits_value_digits_of, Hval, Hlen.
  change (Py.pow10 2) with 100. change (Qpower 10 0) with 1.
  assert (Hn : inject_Z (Z.of_N (n / 100)) + inject_Z (Z.of_N (n mod 100)) / 100
               == inject_Z r / 100).
  { assert (Hz : r = (100 * Z.of_N (n / 100) + Z.of_N (n mod 100))%Z).
    { rewrite <- (Z2N.id r Hr) at 1. fold n.
      rewrite (N.div_mod n 100) at 1 by discriminate.
      rewrite N2Z.inj_add, N2Z.inj_mul. reflexivity. }
    apply (f_equal inject_Z) in Hz.
    rewrite Hz, inject_Z_plus, inject_Z_mult. field. }
  unfold Spec.shown_2f. fold r. subst neg.
  destruct (Qlt_le_dec q 0); destruct yi; rewrite <- Hn; ring.
Qed.

(** C3 (amended): formatting an amount of yuan and parsing it back gives the
    amount rounded to the two displayed decimals: within 50 yuan below
    10,000,000 yuan (万元 display) and within 500,000 yuan from there on
    (亿元 display).  500.0 and 15000.0 come back exactly; 999999.0 comes back
    as 1000000.0. *)
Theorem amount_round_trip :
  (forall x : Qc,
      exists w,
        parse_amount_to_wan (DataProcessor._format_amount (DataProcessor.Num x))
        = Py.ret w
        /\ (x < 10000000 -> Qabs (w * 10000 - x) <= 50)
        /\ (10000000 <= x -> Qabs (w * 10000 - x) <= 500000))
  /\ (exists w,
        parse_amount_to_wan
          (DataProcessor._format_amount (DataProcessor.Num (Q2Qc 500)))
        = Py.ret w /\ w * 10000 == 500)
  /\ (exists w,
        parse_amount_to_wan
          (DataProcessor._format_amount (DataProcessor.Num (Q2Qc 15000)))
        = Py.ret w /\ w * 10000 == 15000)
  /\ (exists w,
        parse_amount_to_wan
          (DataProcessor._format_amount (DataProcessor.Num (Q2Qc 999999)))
        = Py.ret w /\ w * 10000 == 1000000).
Proof.
  split; [| repeat split; eexists; (split; [vm_compute; reflexivity |]);
            reflexivity].
  intros x. unfold DataProcessor._format_amount.
  destruct (Qeq_bool x 0) eqn:Hz.
  { apply Qeq_bool_iff in Hz.
    assert (H0 : exists w, parse_amount_to_wan "0.00万元" = Py.ret w /\ w == 0)
      by (eexists; split; [vm_compute; reflexivity | reflexivity]).
    destruct H0 as (w & -> & Hw).
    exists w. split; [reflexivity |].
    split; intros H; [| lra].
    apply Qabs_case; intros _; lra. }
  destruct (Qlt_le_dec x 10000000) as [Hlt | Hge].
  - destruct (parse_formatted (x / 10000) false) as (w & -> & Hw).
    exists w. split; [reflexivity |]. split; intros H; [| lra].
    pose proof (shown_2f_error (x / 10000)) as He. rewrite <- Hw in He.
    assert (E : x / 10000 == x * (1 # 10000)) by field.
    rewrite E in He. apply Qabs_Qle_condition in He as [He1 He2].
    apply Qabs_Qle_condition. split; lra.
  - destruct (parse_formatted (x / 100000000) true) as (w & -> & Hw).
    exists w. split; [reflexivity |]. split; intros H; [lra |].
    pose proof (shown_2f_error (x / 100000000)) as He.
    assert (Hw' : Spec.shown_2f (x / 100000000) == w * (1 # 10000))
      by (rewrite Hw; field).
    rewrite Hw' in He.
    assert (E : x / 100000000 == x * (1 # 100000000)) by field.
    rewrite E in He. apply Qabs_Qle_condition in He as [He1 He2].
    apply Qabs_Qle_condition. split; lra.
Qed.

(** C3 as stated fails at 999999.0: it is shown as "100.00万元", which reads
    back as 1000000.0 yuan, one yuan away and not within one cent. *)
Lemma round_trip_999999 :
  exists w,
    DataProcessor._format_amount (DataProcessor.Num (Q2Qc 999999))
    = "100.00万元"
    /\ parse_amount_to_wan "100.00万元" = Py.ret w
    /\ w * 10000 == 1000000
    /\ ~ Qabs (w * 10000 - 999999) <= 1 # 100.
Proof.
  eexists. split; [vm_compute; reflexivity |].
  split; [vm_compute; reflexivity |].
  split; [reflexivity |].
  intros H. vm_compute in H. now apply H.
Qed.

End RoundTrip.

(** ** The scenarios of the specification *)

Section Scenarios.

Import FundingBattleBuilder.

(** Two seats with different names, net +500万元 and -300万元: two entries,
    one on each side. *)
Example scenario_two_branches :
  exists f,
    build_structured_facts
      (Pipeline.raw_record [] "000001.SZ" "平安银行" []
         [Examples.top_row "东方财富拉萨团结路第一营业部" 6000000 1000000
            5000000 "放量上涨";
          Examples.top_row "东方财富拉萨团结路第二营业部" 1000000 4000000
            (-3000000) "放量上涨"] [])
    = Py.ret (Some f)
    /\ map p_seat_name (players (long_side_facts f))
       = ["东方财富拉萨团结路第一营业部"]
    /\ map p_seat_name (players (short_side_facts f))
       = ["东方财富拉萨团结路第二营业部"]
    /\ total_amount_wan (long_side_facts f) == 500
    /\ total_amount_wan (short_side_facts f) == 300.
Proof.
  eexists. split; [vm_compute; reflexivity |]. repeat split.
Qed.

(** Equal totals of 1000万元: a tie with a net advantage of 0.0%. *)
Example scenario_tie :
  exists f,
    build_structured_facts
      (Examples.one_stock [Examples.bare_seat "甲证券营业部" "1000.00万元"]
                          [Examples.bare_seat "乙证券营业部" "-1000.00万元"])
    = Py.ret (Some f)
    /\ winner (battle_facts f) = "平局"
    /\ net_advantage_pct (battle_facts f) == 0
    /\ on_list_turnover_pct (battle_facts f) == 12.3.
Proof.
  eexists. split; [vm_compute; reflexivity |]. repeat split.
Qed.

(** "0.65亿元" is 6500 万元 and "456.11万元" is 456.11 万元; a string that is
    not a number gives 0.0. *)
Example scenario_parse_amount :
  exists a b c,
    parse_amount_to_wan "0.65亿元" = Py.ret a /\ a == 6500
    /\ parse_amount_to_wan "456.11万元" = Py.ret b /\ b == 456.11
    /\ parse_amount_to_wan "暂无" = Py.ret c /\ c == 0.
Proof.
  do 3 eexists. repeat split; vm_compute; reflexivity.
Qed.

End Scenarios.

(** ** One side of the battle, seat by seat *)

Section SideAnalysis.

Import FundingBattleBuilder.

Lemma analyze_seat_step (side_type : string) (st : loop_state) (s : seat) :
  exists p,
    analyze_seat side_type st s
    = Py.ret {| processed_players := (processed_players st ++ [p])%list;
                amounts :=
                  (amounts st ++ [Spec.side_amount side_type s])%list;
                famous_count :=
                  if String.eqb (Spec.seat_type s) "知名游资"
                  then S (famous_count st) else famous_count st;
                contributions :=
                  add_contribution (Spec.seat_type s)
                    (Spec.side_amount side_type s) (contributions st) |}
    /\ Spec.carried s p.
Proof.
  unfold analyze_seat, Spec.side_amount.
  change (if String.eqb side_type "buy"
          then get (net_amount s) "0万元"
          else if Py.startswith (get (net_amount s) "0万元") "-"
               then substring 1 (String.length (get (net_amount s) "0万元") - 1)
                      (get (net_amount s) "0万元")
               else get (net_amount s) "0万元")
    with (Spec.side_amount_str side_type s).
  destruct (parse_amount_to_wan_returns (Spec.side_amount_str side_type s))
    as [a Ha].
  rewrite Ha. cbn [Py.bind Py.ret].
  eexists. split; [reflexivity |]. repeat split.
Qed.

(** The state of the loop after a list of seats. *)
Lemma for_each_analyze_state (side_type : string) (seats : list seat) :
  forall st, exists st' ps,
    for_each (analyze_seat side_type) seats st = Py.ret st'
    /\ processed_players st' = (processed_players st ++ ps)%list
    /\ Forall2 Spec.carried seats ps
    /\ amounts st'
       = (amounts st ++ map (Spec.side_amount side_type) seats)%list
    /\ famous_count st'
       = (famous_count st
          + List.length
              (filter (fun s => String.eqb (Spec.seat_type s) "知名游资") seats))%nat
    /\ contributions st'
       = fold_left
           (fun d s => add_contribution (Spec.seat_type s)
                         (Spec.side_amount side_type s) d)
           seats (contributions st).
Proof.
  induction seats as [| s seats IH]; intros st.
  - exists st, []. cbn. rewrite !app_nil_r, Nat.add_0_r.
    repeat split. constructor.
  - destruct (analyze_seat_step side_type st s) as (p & Hstep & Hc).
    cbn [for_each]. rewrite Hstep. cbn [Py.bind Py.ret].
    match goal with
    | |- context [for_each _ seats ?st1] =>
        destruct (IH st1) as (st' & ps & -> & Hp & Hf & Ha & Hn & Hd)
    end.
    cbn [processed_players amounts famous_count contributions] in Hp, Ha, Hn, Hd.
    exists st', (p :: ps). split; [reflexivity |].
    split; [rewrite Hp; now rewrite <- app_assoc |].
    split; [now constructor |].
    split; [rewrite Ha; cbn [map]; now rewrite <- app_assoc |].
    split.
    + rewrite Hn. cbn [filter].
      destruct (String.eqb (Spec.seat_type s) "知名游资"); cbn [List.length]; lia.
    + rewrite Hd. reflexivity.
Qed.

(** The facts of one side in terms of its seats. *)
Lemma analyze_side_data_facts (seats : list seat) (side_type : string) :
  exists f,
    analyze_side_data seats side_type = Py.ret f
    /\ Forall2 Spec.carried seats (players f)
    /\ player_count f = List.length seats
    /\ famous_player_count f
       = List.length
           (filter (fun s => String.eqb (Spec.seat_type s) "知名游资") seats)
    /\ total_amount_wan f
       == Py.round1 (Py.sum (map (Spec.side_amount side_type) seats))
    /\ concentration_metrics f
       = Spec.concentration_metrics (map (Spec.side_amount side_type) seats)
    /\ contribution_by_type f
       = map (fun '(ptype, amount) => (ptype ++ "_net_wan", Py.round1 amount))
           (fold_left
              (fun d s => add_contribution (Spec.seat_type s)
                            (Spec.side_amount side_type s) d)
              seats []).
Proof.
  unfold analyze_side_data.
  destruct seats as [| s seats'].
  - eexists. split; [reflexivity |]. cbn. repeat split. constructor.
  - set (seats := s :: seats').
    match goal with
    | |- context [for_each _ seats ?st0] =>
        destruct (for_each_analyze_state side_type seats st0)
          as (st' & ps & -> & Hp & Hf & Ha & Hn & Hd)
    end.
    cbn [processed_players amounts famous_count contributions app Nat.add]
      in Hp, Ha, Hn, Hd.
    cbn [Py.bind Py.ret].
    rewrite concentration_code_eq_spec. cbn [Py.bind Py.ret].
    eexists. split; [reflexivity |].
    cbn [players player_count famous_player_count total_amount_wan
         concentration_metrics contribution_by_type].
    rewrite Hp, Ha, Hn, Hd. repeat split; try reflexivity. exact Hf.
Qed.

Lemma carried_type (s : seat) (p : player_data) :
  Spec.carried s p -> p_type p = Spec.seat_type s.
Proof. intros H. apply H. Qed.

Lemma famous_filter_carried (seats : list seat) (ps : list player_data) :
  Forall2 Spec.carried seats ps ->
  List.length (filter (fun s => String.eqb (Spec.seat_type s) "知名游资") seats)
  = List.length (filter (fun p => String.eqb (p_type p) "知名游资") ps).
Proof.
  induction 1 as [| s p seats ps Hc _ IH]; [reflexivity |].
  cbn [filter]. rewrite (carried_type s p Hc).
  destruct (String.eqb (Spec.seat_type s) "知名游资"); cbn [List.length]; lia.
Qed.

Lemma carried_names (seats : list seat) (ps : list player_data) :
  Forall2 Spec.carried seats ps ->
  map p_seat_name ps = map (fun s => get (seat_name s) EmptyString) seats
  /\ map p_net_amount ps = map (fun s => get (net_amount s) "0万元") seats.
Proof.
  induction 1 as [| s p ss ps Hsp _ [IH1 IH2]]; [split; reflexivity |].
  cbn [map]. split; f_equal; try assumption; apply Hsp.
Qed.

(** X1: in the facts [analyze_side_data] returns for a list of seats, the
    counters agree with the player list: [player_count] is the number of
    seats given and of players returned, [famous_player_count] is the number
    of returned players of category "知名游资" (so never more than
    [player_count]), and the players carry the seats' names and net amounts
    in the order of the seats. *)
Theorem side_counts_agree :
  forall (seats : list seat) (side_type : string) (f : side_facts),
    analyze_side_data seats side_type = Py.ret f ->
    player_count f = List.length seats
    /\ List.length (players f) = List.length seats
    /\ famous_player_count f
       = List.length
           (filter (fun p => String.eqb (p_type p) "知名游资") (players f))
    /\ (famous_player_count f <= player_count f)%nat
    /\ map p_seat_name (players f)
       = map (fun s => get (seat_name s) EmptyString) seats
    /\ map p_net_amount (players f)
       = map (fun s => get (net_amount s) "0万元") seats.
Proof.
  intros seats side_type f Hret.
  destruct (analyze_side_data_facts seats side_type)
    as (f' & Hf & Hc & Hn & Hfam & _).
  rewrite Hf in Hret. injection Hret as <-.
  split; [exact Hn |].
  split; [symmetry; eapply Forall2_same_length; exact Hc |].
  split; [rewrite Hfam; now apply famous_filter_carried |].
  split; [rewrite Hfam, Hn; apply filter_length_le |].
  now apply carried_names.
Qed.

Lemma side_counts_agree_witness :
  exists f,
    analyze_side_data
      [Examples.bare_seat "甲证券营业部" "500.00万元";
       Examples.bare_seat "乙证券营业部" "120.00万元"] "buy"
    = Py.ret f
    /\ player_count f = 2%nat
    /\ List.length (players f) = 2%nat
    /\ famous_player_count f
       = List.length
           (filter (fun p => String.eqb (p_type p) "知名游资") (players f))
    /\ (famous_player_count f <= player_count f)%nat
    /\ map p_seat_name (players f) = ["甲证券营业部"; "乙证券营业部"]
    /\ map p_net_amount (players f) = ["500.00万元"; "120.00万元"].
Proof.
  eexists. split; [vm_compute; reflexivity |].
  apply (side_counts_agree
           [Examples.bare_seat "甲证券营业部" "500.00万元";
            Examples.bare_seat "乙证券营业部" "120.00万元"] "buy").
  vm_compute. reflexivity.
Defined.











End SideAnalysis.

(** ** Bounds of the metrics *)

Section MetricBounds.

Import FundingBattleBuilder.

(** X3: with non-negative side totals the net advantage is a share of the
    combined total: between 0 and 100 percent, and 100 percent exactly when
    one side is empty-handed and the other is not. *)
Theorem battle_pct_bounds :
  forall (long_side short_side : side_facts)
         (basic_info : list (string * string)),
    0 <= total_amount_wan long_side ->
    0 <= total_amount_wan short_side ->
    exists b,
      calculate_battle_metrics long_side short_side basic_info = Py.ret b
      /\ 0 <= net_advantage_pct b /\ net_advantage_pct b <= 100
      /\ (0 < total_amount_wan long_side + total_amount_wan short_side ->
          total_amount_wan long_side == 0 \/ total_amount_wan short_side == 0 ->
          net_advantage_pct b == 100).
Proof.
  intros long_side short_side basic_info Hl Hs.
  destruct (calculate_battle_metrics_returns long_side short_side basic_info)
    as (t & Hb).
  eexists. split; [exact Hb |].
  cbv zeta. cbn [net_advantage_pct].
  set (l := total_amount_wan long_side) in *.
  set (s := total_amount_wan short_side) in *.
  destruct (Qlt_le_dec 0 (l + s)) as [Hpos | Hnpos].
  - assert (Habs0 : 0 <= Qabs (l - s)) by apply Qabs_nonneg.
    assert (Habs1 : Qabs (l - s) <= l + s)
      by (apply Qabs_case; intros _; lra).
    assert (E0 : 0 / (l + s) * 100 == 0) by (field; lra).
    assert (E1 : (l + s) / (l + s) * 100 == 100) by (field; lra).
    split; [| split].
    + apply (Qle_trans _ (Py.round1 0)); [rewrite round1_0; apply Qle_refl |].
      apply round1_mono.
      apply (Qle_trans _ (0 / (l + s) * 100));
        [rewrite E0; apply Qle_refl | now apply scale_pct_mono].
    + apply (Qle_trans _ (Py.round1 100));
        [| rewrite round1_100; apply Qle_refl].
      apply round1_mono.
      apply (Qle_trans _ ((l + s) / (l + s) * 100));
        [now apply scale_pct_mono | rewrite E1; apply Qle_refl].
    + intros _ Hz.
      assert (E : Qabs (l - s) / (l + s) * 100 == 100).
      { assert (Ea : Qabs (l - s) == l + s)
          by (destruct Hz; apply Qabs_case; intros ?; lra).
        rewrite Ea. exact E1. }
      rewrite (round1_Qeq _ _ E). apply round1_100.
  - split; [| split].
    + rewrite round1_0. apply Qle_refl.
    + rewrite round1_0. discriminate.
    + intros H. lra.
Qed.

Lemma battle_pct_bounds_witness :
  0 <= total_amount_wan (Examples.side_of_total 800)
  /\ 0 <= total_amount_wan (Examples.side_of_total 0)
  /\ exists b,
       calculate_battle_metrics (Examples.side_of_total 800)
         (Examples.side_of_total 0) []
       = Py.ret b
       /\ 0 <= net_advantage_pct b /\ net_advantage_pct b <= 100
       /\ (0 < total_amount_wan (Examples.side_of_total 800)
               + total_amount_wan (Examples.side_of_total 0) ->
           total_amount_wan (Examples.side_of_total 800) == 0
           \/ total_amount_wan (Examples.side_of_total 0) == 0 ->
           net_advantage_pct b == 100).
Proof.
  assert (H8 : 0 <= total_amount_wan (Examples.side_of_total 800))
    by (unfold Qle; simpl; discriminate).
  assert (H0 : 0 <= total_amount_wan (Examples.side_of_total 0))
    by (unfold Qle; simpl; discriminate).
  split; [exact H8 |]. split; [exact H0 |].
  exact (battle_pct_bounds (Examples.side_of_total 800)
           (Examples.side_of_total 0) [] H8 H0).
Defined.

(** X4: for at most five amounts, none negative, with a positive total,
    top5_pct is exactly 100.0; with at most two amounts so is top2_pct, and
    with a single amount so is top1_pct. *)
Theorem concentration_few_seats :
  forall amounts : list Q,
    Forall (Qle 0) amounts ->
    0 < Py.sum amounts ->
    (List.length amounts <= 5)%nat ->
    exists m,
      calculate_concentration_metrics amounts = Py.ret m
      /\ top5_pct m == 100
      /\ ((List.length amounts <= 2)%nat -> top2_pct m == 100)
      /\ (List.length amounts = 1%nat -> top1_pct m == 100).
Proof.
  intros amounts _ Hpos Hn.
  assert (Hz : ~ Py.sum amounts == 0) by lra.
  exists (Spec.concentration_metrics amounts).
  split; [apply concentration_code_eq_spec |].
  unfold Spec.concentration_metrics.
  destruct amounts as [| a amounts']; [exfalso; apply Hz; reflexivity |].
  set (amounts := a :: amounts') in *.
  change (List.length amounts =? 0)%nat with false. simpl orb.
  destruct (Qeq_bool (Py.sum amounts) 0) eqn:Hb;
    [apply Qeq_bool_iff in Hb; contradiction |].
  set (s := Py.sorted_reverse amounts).
  assert (Hlen : List.length s = List.length amounts)
    by apply sorted_reverse_length.
  assert (Hall : Py.sum s == Py.sum amounts)
    by apply sum_perm, sorted_reverse_perm.
  assert (Hfull : forall k, (List.length amounts <= k)%nat ->
            Py.round1 (Py.sum (firstn (Nat.min k (List.length amounts)) s)
                       / Py.sum amounts * 100) == 100).
  { intros k Hk. rewrite Nat.min_r by exact Hk.
    rewrite <- Hlen, firstn_all.
    assert (E : Py.sum s / Py.sum amounts * 100 == 100)
      by (rewrite Hall; field; exact Hz).
    rewrite (round1_Qeq _ _ E). apply round1_100. }
  cbv zeta. cbn [top1_pct top2_pct top5_pct].
  split; [now apply Hfull |]. split; [now apply Hfull |].
  intros H1. subst s amounts.
  destruct amounts' as [| ? ?]; [| discriminate H1].
  change (nth 0 (Py.sorted_reverse [a]) 0) with a.
  assert (E : a / Py.sum [a] * 100 == 100).
  { assert (Ea : Py.sum [a] == a) by (rewrite sum_cons, sum_nil; lra).
    rewrite Ea in Hz |- *. field. exact Hz. }
  rewrite (round1_Qeq _ _ E). apply round1_100.
Qed.

Lemma concentration_few_seats_witness :
  Forall (Qle 0) [10; 5]
  /\ 0 < Py.sum [10; 5]
  /\ (List.length [10; 5]%Q <= 5)%nat
  /\ exists m,
       calculate_concentration_metrics [10; 5] = Py.ret m
       /\ top5_pct m == 100
       /\ ((List.length [10; 5]%Q <= 2)%nat -> top2_pct m == 100)
       /\ (List.length [10; 5]%Q = 1%nat -> top1_pct m == 100).
Proof.
  assert (Hnn : Forall (Qle 0) [10; 5])
    by (repeat constructor; discriminate).
  assert (Hpos : 0 < Py.sum [10; 5]) by reflexivity.
  assert (Hn : (List.length [10; 5]%Q <= 5)%nat) by (simpl; lia).
  split; [exact Hnn |]. split; [exact Hpos |]. split; [exact Hn |].
  exact (concentration_few_seats [10; 5] Hnn Hpos Hn).
Defined.

End MetricBounds.

(** ** What the formatters write and the parsers read *)

Section FormatParse.

Import FundingBattleBuilder.

Lemma round_half_even_of_Z (z : Z) : Py.round_half_even (inject_Z z) = z.
Proof.
  unfold Py.round_half_even. rewrite Qfloor_Z.
  destruct (Qcompare_spec (inject_Z z - inject_Z z) (1 # 2)) as [E | L | G];
    try reflexivity; exfalso; lra.
Qed.

Lemma round2_error (q : Q) : Qabs (Py.round2 q - q) <= 1 # 200.
Proof.
  unfold Py.round2.
  destruct (round_half_even_bounds (q * 100)) as [Hlo Hhi].
  set (r := inject_Z (Py.round_half_even (q * 100))) in *.
  assert (E : r / 100 == r * (1 # 100)) by field.
  rewrite E. apply Qabs_Qle_condition. split; lra.
Qed.

(** The text of a number written with two decimals. *)
Lemma format_2f_shape (comma : bool) (q : Q) :
  exists d ff,
    Py.format_2f comma q
    = (if (if Qlt_le_dec q 0 then true else false) then "-" else EmptyString)
        ++ (if comma then Py.group3 d else d) ++ "." ++ ff
    /\ Py.all_chars Py.is_digit d = true
    /\ Py.is_empty d = false
    /\ Py.all_chars Py.is_digit ff = true
    /\ String.length ff = 2%nat
    /\ inject_Z (Z.of_N (Py.digits_value d))
       + inject_Z (Z.of_N (Py.digits_value ff)) / 100
       == inject_Z (Py.round_half_even (Qabs q * 100)) / 100.
Proof.
  unfold Py.format_2f.
  set (r := Py.round_half_even (Qabs q * 100)).
  assert (Hr : (0 <= r)%Z).
  { apply round_half_even_nonneg.
    apply Qmult_le_0_compat; [apply Qabs_nonneg | discriminate]. }
  set (n := Z.to_N r).
  assert (Hfp : (n mod 100 < 100)%N) by (apply N.mod_lt; discriminate).
  pose proof (two_digits_below_100 _ Hfp) as Hok.
  unfold Spec.two_digits_ok in Hok.
  apply andb_true_iff in Hok as [Hok Hval].
  apply andb_true_iff in Hok as [Hlen Hdig].
  apply Nat.eqb_eq in Hlen. apply N.eqb_eq in Hval.
  exists (Py.digits_of (n / 100)), (Py.two_digits (n mod 100)).
  split; [now destruct (Qlt_le_dec q 0) |].
  split; [apply digits_of_digits |].
  split; [apply digits_of_nonempty |].
  split; [exact Hdig |]. split; [exact Hlen |].
  rewrite digits_value_digits_of, Hval.
  assert (Hz : r = (100 * Z.of_N (n / 100) + Z.of_N (n mod 100))%Z).
  { rewrite <- (Z2N.id r Hr) at 1. fold n.
    rewrite (N.div_mod n 100) at 1 by discriminate.
    rewrite N2Z.inj_add, N2Z.inj_mul. reflexivity. }
  apply (f_equal inject_Z) in Hz.
  rewrite Hz, inject_Z_plus, inject_Z_mult. field.
Qed.

Lemma shown_2f_sign (q : Q) :
  (0 <= q -> 0 <= Spec.shown_2f q) /\ (q <= 0 -> Spec.shown_2f q <= 0).
Proof.
  unfold Spec.shown_2f.
  assert (Hr : 0 <= inject_Z (Py.round_half_even (Qabs q * 100)) / 100).
  { assert (Hz : (0 <= Py.round_half_even (Qabs q * 100))%Z).
    { apply round_half_even_nonneg.
      apply Qmult_le_0_compat; [apply Qabs_nonneg | discriminate]. }
    rewrite Zle_Qle in Hz. change (inject_Z 0) with 0 in Hz.
    set (r := inject_Z (Py.round_half_even (Qabs q * 100))) in *.
    assert (E : r / 100 == r * (1 # 100)) by field.
    rewrite E. lra. }
  destruct (Qlt_le_dec q 0) as [Hneg | Hpos]; split; intros H; try lra.
  assert (E : q == 0) by lra.
  assert (Ez : Py.round_half_even (Qabs q * 100) = 0%Z).
  { rewrite (round_half_even_Qeq _ (inject_Z 0)).
    - apply round_half_even_of_Z.
    - rewrite E. reflexivity. }
  rewrite Ez. discriminate.
Qed.

Lemma shown_2f_of_round2 (p : Q) : Spec.shown_2f (Py.round2 p) == Py.round2 p.
Proof.
  unfold Spec.shown_2f, Py.round2.
  set (n := Py.round_half_even (p * 100)).
  assert (E100 : forall z : Z, inject_Z z / 100 * 100 == inject_Z z)
    by (intros z; field).
  destruct (Qlt_le_dec (inject_Z n / 100) 0) as [Hneg | Hpos].
  - assert (Hn : inject_Z n < 0).
    { rewrite <- (E100 n). lra. }
    rewrite (round_half_even_Qeq _ (inject_Z (- n))).
    + rewrite round_half_even_of_Z, inject_Z_opp. field.
    + rewrite Qabs_neg by lra. rewrite inject_Z_opp. field.
  - rewrite (round_half_even_Qeq _ (inject_Z n)).
    + now rewrite round_half_even_of_Z.
    + rewrite Qabs_pos by lra. apply E100.
Qed.

Lemma plain_not_percent (c : ascii) :
  Spec.plain_or_comma c = true -> Ascii.eqb c "%" = false.
Proof.
  destruct c as [[] [] [] [] [] [] [] []]; intros H;
    try discriminate H; reflexivity.
Qed.

Lemma decimal_text_plain (neg : bool) (d ff : string) :
  Py.all_chars Py.is_digit d = true ->
  Py.all_chars Py.is_digit ff = true ->
  Py.all_chars Spec.plain_or_comma
    ((if neg then "-" else EmptyString) ++ d ++ "." ++ ff) = true.
Proof.
  intros Hd Hff.
  assert (Hdp : forall s, Py.all_chars Py.is_digit s = true ->
                          Py.all_chars Spec.plain_or_comma s = true).
  { intros s. apply all_chars_impl. intros c Hc.
    now apply plain_char_facts, digit_is_plain. }
  rewrite !all_chars_app, (Hdp d Hd), (Hdp ff Hff). now destruct neg.
Qed.

Lemma decimal_text_head (neg : bool) (d t : string) :
  Py.all_chars Py.is_digit d = true ->
  Py.is_empty d = false ->
  exists c rest,
    (if neg then "-" else EmptyString) ++ d ++ t = String c rest
    /\ Py.is_space c = false.
Proof.
  intros Hd Hne. destruct neg.
  - eexists _, _. split; reflexivity.
  - destruct d as [| c d']; [discriminate |].
    simpl in Hd. apply andb_true_iff in Hd as [Hc _].
    exists c, (d' ++ t). split; [reflexivity |].
    now destruct (plain_or_comma_facts c
                    (proj1 (plain_char_facts c (digit_is_plain c Hc)))).
Qed.

(** [parse_percentage] on a number written with two decimals and "%". *)
Lemma parse_percentage_decimal_text (neg : bool) (d ff : string) :
  Py.all_chars Py.is_digit d = true ->
  Py.is_empty d = false ->
  Py.all_chars Py.is_digit ff = true ->
  parse_percentage
    (((if neg then "-" else EmptyString) ++ d ++ "." ++ ff) ++ "%")
  = Py.ret
      (let v := (inject_Z (Z.of_N (Py.digits_value d))
                 + inject_Z (Z.of_N (Py.digits_value ff))
                   / Py.pow10 (String.length ff)) * Qpower 10 0 in
       if neg then - v else v).
Proof.
  intros Hd Hne Hff.
  pose proof (decimal_text_plain neg d ff Hd Hff) as Hplain.
  pose proof (float_decimal_text neg d ff Hd Hne Hff) as Hfloat.
  destruct (decimal_text_head neg d ("." ++ ff) Hd Hne)
    as (c & rest & Hhead & Hc).
  set (a := (if neg then "-" else EmptyString) ++ d ++ "." ++ ff) in *.
  unfold parse_percentage.
  assert (Hblank : Py.is_empty (a ++ "%") || Py.is_empty (Py.strip (a ++ "%"))
                   = false).
  { rewrite Hhead. cbn [String.append Py.is_empty orb].
    now apply strip_nonempty. }
  rewrite Hblank. cbn [Py.remove].
  rewrite remove_keep.
  - change (Py.remove_from 0 "%" "%") with EmptyString.
    rewrite append_nil_r, strip_id, Hfloat; [reflexivity |].
    revert Hplain. apply all_chars_impl. intros x Hx.
    now destruct (plain_or_comma_facts x Hx) as [-> _].
  - revert Hplain. apply all_chars_impl. intros x Hx.
    now rewrite (plain_not_percent x Hx).
Qed.

(** X5: a percentage written by [_format_percentage] is read back by
    [parse_percentage] as the value rounded to two decimals, which is within
    0.005 of the value; a missing value is written "0.00%" and read as 0. *)
Theorem percentage_round_trip :
  (forall p : Qc,
      exists w,
        parse_percentage (DataProcessor._format_percentage (DataProcessor.Num p))
        = Py.ret w
        /\ w == Py.round2 p
        /\ Qabs (w - p) <= 1 # 200)
  /\ exists w,
       parse_percentage (DataProcessor._format_percentage DataProcessor.NaN)
       = Py.ret w
       /\ w == 0.
Proof.
  split; [| eexists; split; [vm_compute; reflexivity | reflexivity]].
  intros p. unfold DataProcessor._format_percentage.
  destruct (format_2f_shape false (Py.round2 p))
    as (d & ff & Hfmt & Hd & Hne & Hff & Hlen & Hval).
  rewrite Hfmt.
  rewrite (parse_percentage_decimal_text _ d ff Hd Hne Hff).
  eexists. split; [reflexivity |].
  assert (Hw : (let v := (inject_Z (Z.of_N (Py.digits_value d))
                          + inject_Z (Z.of_N (Py.digits_value ff))
                            / Py.pow10 (String.length ff)) * Qpower 10 0 in
                if (if Qlt_le_dec (Py.round2 p) 0 then true else false)
                then - v else v)
               == Py.round2 p).
  { apply (Qeq_trans _ (Spec.shown_2f (Py.round2 p)));
      [| apply shown_2f_of_round2].
    cbv zeta. rewrite Hlen.
    change (Py.pow10 2) with 100. change (Qpower 10 0) with 1.
    unfold Spec.shown_2f.
    destruct (Qlt_le_dec (Py.round2 p) 0); rewrite <- Hval; ring. }
  split; [exact Hw |].
  rewrite Hw. apply round2_error.
Qed.

End FormatParse.

(** ** The metrics of a record made by the processor *)

Section PipelineBounds.

Import FundingBattleBuilder.

Lemma substring_all (s : string) : substring 0 (String.length s) s = s.
Proof. induction s as [| c s IH]; simpl; [reflexivity | now rewrite IH]. Qed.

Lemma substring_tail (c : ascii) (s : string) :
  substring 1 (String.length (String c s) - 1) (String c s) = s.
Proof.
  cbn [String.length]. rewrite Nat.sub_succ, Nat.sub_0_r.
  cbn [substring]. apply substring_all.
Qed.

(** A formatted amount reads back with the sign of the amount. *)
Lemma parse_format_amount_sign (c : DataProcessor.cell) :
  exists w,
    parse_amount_to_wan (DataProcessor._format_amount c) = Py.ret w
    /\ match c with
       | DataProcessor.NaN => w == 0
       | DataProcessor.Num x => (0 <= x -> 0 <= w) /\ (x <= 0 -> w <= 0)
       end.
Proof.
  assert (H0 : exists w, parse_amount_to_wan "0.00万元" = Py.ret w /\ w == 0)
    by (eexists; split; [vm_compute; reflexivity | reflexivity]).
  destruct c as [x |]; cbn [DataProcessor._format_amount]; [| exact H0].
  destruct (Qeq_bool x 0) eqn:Hz.
  { destruct H0 as (w & Hw & E). exists w. split; [exact Hw |].
    split; intros _; lra. }
  destruct (Qlt_le_dec x 10000000) as [Hlt | Hge].
  - destruct (parse_formatted (x / 10000) false) as (w & -> & Hw).
    exists w. split; [reflexivity |].
    destruct (shown_2f_sign (x / 10000)) as [Hp Hn].
    assert (E : x / 10000 == x * (1 # 10000)) by field.
    split; intros H; rewrite Hw; [apply Hp | apply Hn]; rewrite E; lra.
  - destruct (parse_formatted (x / 100000000) true) as (w & -> & Hw).
    exists w. split; [reflexivity |].
    destruct (shown_2f_sign (x / 100000000)) as [Hp Hn].
    assert (E : x / 100000000 == x * (1 # 100000000)) by field.
    split; intros H; [| lra].
    rewrite Hw.
    assert (H1 : 0 <= Spec.shown_2f (x / 100000000))
      by (apply Hp; rewrite E; lra).
    lra.
Qed.

Lemma buy_amount_nonneg (c : DataProcessor.cell) (s : seat) :
  Spec.positive_net c ->
  net_amount s = Some (DataProcessor._format_amount c) ->
  0 <= Spec.side_amount "buy" s.
Proof.
  intros Hpos Hs. unfold Spec.side_amount, Spec.side_amount_str.
  rewrite Hs. cbn [get String.eqb Ascii.eqb Bool.eqb].
  destruct (parse_format_amount_sign c) as (w & -> & Hw).
  destruct c as [x |]; [| destruct Hpos].
  apply Hw. cbn in Hpos. apply Qlt_le_weak. exact Hpos.
Qed.

Lemma sell_amount_nonneg (c : DataProcessor.cell) (s : seat) :
  ~ Spec.positive_net c ->
  net_amount s = Some (DataProcessor._format_amount c) ->
  0 <= Spec.side_amount "sell" s.
Proof.
  intros Hnpos Hs. unfold Spec.side_amount, Spec.side_amount_str.
  rewrite Hs. cbn [get String.eqb Ascii.eqb Bool.eqb].
  assert (H0 : 0 <= match parse_amount_to_wan
                            (if Py.startswith "0.00万元" "-"
                             then substring 1 (String.length "0.00万元" - 1)
                                    "0.00万元"
                             else "0.00万元")
                    with inr q => q | inl _ => 0 end)
    by (vm_compute; discriminate).
  destruct c as [x |]; cbn [DataProcessor._format_amount]; [| exact H0].
  destruct (Qeq_bool x 0) eqn:Hz; [exact H0 |].
  assert (Hx : x < 0).
  { cbn in Hnpos. apply Qcnot_lt_le in Hnpos.
    assert (Hxq : x <= 0) by exact Hnpos.
    destruct (Qeq_dec x 0) as [E | N].
    - apply Qeq_bool_iff in E. congruence.
    - apply Qle_lteq in Hxq as [H | H]; [exact H | contradiction]. }
  destruct (Qlt_le_dec x 10000000) as [_ | Hge]; [| lra].
  assert (Hq : x / 10000 < 0).
  { assert (E : x / 10000 == x * (1 # 10000)) by field. rewrite E. lra. }
  destruct (format_2f_shape true (x / 10000))
    as (d & ff & Hfmt & Hd & Hne & Hff & Hlen & Hval).
  destruct (Qlt_le_dec (x / 10000) 0) as [_ | Hc]; [| lra].
  rewrite Hfmt.
  change (("-" ++ Py.group3 d ++ "." ++ ff) ++ "万元")
    with (String "-" ((Py.group3 d ++ "." ++ ff) ++ "万元")).
  cbn [Py.startswith prefix].
  destruct (ascii_dec "-" "-") as [_ | N]; [| congruence].
  assert (Hpre : forall t, prefix EmptyString t = true)
    by (intros [| ? ?]; reflexivity).
  rewrite Hpre, substring_tail.
  eassert (Hp : parse_amount_to_wan ((Py.group3 d ++ "." ++ ff) ++ "万元") = _)
    by exact (parse_amount_decimal_text false false d ff Hd Hne Hff).
  rewrite Hp. unfold Py.ret. cbv zeta. cbv iota.
  rewrite Hlen. change (Py.pow10 2) with 100. change (Qpower 10 0) with 1.
  rewrite Hval.
  assert (Hz' : (0 <= Py.round_half_even (Qabs (x / 10000) * 100))%Z).
  { apply round_half_even_nonneg.
    apply Qmult_le_0_compat; [apply Qabs_nonneg | discriminate]. }
  rewrite Zle_Qle in Hz'. change (inject_Z 0) with 0 in Hz'.
  set (r := inject_Z (Py.round_half_even (Qabs (x / 10000) * 100))) in *.
  assert (E : r / 100 * 1 == r * (1 # 100)) by field.
  rewrite E. lra.
Qed.

Lemma processor_amounts_nonneg
    (player_profiles : list (string * DataProcessor.profile_data))
    (hm_list_df : list DataProcessor.HmList.row)
    (rows : list DataProcessor.TopData.row) (side_type : string)
    (P : DataProcessor.cell -> Prop) :
  (forall c s, P c ->
     net_amount s = Some (DataProcessor._format_amount c) ->
     0 <= Spec.side_amount side_type s) ->
  Forall (fun r => P (DataProcessor.TopData.net_buy r)) rows ->
  Forall (Qle 0)
    (map (Spec.side_amount side_type)
       (map Pipeline.json_of_seat
          (map (DataProcessor.make_seat_info player_profiles hm_list_df) rows))).
Proof.
  intros HP. induction 1 as [| r rows Hr _ IH]; cbn [map]; constructor.
  - eapply HP; [exact Hr | reflexivity].
  - exact IH.
Qed.

Lemma concentration_bounds_or_empty (amounts : list Q) :
  Forall (Qle 0) amounts ->
  let m := Spec.concentration_metrics amounts in
  0 <= top1_pct m /\ top1_pct m <= top2_pct m
  /\ top2_pct m <= top5_pct m /\ top5_pct m <= 100.
Proof.
  intros H. destruct amounts as [| a l].
  - cbn. repeat split; discriminate.
  - apply spec_concentration_bounds; [discriminate | exact H].
Qed.

(** X6: for a record made by [_process_seat_data] the built facts are
    well-formed on both sides: the totals are not negative, the
    concentration percentages satisfy 0 <= top1 <= top2 <= top5 <= 100, and
    the net advantage is between 0 and 100 percent. *)
Theorem pipeline_metrics_in_range :
  forall (player_profiles : list (string * DataProcessor.profile_data))
         (ts_code name : string) (basic_info : list (string * string))
         (top_data_df : list DataProcessor.TopData.row)
         (hm_list_df : list DataProcessor.HmList.row),
    exists f,
      build_structured_facts
        (Pipeline.raw_record player_profiles ts_code name basic_info
           top_data_df hm_list_df)
      = Py.ret (Some f)
      /\ 0 <= total_amount_wan (long_side_facts f)
      /\ 0 <= total_amount_wan (short_side_facts f)
      /\ (let m := concentration_metrics (long_side_facts f) in
          0 <= top1_pct m /\ top1_pct m <= top2_pct m
          /\ top2_pct m <= top5_pct m /\ top5_pct m <= 100)
      /\ (let m := concentration_metrics (short_side_facts f) in
          0 <= top1_pct m /\ top1_pct m <= top2_pct m
          /\ top2_pct m <= top5_pct m /\ top5_pct m <= 100)
      /\ 0 <= net_advantage_pct (battle_facts f)
      /\ net_advantage_pct (battle_facts f) <= 100.
Proof.
  intros pp ts name bi df hm.
  destruct (process_seat_data_rows pp ts df hm)
    as (b & s & Hb & Hs & _ & Hpos & Hneg & _ & _).
  unfold Pipeline.raw_record.
  match goal with
  | |- context [Some [?st]] =>
      destruct (build_structured_facts_first_stock st [])
        as (f & Hf & _ & _ & _ & Hl & Hsh & Hbat)
  end.
  cbn [stock_seat_data get Pipeline.json_of_seat_data buy_seats sell_seats
       FundingBattleBuilder.basic_info] in Hl, Hsh, Hbat.
  rewrite Hb in Hl. rewrite Hs in Hsh.
  destruct (analyze_side_data_facts
              (map Pipeline.json_of_seat
                 (map (DataProcessor.make_seat_info pp hm) b)) "buy")
    as (lf & Hl' & _ & _ & _ & Hlt & Hlc & _).
  destruct (analyze_side_data_facts
              (map Pipeline.json_of_seat
                 (map (DataProcessor.make_seat_info pp hm) s)) "sell")
    as (sf & Hs' & _ & _ & _ & Hst & Hsc & _).
  rewrite Hl in Hl'. rewrite Hsh in Hs'.
  injection Hl' as <-. injection Hs' as <-.
  pose proof (processor_amounts_nonneg pp hm b "buy" Spec.positive_net
                buy_amount_nonneg Hpos) as Hba.
  pose proof (processor_amounts_nonneg pp hm s "sell"
                (fun c => ~ Spec.positive_net c) sell_amount_nonneg Hneg) as Hsa.
  assert (Hround : forall l, Forall (Qle 0) l -> 0 <= Py.round1 (Py.sum l)).
  { intros l Hl0.
    apply (Qle_trans _ (Py.round1 0)); [rewrite round1_0; apply Qle_refl |].
    apply round1_mono. now apply sum_nonneg. }
  assert (Hlt0 : 0 <= total_amount_wan (long_side_facts f))
    by (rewrite Hlt; now apply Hround).
  assert (Hst0 : 0 <= total_amount_wan (short_side_facts f))
    by (rewrite Hst; now apply Hround).
  exists f. split; [exact Hf |].
  split; [exact Hlt0 |]. split; [exact Hst0 |].
  split; [rewrite Hlc; now apply concentration_bounds_or_empty |].
  split; [rewrite Hsc; now apply concentration_bounds_or_empty |].
  destruct (battle_pct_bounds (long_side_facts f) (short_side_facts f) bi
              Hlt0 Hst0) as (bt & Hbt & H0 & H100 & _).
  rewrite Hbat in Hbt. injection Hbt as <-. split; assumption.
Qed.

End PipelineBounds.

(** ** What the seat data depends on *)

Section SeatDataInputs.

Import DataProcessor.

(** [_process_seat_data] without its loop. *)
Lemma process_seat_data_unfold
    (player_profiles : list (string * profile_data)) (ts_code : string)
    (top_data_df : list TopData.row) (hm_list_df : list HmList.row) :
  let rows :=
    sort_values_net_buy_desc
      (drop_duplicates
         (filter (fun r => String.eqb (TopData.ts_code r) ts_code)
                 top_data_df)) in
  _process_seat_data player_profiles ts_code top_data_df hm_list_df
  = {| buy_seats :=
         map (make_seat_info player_profiles hm_list_df)
             (filter (fun r => gt0 (TopData.net_buy r)) rows);
       sell_seats :=
         map (make_seat_info player_profiles hm_list_df)
             (filter (fun r => negb (gt0 (TopData.net_buy r))) rows);
       buy_total := _format_amount (Num (total_of TopData.buy rows));
       sell_total := _format_amount (Num (total_of TopData.sell rows)) |}.
Proof.
  cbv zeta. unfold _process_seat_data.
  destruct (filter (fun r => String.eqb (TopData.ts_code r) ts_code) top_data_df)
    as [| r0 rest] eqn:E; [reflexivity |].
  now rewrite split_loop.
Qed.

Lemma key_fields (r r' : TopData.row) :
  key_of r = key_of r' ->
  TopData.exalter r = TopData.exalter r'
  /\ TopData.buy r = TopData.buy r'
  /\ TopData.sell r = TopData.sell r'
  /\ TopData.net_buy r = TopData.net_buy r'
  /\ TopData.buy_rate r = TopData.buy_rate r'
  /\ TopData.sell_rate r = TopData.sell_rate r'.
Proof. unfold key_of. intros H. injection H as -> -> -> -> -> ->. repeat split. Qed.

Lemma same_keys_Forall2 (l l' : list TopData.row) :
  map key_of l = map key_of l' ->
  Forall2 (fun r r' => key_of r = key_of r') l l'.
Proof.
  revert l'. induction l as [| r l IH]; intros [| r' l'] H;
    try discriminate H; constructor.
  - cbn [map] in H. congruence.
  - apply IH. cbn [map] in H. congruence.
Qed.

Lemma Forall2_same_keys (l l' : list TopData.row) :
  Forall2 (fun r r' => key_of r = key_of r') l l' ->
  map key_of l = map key_of l'.
Proof. induction 1; cbn [map]; congruence. Qed.

Lemma drop_duplicates_seen_same_keys (l l' : list TopData.row) :
  Forall2 (fun r r' => key_of r = key_of r') l l' ->
  forall seen,
    Forall2 (fun r r' => key_of r = key_of r')
      (drop_duplicates_seen seen l) (drop_duplicates_seen seen l').
Proof.
  induction 1 as [| r r' l l' Hk _ IH]; intros seen;
    cbn [drop_duplicates_seen]; [constructor |].
  rewrite <- Hk.
  destruct (in_dec key_eq_dec (key_of r) seen); [apply IH |].
  constructor; [exact Hk | apply IH].
Qed.

Lemma insert_row_same_keys (r r' : TopData.row) (l l' : list TopData.row) :
  key_of r = key_of r' ->
  Forall2 (fun r r' => key_of r = key_of r') l l' ->
  Forall2 (fun r r' => key_of r = key_of r')
    (insert_row r l) (insert_row r' l').
Proof.
  intros Hk. induction 1 as [| x x' l l' Hx Hl IH]; cbn [insert_row].
  - repeat constructor. exact Hk.
  - destruct (key_fields r r' Hk) as (_ & _ & _ & <- & _).
    destruct (key_fields x x' Hx) as (_ & _ & _ & <- & _).
    destruct (goes_before _ _ && negb (goes_before _ _)).
    + constructor; [exact Hx | exact IH].
    + constructor; [exact Hk |]. constructor; [exact Hx | exact Hl].
Qed.

Lemma sort_values_same_keys (l l' : list TopData.row) :
  Forall2 (fun r r' => key_of r = key_of r') l l' ->
  Forall2 (fun r r' => key_of r = key_of r')
    (sort_values_net_buy_desc l) (sort_values_net_buy_desc l').
Proof.
  induction 1 as [| r r' l l' Hk _ IH]; cbn; [constructor |].
  now apply insert_row_same_keys.
Qed.

Lemma filter_same_keys (f : TopData.row -> bool) (l l' : list TopData.row) :
  (forall r r', key_of r = key_of r' -> f r = f r') ->
  Forall2 (fun r r' => key_of r = key_of r') l l' ->
  Forall2 (fun r r' => key_of r = key_of r') (filter f l) (filter f l').
Proof.
  intros Hf. induction 1 as [| r r' l l' Hk _ IH]; cbn [filter];
    [constructor |].
  rewrite <- (Hf r r' Hk). destruct (f r); [now constructor | exact IH].
Qed.

Lemma map_same_keys {B} (g : TopData.row -> B) (l l' : list TopData.row) :
  (forall r r', key_of r = key_of r' -> g r = g r') ->
  Forall2 (fun r r' => key_of r = key_of r') l l' ->
  map g l = map g l'.
Proof.
  intros Hg. induction 1 as [| r r' l l' Hk _ IH]; cbn [map];
    [reflexivity |].
  now rewrite (Hg r r' Hk), IH.
Qed.

Lemma make_seat_info_key (player_profiles : list (string * profile_data))
    (hm_list_df : list HmList.row) (r r' : TopData.row) :
  key_of r = key_of r' ->
  make_seat_info player_profiles hm_list_df r
  = make_seat_info player_profiles hm_list_df r'.
Proof.
  intros Hk. destruct (key_fields r r' Hk) as (H1 & H2 & H3 & H4 & H5 & H6).
  unfold make_seat_info. now rewrite H1, H2, H3, H4, H5, H6.
Qed.

(** X7: the seat data of a stock depends only on the rows of that stock and,
    in them, only on the columns (seat name, buy, sell, net buy, buy rate,
    sell rate): the upstream side label, the listing reason, the trade date
    and the rows of other stocks have no influence. *)
Theorem seat_data_depends_on_keys :
  forall (player_profiles : list (string * profile_data)) (ts_code : string)
         (df df' : list TopData.row) (hm_list_df : list HmList.row),
    map key_of (filter (fun r => String.eqb (TopData.ts_code r) ts_code) df)
    = map key_of (filter (fun r => String.eqb (TopData.ts_code r) ts_code) df') ->
    _process_seat_data player_profiles ts_code df hm_list_df
    = _process_seat_data player_profiles ts_code df' hm_list_df.
Proof.
  intros pp ts df df' hm H.
  rewrite !process_seat_data_unfold.
  apply same_keys_Forall2 in H.
  pose proof (sort_values_same_keys _ _
                (drop_duplicates_seen_same_keys _ _ H [])) as Hs.
  fold (drop_duplicates
          (filter (fun r => String.eqb (TopData.ts_code r) ts) df)) in Hs.
  fold (drop_duplicates
          (filter (fun r => String.eqb (TopData.ts_code r) ts) df')) in Hs.
  assert (Hnet : forall r r', key_of r = key_of r' ->
                              gt0 (TopData.net_buy r) = gt0 (TopData.net_buy r')).
  { intros r r' Hk. now destruct (key_fields r r' Hk) as (_ & _ & _ & -> & _). }
  f_equal.
  - apply map_same_keys; [apply make_seat_info_key |].
    apply filter_same_keys; [exact Hnet | exact Hs].
  - apply map_same_keys; [apply make_seat_info_key |].
    apply filter_same_keys; [| exact Hs].
    intros r r' Hk. now rewrite (Hnet r r' Hk).
  - unfold total_of. do 3 f_equal. apply map_same_keys; [| exact Hs].
    intros r r' Hk. now destruct (key_fields r r' Hk) as (_ & -> & _).
  - unfold total_of. do 3 f_equal. apply map_same_keys; [| exact Hs].
    intros r r' Hk. now destruct (key_fields r r' Hk) as (_ & _ & -> & _).
Qed.

Lemma seat_data_depends_on_keys_witness :
  map key_of
    (filter (fun r => String.eqb (TopData.ts_code r) "000001.SZ")
       [Examples.seat_a; Examples.seat_b])
  = map key_of
      (filter (fun r => String.eqb (TopData.ts_code r) "000001.SZ")
         [Examples.other_stock_seat; Examples.seat_a_relisted; Examples.seat_b])
  /\ _process_seat_data [] "000001.SZ" [Examples.seat_a; Examples.seat_b]
       Examples.registry
     = _process_seat_data [] "000001.SZ"
         [Examples.other_stock_seat; Examples.seat_a_relisted; Examples.seat_b]
         Examples.registry.
Proof.
  split; [reflexivity |].
  exact (seat_data_depends_on_keys [] "000001.SZ"
           [Examples.seat_a; Examples.seat_b]
           [Examples.other_stock_seat; Examples.seat_a_relisted; Examples.seat_b]
           Examples.registry eq_refl).
Defined.

Lemma drop_duplicates_seen_insert (a b : list TopData.row) (r : TopData.row) :
  forall seen,
    In (key_of r) seen \/ In (key_of r) (map key_of a) ->
    drop_duplicates_seen seen (a ++ r :: b)
    = drop_duplicates_seen seen (a ++ b).
Proof.
  induction a as [| x a IH]; intros seen H; cbn [app drop_duplicates_seen].
  - destruct H as [H | []].
    now destruct (in_dec key_eq_dec (key_of r) seen).
  - destruct (in_dec key_eq_dec (key_of x) seen) as [Hx | Hx].
    + apply IH. destruct H as [H | [E | H]]; auto.
      left. now rewrite <- E.
    + f_equal. apply IH. destruct H as [H | [E | H]].
      * left. now right.
      * left. now left.
      * now right.
Qed.

(** X8: a row that repeats the tuple of an earlier row of the same stock
    (the stock listed under one more reason) changes nothing in the seat
    data, wherever it stands after that row. *)
Theorem repeated_row_changes_nothing :
  forall (player_profiles : list (string * profile_data)) (ts_code : string)
         (before after : list TopData.row) (r r' : TopData.row)
         (hm_list_df : list HmList.row),
    In r before ->
    TopData.ts_code r = ts_code ->
    key_of r' = key_of r ->
    _process_seat_data player_profiles ts_code (before ++ r' :: after)
      hm_list_df
    = _process_seat_data player_profiles ts_code (before ++ after) hm_list_df.
Proof.
  intros pp ts before after r r' hm Hin Hts Hk.
  rewrite !process_seat_data_unfold.
  rewrite !filter_app. cbn [filter].
  destruct (String.eqb (TopData.ts_code r') ts); [| reflexivity].
  unfold drop_duplicates. rewrite drop_duplicates_seen_insert; [reflexivity |].
  right. rewrite Hk. apply in_map, filter_In. split; [exact Hin |].
  now apply String.eqb_eq.
Qed.

Lemma repeated_row_changes_nothing_witness :
  In Examples.citic_1 [Examples.citic_1; Examples.seat_b]
  /\ TopData.ts_code Examples.citic_1 = "000001.SZ"
  /\ key_of Examples.citic_2 = key_of Examples.citic_1
  /\ _process_seat_data [] "000001.SZ"
       ([Examples.citic_1; Examples.seat_b] ++ Examples.citic_2 :: [Examples.seat_c])
       Examples.registry
     = _process_seat_data [] "000001.SZ"
         ([Examples.citic_1; Examples.seat_b] ++ [Examples.seat_c])
         Examples.registry.
Proof.
  assert (Hin : In Examples.citic_1 [Examples.citic_1; Examples.seat_b])
    by (left; reflexivity).
  split; [exact Hin |]. split; [reflexivity |]. split; [reflexivity |].
  exact (repeated_row_changes_nothing [] "000001.SZ"
           [Examples.citic_1; Examples.seat_b] [Examples.seat_c]
           Examples.citic_1 Examples.citic_2 Examples.registry
           Hin eq_refl eq_refl).
Defined.

Lemma drop_duplicates_seen_first (df : list TopData.row) :
  forall seen r,
    In r (drop_duplicates_seen seen df) ->
    exists l1 l2,
      df = (l1 ++ r :: l2)%list
      /\ ~ In (key_of r) (map key_of l1)
      /\ ~ In (key_of r) seen.
Proof.
  induction df as [| x df IH]; intros seen r; cbn [drop_duplicates_seen].
  - intros [].
  - destruct (in_dec key_eq_dec (key_of x) seen) as [Hx | Hx].
    + intros H. destruct (IH seen r H) as (l1 & l2 & -> & H1 & H2).
      exists (x :: l1), l2. split; [reflexivity |]. split; [| exact H2].
      cbn [map In]. intros [E | Hin]; [| contradiction].
      apply H2. now rewrite <- E.
    + intros [<- | H].
      * exists [], df. split; [reflexivity |]. split; [intros [] | exact Hx].
      * destruct (IH _ r H) as (l1 & l2 & -> & H1 & H2).
        exists (x :: l1), l2. split; [reflexivity |]. split.
        -- cbn [map In]. intros [E | Hin]; [| contradiction].
           apply H2. left. exact E.
        -- intros H3. apply H2. now right.
Qed.

(** X9: of the rows that share a tuple, de-duplication keeps the one that
    comes first in the frame, and the kept rows stay in the order of the
    frame. *)
Theorem drop_duplicates_keeps_first :
  (forall (df : list TopData.row) (r : TopData.row),
      In r (drop_duplicates df) ->
      exists l1 l2,
        df = (l1 ++ r :: l2)%list /\ ~ In (key_of r) (map key_of l1))
  /\ (forall (l1 l2 : list TopData.row) (r : TopData.row),
         ~ In (key_of r) (map key_of l1) ->
         exists kept1 kept2,
           drop_duplicates (l1 ++ r :: l2) = (kept1 ++ r :: kept2)%list
           /\ kept1 = drop_duplicates l1
           /\ forall x, In x kept2 -> In x l2).
Proof.
  split.
  - intros df r H.
    destruct (drop_duplicates_seen_first df [] r H) as (l1 & l2 & E & H1 & _).
    now exists l1, l2.
  - intros l1 l2 r Hr. unfold drop_duplicates.
    assert (Hgen : forall seen,
               ~ In (key_of r) seen ->
               exists kept2,
                 drop_duplicates_seen seen (l1 ++ r :: l2)
                 = (drop_duplicates_seen seen l1 ++ r :: kept2)%list
                 /\ forall x, In x kept2 -> In x l2).
    { induction l1 as [| x l1 IH]; intros seen Hseen;
        cbn [app drop_duplicates_seen].
      - destruct (in_dec key_eq_dec (key_of r) seen); [contradiction |].
        eexists. split; [reflexivity |].
        intros y Hy. now apply drop_duplicates_seen_sound in Hy.
      - cbn [map In] in Hr.
        assert (Hr1 : ~ In (key_of r) (map key_of l1)) by tauto.
        assert (Hxr : key_of x <> key_of r) by tauto.
        destruct (in_dec key_eq_dec (key_of x) seen).
        + now apply IH.
        + destruct (IH Hr1 (key_of x :: seen)) as (k2 & E & Hk2).
          * intros [E | H]; [contradiction | contradiction].
          * exists k2. split; [| exact Hk2]. cbn [app]. now rewrite E. }
    destruct (Hgen [] (fun H => H)) as (k2 & E & Hk2).
    exists (drop_duplicates_seen [] l1), k2. repeat split; assumption.
Qed.

End SeatDataInputs.

(** ** The registry scan *)

Section RegistryScan.

Import DataProcessor.

Lemma determine_player_type_values (name description : string) :
  In (_determine_player_type name description) ["量化"; "机构"; "知名游资"].
Proof.
  unfold _determine_player_type.
  destruct (mem name quant_names); [now left |].
  destruct (mem name institution_names); [right; now left |].
  right; right; now left.
Qed.

Lemma determine_player_type_not_default (name description : string) :
  mem (_determine_player_type name description) ["普通席位"; "机构专用"] = false.
Proof.
  destruct (determine_player_type_values name description)
    as [<- | [<- | [<- | []]]]; reflexivity.
Qed.

(** The profile a matching registry row gives. *)
Lemma scan_registry_hit (player_profiles : list (string * profile_data))
    (seat_name : string) (hm_row : HmList.row) (rest : list HmList.row)
    (orgs : list string) (info : player_info) :
  HmList.orgs hm_row = Some orgs ->
  existsb (org_matches seat_name) orgs = true ->
  scan_registry player_profiles seat_name (hm_row :: rest) info
  = {| name := HmList.name hm_row;
       type := _determine_player_type (HmList.name hm_row) (HmList.desc hm_row);
       description := HmList.desc hm_row;
       style := _get_player_style_from_profile player_profiles
                  (HmList.name hm_row) |}.
Proof.
  intros Ho Hm. cbn [scan_registry]. rewrite Ho, Hm. cbn [type].
  now rewrite determine_player_type_not_default.
Qed.

Lemma scan_registry_pass (player_profiles : list (string * profile_data))
    (seat_name : string) (l1 l : list HmList.row) (info : player_info) :
  Spec.registry_hit seat_name l1 = false ->
  mem (type info) ["普通席位"; "机构专用"] = true ->
  scan_registry player_profiles seat_name (l1 ++ l) info
  = scan_registry player_profiles seat_name l info.
Proof.
  intros Hhit Hdef. induction l1 as [| hm_row l1 IH]; [reflexivity |].
  cbn [Spec.registry_hit existsb] in Hhit.
  apply orb_false_iff in Hhit as [Hrow Hrest].
  cbn [app scan_registry].
  destruct (HmList.orgs hm_row) as [orgs |]; [| now apply IH].
  rewrite Hrow, Hdef. cbn [negb]. now apply IH.
Qed.

Lemma scan_registry_skips_unparsed
    (player_profiles : list (string * profile_data)) (seat_name : string)
    (hm_list_df : list HmList.row) :
  forall info,
    scan_registry player_profiles seat_name hm_list_df info
    = scan_registry player_profiles seat_name
        (filter (fun hm_row => match HmList.orgs hm_row with
                               | Some _ => true
                               | None => false
                               end) hm_list_df) info.
Proof.
  induction hm_list_df as [| hm_row rest IH]; intros info; [reflexivity |].
  cbn [filter scan_registry].
  destruct (HmList.orgs hm_row) as [orgs |] eqn:Ho; [| apply IH].
  cbn [scan_registry]. rewrite Ho.
  match goal with
  | |- (if ?c then _ else _) = _ => destruct c
  end; [reflexivity | apply IH].
Qed.

Lemma default_info_type (seat_name : string) :
  mem (if Py.contains "机构专用" seat_name then "机构专用" else "普通席位")
      ["普通席位"; "机构专用"] = true.
Proof. now destruct (Py.contains "机构专用" seat_name). Qed.

Lemma contains_empty (s : string) : Py.contains EmptyString s = true.
Proof. destruct s; reflexivity. Qed.

(** X10: the registry is scanned in order and the first entry with a
    matching alias decides: the seat takes that entry's name and description,
    the category given by its name, and its style profile.  Entries whose
    alias list cannot be parsed are skipped as if they were absent, and an
    entry with an empty alias matches every seat. *)
Theorem first_registry_match_decides :
  (forall (player_profiles : list (string * profile_data))
          (seat_name : string) (before after : list HmList.row)
          (hm_row : HmList.row) (orgs : list string),
      Spec.registry_hit seat_name before = false ->
      HmList.orgs hm_row = Some orgs ->
      existsb (org_matches seat_name) orgs = true ->
      _identify_player player_profiles seat_name (before ++ hm_row :: after)
      = {| name := HmList.name hm_row;
           type := _determine_player_type (HmList.name hm_row)
                     (HmList.desc hm_row);
           description := HmList.desc hm_row;
           style := _get_player_style_from_profile player_profiles
                      (HmList.name hm_row) |})
  /\ (forall (player_profiles : list (string * profile_data))
             (seat_name : string) (hm_list_df : list HmList.row),
         _identify_player player_profiles seat_name hm_list_df
         = _identify_player player_profiles seat_name
             (filter (fun hm_row => match HmList.orgs hm_row with
                                    | Some _ => true
                                    | None => false
                                    end) hm_list_df))
  /\ (forall (seat_name : string) (orgs : list string),
         In EmptyString orgs ->
         existsb (org_matches seat_name) orgs = true).
Proof.
  split; [| split].
  - intros pp seat_name before after hm_row orgs Hb Ho Hm.
    unfold _identify_player.
    rewrite scan_registry_pass;
      [| exact Hb | cbn [type]; apply default_info_type].
    now apply (scan_registry_hit pp seat_name hm_row after orgs).
  - intros pp seat_name hm. unfold _identify_player.
    apply scan_registry_skips_unparsed.
  - intros seat_name orgs Hin. apply existsb_exists.
    exists EmptyString. split; [exact Hin |].
    unfold org_matches. now rewrite contains_empty.
Qed.

(** X11: every seat gets one of five categories: the two defaults
    "普通席位" and "机构专用", or "量化", "机构", "知名游资" from the
    registry. *)
Theorem player_type_closed_set :
  forall (player_profiles : list (string * profile_data))
         (seat_name : string) (hm_list_df : list HmList.row),
    In (type (_identify_player player_profiles seat_name hm_list_df))
       Spec.player_types.
Proof.
  intros pp seat_name hm. unfold _identify_player.
  set (info := {| name := "普通席位";
                  type := if Py.contains "机构专用" seat_name
                          then "机构专用" else "普通席位";
                  description := "暂无相关信息";
                  style := StyleList ["风格未明"] |}).
  assert (Hinfo : In (type info) Spec.player_types).
  { subst info. cbn [type].
    destruct (Py.contains "机构专用" seat_name);
      [right; now left | now left]. }
  clearbody info. revert info Hinfo.
  induction hm as [| hm_row rest IH]; intros info Hinfo; [exact Hinfo |].
  cbn [scan_registry].
  destruct (HmList.orgs hm_row) as [orgs |]; [| now apply IH].
  destruct (existsb (org_matches seat_name) orgs).
  - cbn [type]. rewrite determine_player_type_not_default. cbn [negb type].
    destruct (determine_player_type_values (HmList.name hm_row)
                (HmList.desc hm_row)) as [<- | [<- | [<- | []]]];
      unfold Spec.player_types; cbn [In]; tauto.
  - destruct (negb (mem (type info) ["普通席位"; "机构专用"]));
      [exact Hinfo | now apply IH].
Qed.

(** X12: the style attached to a registry match is the trader's profile
    without its empty fields: the non-empty ones of the four labelled
    fields, in their order.  A trader without a profile, or with a profile
    whose four fields are all empty, gets the single placeholder entry.  So
    the dict is never empty and holds no empty value. *)
Theorem player_style_never_empty :
  forall (player_profiles : list (string * profile_data))
         (player_name : string),
    let placeholder := [("风格画像", "暂无详细信息")] in
    exists d,
      _get_player_style_from_profile player_profiles player_name = StyleDict d
      /\ d <> []
      /\ (forall k v, In (k, v) d -> Py.is_empty v = false)
      /\ (lookup player_name player_profiles = None -> d = placeholder)
      /\ (forall profile_data,
             lookup player_name player_profiles = Some profile_data ->
             let kept :=
               filter (fun kv => negb (Py.is_empty (snd kv)))
                      (Spec.profile_fields profile_data) in
             (kept = [] -> d = placeholder)
             /\ (kept <> [] -> d = kept)
             /\ (forall k v,
                    In (k, v) (Spec.profile_fields profile_data) ->
                    Py.is_empty v = false -> In (k, v) d)).
Proof.
  intros pp player_name placeholder.
  unfold _get_player_style_from_profile.
  destruct (lookup player_name pp) as [pd |].
  - change [("核心交易档案", profile pd); ("标的选择偏好", preference pd);
            ("盘中操盘密码", code pd); ("软实力与市场标签", reputation pd)]
      with (Spec.profile_fields pd).
    set (kept := filter (fun kv => negb (Py.is_empty (snd kv)))
                        (Spec.profile_fields pd)).
    assert (Hall : forall k v, In (k, v) kept -> Py.is_empty v = false).
    { intros k v H. subst kept. apply filter_In in H as [_ H].
      cbn [snd] in H. now apply negb_true_iff in H. }
    assert (Hin : forall k v, In (k, v) (Spec.profile_fields pd) ->
                              Py.is_empty v = false -> In (k, v) kept).
    { intros k v H Hv. subst kept. apply filter_In. split; [exact H |].
      cbn [snd]. now rewrite Hv. }
    destruct kept as [| kv kept'] eqn:Hk.
    + exists placeholder. split; [reflexivity |]. split; [discriminate |].
      split; [intros k v [E | []]; now injection E as <- <- |].
      split; [discriminate |].
      intros pd' E. injection E as <-. fold kept. rewrite Hk. cbv zeta.
      split; [reflexivity |]. split; [congruence |].
      intros k v H Hv. destruct (Hin k v H Hv).
    + exists (kv :: kept'). split; [reflexivity |]. split; [discriminate |].
      split; [exact Hall |]. split; [discriminate |].
      intros pd' E. injection E as <-. fold kept. rewrite Hk. cbv zeta.
      split; [discriminate |]. split; [reflexivity |]. exact Hin.
  - exists placeholder. split; [reflexivity |]. split; [discriminate |].
    split; [intros k v [E | []]; now injection E as <- <- |].
    split; [reflexivity |]. discriminate.
Qed.

End RegistryScan.

(** ** The chart's reading of amounts *)

Section ChartAmounts.

Import FundingBattleBuilder.

Lemma remove_class_units_keep (a t : string) :
  Py.all_chars Spec.plain_or_comma a = true ->
  Py.remove_class_from 0 ["万"; "元"; "亿"] (a ++ t)
  = a ++ Py.remove_class_from 0 ["万"; "元"; "亿"] t.
Proof.
  induction a as [| c a IH]; intros H; [reflexivity |].
  simpl in H. apply andb_true_iff in H as [Hc Ha].
  destruct (plain_or_comma_facts c Hc) as (_ & _ & H229 & H228).
  change (String c a ++ t) with (String c (a ++ t)).
  cbn [Py.remove_class_from find].
  rewrite (prefix_other_head "228"%char c _ (a ++ t) H228).
  rewrite (prefix_other_head "229"%char c _ (a ++ t) H229).
  rewrite (prefix_other_head "228"%char c _ (a ++ t) H228).
  now rewrite IH.
Qed.

(** [format_amount] on a formatted number followed by its unit. *)
Lemma format_amount_decimal_text (neg yi : bool) (d ff : string) :
  Py.all_chars Py.is_digit d = true ->
  Py.is_empty d = false ->
  Py.all_chars Py.is_digit ff = true ->
  let amount :=
    ((if neg then "-" else EmptyString) ++ Py.group3 d ++ "." ++ ff)
      ++ (if yi then "亿元" else "万元") in
  String.eqb amount "0.00万元" = false ->
  SeatVisualization.format_amount amount
  = (let v := (inject_Z (Z.of_N (Py.digits_value d))
               + inject_Z (Z.of_N (Py.digits_value ff))
                 / Py.pow10 (String.length ff)) * Qpower 10 0 in
     let x := if neg then - v else v in
     if yi then x * 10000 else x).
Proof.
  intros Hd Hne Hff. cbv zeta.
  set (sg := if neg then "-" else EmptyString).
  set (unit := if yi then "亿元" else "万元").
  assert (Hdp : forall s, Py.all_chars Py.is_digit s = true ->
                          Py.all_chars Spec.plain_char s = true).
  { intros s. apply all_chars_impl, digit_is_plain. }
  assert (Hpc : forall s, Py.all_chars Spec.plain_char s = true ->
                          Py.all_chars Spec.plain_or_comma s = true).
  { intros s. apply all_chars_impl. intros c Hc.
    now apply plain_char_facts. }
  assert (Hsg : Py.all_chars Spec.plain_char sg = true)
    by (subst sg; now destruct neg).
  assert (Htail : Py.all_chars Spec.plain_char ("." ++ ff) = true).
  { change ("." ++ ff) with (String "." ff). cbn [Py.all_chars].
    now rewrite (Hdp ff Hff). }
  set (a := sg ++ Py.group3 d ++ "." ++ ff).
  set (a' := sg ++ d ++ "." ++ ff).
  assert (Ha : Py.all_chars Spec.plain_or_comma a = true).
  { subst a. rewrite !all_chars_app, (Hpc sg Hsg), (group3_plain d Hd).
    now rewrite (Hpc ff (Hdp ff Hff)). }
  intros Hzero. unfold SeatVisualization.format_amount. rewrite Hzero.
  assert (Hne' : Py.is_empty (a ++ unit) = false).
  { destruct d as [| c d']; [discriminate |].
    destruct (group3_head c d') as [rest Hrest].
    subst a sg. rewrite Hrest. now destruct neg. }
  rewrite Hne'. cbn [orb].
  (* the unit goes, the number stays *)
  assert (H1 : Py.remove_class ["万"; "元"; "亿"] (a ++ unit) = a).
  { unfold Py.remove_class. rewrite (remove_class_units_keep a unit Ha).
    rewrite <- (append_nil_r a) at 2. f_equal. now destruct yi. }
  rewrite H1.
  (* removing the separators *)
  assert (Hcomma : forall s, Py.all_chars Spec.plain_char s = true ->
             Py.all_chars (fun c => negb (Ascii.eqb c ",")) s = true).
  { intros s. apply all_chars_impl. intros c Hc.
    now destruct (plain_char_facts c Hc) as [_ ->]. }
  assert (H3 : Py.remove "," a = a').
  { cbn [Py.remove]. subst a a'.
    set (t := "." ++ ff) in *.
    rewrite (remove_keep "," EmptyString sg _ (Hcomma sg Hsg)).
    rewrite (remove_comma_group3 d _ Hd).
    rewrite <- (append_nil_r t) at 1.
    rewrite (remove_keep "," EmptyString t EmptyString (Hcomma _ Htail)).
    cbn [Py.remove_from]. now rewrite append_nil_r. }
  rewrite H3.
  assert (Hyi : Py.contains "亿" (a ++ unit) = yi).
  { rewrite contains_keep.
    - now destruct yi.
    - revert Ha. apply all_chars_impl. intros c Hc.
      now destruct (plain_or_comma_facts c Hc) as (_ & _ & _ & ->). }
  rewrite Hyi.
  pose proof (float_decimal_text neg d ff Hd Hne Hff) as Hfloat.
  fold sg in Hfloat. fold a' in Hfloat. rewrite Hfloat.
  reflexivity.
Qed.

(** X13: the chart and the fact builder read the same number of 万元 from
    every amount the processor writes. *)
Theorem chart_reads_amounts_like_builder :
  forall amount : DataProcessor.cell,
    exists w,
      parse_amount_to_wan (DataProcessor._format_amount amount) = Py.ret w
      /\ SeatVisualization.format_amount (DataProcessor._format_amount amount)
         == w.
Proof.
  assert (Hzero : exists w,
             parse_amount_to_wan "0.00万元" = Py.ret w
             /\ SeatVisualization.format_amount "0.00万元" == w)
    by (eexists; split; [vm_compute; reflexivity | reflexivity]).
  assert (Hshape : forall (q : Q) (yi : bool),
             exists w,
               parse_amount_to_wan
                 (Py.format_2f true q ++ (if yi then "亿元" else "万元"))
               = Py.ret w
               /\ SeatVisualization.format_amount
                    (Py.format_2f true q ++ (if yi then "亿元" else "万元"))
                  == w).
  { intros q yi.
    destruct (String.eqb (Py.format_2f true q
                            ++ (if yi then "亿元" else "万元")) "0.00万元")
      eqn:E.
    - apply String.eqb_eq in E. rewrite E. exact Hzero.
    - destruct (format_2f_shape true q)
        as (d & ff & Hs & Hd & Hne & Hff & _ & _).
      rewrite Hs in E |- *.
      rewrite (parse_amount_decimal_text _ yi d ff Hd Hne Hff).
      rewrite (format_amount_decimal_text _ yi d ff Hd Hne Hff E).
      eexists. split; [reflexivity | apply Qeq_refl]. }
  intros [a |]; [| exact Hzero].
  unfold DataProcessor._format_amount.
  destruct (Qeq_bool a 0); [exact Hzero |].
  destruct (Qlt_le_dec a 10000000).
  - exact (Hshape (a / 10000) false).
  - exact (Hshape (a / 100000000) true).
Qed.

End ChartAmounts.

(** ** Display dates *)

Section DisplayDates.

Lemma len_app (a b : string) : Py.len (a ++ b) = (Py.len a + Py.len b)%nat.
Proof.
  induction a as [| c a IH]; [reflexivity |].
  change (String c a ++ b) with (String c (a ++ b)). cbn [Py.len].
  destruct (Py.is_continuation c); rewrite IH; reflexivity.
Qed.

Lemma take_drop_chars (s : string) :
  forall k, Py.take_chars k s ++ Py.drop_chars k s = s.
Proof.
  induction s as [| c s IH]; intros k; [reflexivity |].
  cbn [Py.take_chars Py.drop_chars].
  destruct (Py.is_continuation c).
  - change (String c ?x ++ ?y) with (String c (x ++ y)). now rewrite IH.
  - destruct k as [| k]; [reflexivity |].
    change (String c ?x ++ ?y) with (String c (x ++ y)). now rewrite IH.
Qed.

Lemma len_take_chars (s : string) :
  forall k, Py.len (Py.take_chars k s) = Nat.min k (Py.len s).
Proof.
  induction s as [| c s IH]; intros k; [now destruct k |].
  cbn [Py.take_chars Py.len].
  destruct (Py.is_continuation c) eqn:E.
  - cbn [Py.len]. rewrite E. apply IH.
  - destruct k as [| k]; [reflexivity |].
    cbn [Py.len]. rewrite E, IH. reflexivity.
Qed.

Lemma len_drop_chars (s : string) :
  forall k, Py.len (Py.drop_chars k s) = (Py.len s - k)%nat.
Proof.
  induction s as [| c s IH]; intros k; [reflexivity |].
  cbn [Py.drop_chars Py.len].
  destruct (Py.is_continuation c) eqn:E; [apply IH |].
  destruct k as [| k]; [cbn [Py.len]; now rewrite E | apply IH].
Qed.

Lemma drop_drop_chars (s : string) :
  forall a b,
    Py.drop_chars a (Py.drop_chars b s) = Py.drop_chars (a + b) s.
Proof.
  induction s as [| c s IH]; intros a b; [reflexivity |].
  cbn [Py.drop_chars].
  destruct (Py.is_continuation c) eqn:E; [apply IH |].
  destruct b as [| b].
  - rewrite Nat.add_0_r. cbn [Py.drop_chars]. now rewrite E.
  - rewrite Nat.add_succ_r. apply IH.
Qed.

Lemma take_chars_all (s : string) :
  forall k, (Py.len s <= k)%nat -> Py.take_chars k s = s.
Proof.
  induction s as [| c s IH]; intros k H; [reflexivity |].
  cbn [Py.take_chars Py.len] in *.
  destruct (Py.is_continuation c).
  - now rewrite IH.
  - destruct k as [| k]; [lia |]. rewrite IH; [reflexivity | lia].
Qed.

(** The three parts a date of eight characters is cut into. *)
Lemma date_parts (s : string) :
  Py.len s = 8%nat ->
  s = Py.take_chars 4 s ++ Py.slice 4 6 s ++ Py.slice 6 8 s
  /\ Py.len (Py.take_chars 4 s) = 4%nat
  /\ Py.len (Py.slice 4 6 s) = 2%nat
  /\ Py.len (Py.slice 6 8 s) = 2%nat.
Proof.
  intros H. unfold Py.slice. cbn [Nat.sub].
  assert (H6 : Py.take_chars 2 (Py.drop_chars 6 s) = Py.drop_chars 6 s).
  { apply take_chars_all. rewrite len_drop_chars, H. cbn. lia. }
  split.
  - rewrite H6.
    change 6%nat with (2 + 4)%nat. rewrite <- drop_drop_chars.
    now rewrite !take_drop_chars.
  - rewrite !len_take_chars, !len_drop_chars, H. repeat split.
Qed.

Lemma remove_dash_keep (a t : string) :
  Py.all_chars (fun c => negb (Ascii.eqb c "-")) a = true ->
  Py.remove "-" (a ++ t) = a ++ Py.remove "-" t.
Proof. intros H. cbn [Py.remove]. now apply remove_keep. Qed.

Lemma remove_dash_head (t : string) :
  Py.remove "-" ("-" ++ t) = Py.remove "-" t.
Proof.
  change ("-" ++ t) with (String "-" t).
  cbn [Py.remove Py.remove_from prefix String.length Nat.sub].
  destruct (ascii_dec "-" "-") as [_ | N]; [| congruence].
  now destruct t.
Qed.

Lemma remove_dash_none (a : string) :
  Py.all_chars (fun c => negb (Ascii.eqb c "-")) a = true ->
  Py.remove "-" a = a.
Proof.
  intros H. rewrite <- (append_nil_r a) at 1.
  rewrite (remove_dash_keep _ _ H). cbn [Py.remove Py.remove_from].
  apply append_nil_r.
Qed.

(** X14: a date of eight characters is shown as its first four characters,
    the next two and the last two, joined by dashes: ten characters, no
    character lost or changed; any other string is shown unchanged, so
    showing twice is showing once.  The dashes removed, a date that had none
    is back; and the data processor and the pipeline show every date
    alike. *)
Theorem date_display_round_trip :
  forall date_str : string,
    (Py.len date_str = 8%nat ->
     exists y m d,
       DataProcessor._format_date_display date_str = y ++ "-" ++ m ++ "-" ++ d
       /\ date_str = y ++ m ++ d
       /\ Py.len y = 4%nat /\ Py.len m = 2%nat /\ Py.len d = 2%nat
       /\ Py.len (DataProcessor._format_date_display date_str) = 10%nat)
    /\ (Py.len date_str <> 8%nat ->
        DataProcessor._format_date_display date_str = date_str)
    /\ DataProcessor._format_date_display
         (DataProcessor._format_date_display date_str)
       = DataProcessor._format_date_display date_str
    /\ (Py.all_chars (fun c => negb (Ascii.eqb c "-")) date_str = true ->
        Py.remove "-" (DataProcessor._format_date_display date_str) = date_str)
    /\ DragonTigerPipeline._format_date_display date_str
       = DataProcessor._format_date_display date_str.
Proof.
  intros s.
  assert (Hother : forall t, Py.len t <> 8%nat ->
                             DataProcessor._format_date_display t = t).
  { intros t Ht. unfold DataProcessor._format_date_display.
    destruct t as [| c t]; [reflexivity |]. cbn [Py.is_empty].
    apply Nat.eqb_neq in Ht. now rewrite Ht. }
  assert (Height : Py.len s = 8%nat ->
            DataProcessor._format_date_display s
            = Py.take_chars 4 s ++ "-" ++ Py.slice 4 6 s
                ++ "-" ++ Py.slice 6 8 s).
  { intros H. unfold DataProcessor._format_date_display.
    destruct s as [| c t]; [discriminate H |]. cbn [Py.is_empty].
    apply Nat.eqb_eq in H. now rewrite H. }
  assert (Hlen : Py.len s = 8%nat ->
            Py.len (DataProcessor._format_date_display s) = 10%nat).
  { intros H. rewrite (Height H).
    destruct (date_parts s H) as (_ & H4 & H2 & H2').
    rewrite !len_app, H4, H2, H2'. reflexivity. }
  split; [| split; [| split; [| split]]].
  - intros H. destruct (date_parts s H) as (Hs & H4 & H2 & H2').
    exists (Py.take_chars 4 s), (Py.slice 4 6 s), (Py.slice 6 8 s).
    split; [exact (Height H) |]. split; [exact Hs |].
    repeat split; try assumption. exact (Hlen H).
  - apply Hother.
  - destruct (Nat.eq_dec (Py.len s) 8) as [H | H].
    + apply Hother. rewrite (Hlen H). discriminate.
    + rewrite (Hother s H). exact (Hother s H).
  - intros Hd.
    destruct (Nat.eq_dec (Py.len s) 8) as [H | H].
    + rewrite (Height H).
      destruct (date_parts s H) as (Hs & _).
      rewrite Hs in Hd. rewrite !all_chars_app in Hd.
      apply andb_true_iff in Hd as [Hy Hd].
      apply andb_true_iff in Hd as [Hm Hd].
      rewrite (remove_dash_keep _ _ Hy), remove_dash_head.
      rewrite (remove_dash_keep _ _ Hm), remove_dash_head.
      rewrite (remove_dash_none _ Hd). now rewrite <- Hs.
    + rewrite (Hother s H). now apply remove_dash_none.
  - unfold DragonTigerPipeline._format_date_display,
           DataProcessor._format_date_display.
    destruct s as [| c t]; reflexivity.
Qed.

End DisplayDates.

(** ** Counting verdicts *)

Section Counting.

Lemma dict_get_set {V} (x k : string) (v default : V)
    (d : list (string * V)) :
  Py.dict_get x (Py.dict_set k v d) default
  = if String.eqb x k then v else Py.dict_get x d default.
Proof.
  induction d as [| [k' a] d IH]; cbn [Py.dict_set Py.dict_get].
  - reflexivity.
  - destruct (String.eqb_spec k k') as [<- | Hk]; cbn [Py.dict_get].
    + now destruct (String.eqb x k).
    + destruct (String.eqb_spec x k') as [-> | Hx].
      * destruct (String.eqb_spec k' k) as [E | _]; [congruence | reflexivity].
      * exact IH.
Qed.

Lemma dict_set_keys {V} (x k : string) (v : V) (d : list (string * V)) :
  In x (map fst (Py.dict_set k v d)) <-> x = k \/ In x (map fst d).
Proof.
  induction d as [| [k' a] d IH]; cbn [Py.dict_set map fst In].
  - intuition.
  - destruct (String.eqb_spec k k') as [<- | Hk]; cbn [map fst In].
    + intuition.
    + rewrite IH. intuition.
Qed.

Lemma dict_set_NoDup {V} (k : string) (v : V) (d : list (string * V)) :
  NoDup (map fst d) -> NoDup (map fst (Py.dict_set k v d)).
Proof.
  induction d as [| [k' a] d IH]; cbn [Py.dict_set map fst]; intros H.
  - constructor; [intros [] | constructor].
  - destruct (String.eqb_spec k k') as [<- | Hk]; cbn [map fst];
      [exact H |].
    inversion H as [| ? ? Hnin Hnd]; subst.
    constructor; [| now apply IH].
    rewrite dict_set_keys. intros [E | Hin]; [congruence | contradiction].
Qed.

Lemma dict_set_total (k : string) (v : nat) (d : list (string * nat)) :
  (list_sum (map snd (Py.dict_set k v d)) + Py.dict_get k d 0
   = list_sum (map snd d) + v)%nat.
Proof.
  unfold list_sum.
  induction d as [| [k' a] d IH];
    cbn [Py.dict_set Py.dict_get map snd fold_right].
  - lia.
  - destruct (String.eqb_spec k k') as [<- | Hk];
      cbn [map snd fold_right]; lia.
Qed.

Lemma count_items_fold (items : list string) :
  forall d : list (string * nat),
    NoDup (map fst d) ->
    let r :=
      fold_left
        (fun count_dict item =>
           Py.dict_set item (Py.dict_get item count_dict 0 + 1)%nat count_dict)
        items d in
    NoDup (map fst r)
    /\ (forall x, Py.dict_get x r 0%nat
                  = (Py.dict_get x d 0 + count_occ string_dec items x)%nat)
    /\ (forall x, In x (map fst r) <-> In x (map fst d) \/ In x items)
    /\ list_sum (map snd r) = (list_sum (map snd d) + List.length items)%nat.
Proof.
  induction items as [| item items IH]; intros d Hd; cbv zeta.
  - cbn [fold_left count_occ In List.length].
    split; [exact Hd |]. split; [intros x; lia |].
    split; [intros x; tauto | lia].
  - cbn [fold_left].
    set (d1 := Py.dict_set item (Py.dict_get item d 0 + 1)%nat d).
    destruct (IH d1 (dict_set_NoDup _ _ _ Hd)) as (H1 & H2 & H3 & H4).
    split; [exact H1 |]. split; [| split].
    + intros x. rewrite H2. subst d1. rewrite dict_get_set.
      cbn [count_occ].
      destruct (string_dec item x) as [-> | Hne].
      * rewrite String.eqb_refl. lia.
      * destruct (String.eqb_spec x item) as [E | _]; [congruence | lia].
    + intros x. rewrite H3. subst d1. rewrite dict_set_keys.
      cbn [In]. intuition.
    + rewrite H4. subst d1. cbn [List.length].
      pose proof (dict_set_total item (Py.dict_get item d 0 + 1)%nat d). lia.
Qed.

(** X15: [_count_items] counts every item once: the keys of the result are
    the distinct items, none twice; the value of an item is the number of
    times it occurs, which is at least one; an item that does not occur has
    no key; and the values add up to the number of items. *)
Theorem count_items_counts :
  forall items : list string,
    NoDup (map fst (DragonTigerPipeline._count_items items))
    /\ (forall x, In x (map fst (DragonTigerPipeline._count_items items))
                  <-> In x items)
    /\ (forall x n, In (x, n) (DragonTigerPipeline._count_items items) ->
                    n = count_occ string_dec items x /\ (1 <= n)%nat)
    /\ (forall x, Py.dict_get x (DragonTigerPipeline._count_items items) 0%nat
                  = count_occ string_dec items x)
    /\ list_sum (map snd (DragonTigerPipeline._count_items items))
       = List.length items.
Proof.
  intros items. unfold DragonTigerPipeline._count_items.
  destruct (count_items_fold items [] (NoDup_nil _)) as (H1 & H2 & H3 & H4).
  cbv zeta in *. set (r := fold_left _ items []) in *.
  assert (Hget : forall (d : list (string * nat)) x n,
             NoDup (map fst d) -> In (x, n) d -> Py.dict_get x d 0%nat = n).
  { induction d as [| [k a] d IHd]; intros x n Hnd Hin; [destruct Hin |].
    cbn [map fst] in Hnd. inversion Hnd as [| ? ? Hnin Hnd']; subst.
    cbn [Py.dict_get]. destruct Hin as [E | Hin].
    - injection E as -> ->. now rewrite String.eqb_refl.
    - destruct (String.eqb_spec x k) as [-> | _]; [| now apply IHd].
      exfalso. apply Hnin. apply (in_map fst) in Hin. exact Hin. }
  split; [exact H1 |]. split; [| split; [| split]].
  - intros x. rewrite H3. cbn [map In]. tauto.
  - intros x n Hin.
    assert (Hn : n = count_occ string_dec items x).
    { rewrite <- (Hget r x n H1 Hin), H2. reflexivity. }
    split; [exact Hn |].
    assert (Hx : In x items).
    { apply (in_map fst) in Hin. apply H3 in Hin.
      destruct Hin as [[] | Hin]. exact Hin. }
    apply (count_occ_In string_dec) in Hx. lia.
  - intros x. rewrite H2. reflexivity.
  - rewrite H4. reflexivity.
Qed.

End Counting.

(** ** The list of stocks *)

Section StockList.

Import DataProcessor.

Section DuplicatesOn.

Context {A K : Type} (same : K -> K -> bool) (col : A -> K).
Hypothesis same_eq : forall a b, same a b = true <-> a = b.

Lemma seen_In (x : K) (l : list K) : existsb (same x) l = true <-> In x l.
Proof.
  rewrite existsb_exists. split.
  - intros (y & Hy & E). apply same_eq in E. now subst.
  - intros H. exists x. split; [exact H | now apply same_eq].
Qed.

Lemma seen_not_In (x : K) (l : list K) : existsb (same x) l = false <-> ~ In x l.
Proof.
  rewrite <- seen_In. destruct (existsb (same x) l); split; intros H; congruence.
Qed.

(** A kept row is the first of the frame with its value, and the value was
    not seen before. *)
Lemma drop_duplicates_on_first (df : list A) :
  forall seen r,
    In r (drop_duplicates_on same col seen df) ->
    exists l1 l2,
      df = (l1 ++ r :: l2)%list
      /\ ~ In (col r) (map col l1)
      /\ ~ In (col r) seen.
Proof.
  induction df as [| x df IH]; intros seen r H; [destruct H |].
  cbn [drop_duplicates_on] in H.
  destruct (existsb (same (col x)) seen) eqn:Hx.
  - destruct (IH _ _ H) as (l1 & l2 & -> & H1 & H2).
    exists (x :: l1), l2. split; [reflexivity |]. split; [| exact H2].
    cbn [map In]. intros [E | Hin]; [| contradiction].
    apply H2. rewrite <- E. now apply seen_In.
  - apply seen_not_In in Hx. destruct H as [<- | H].
    + exists [], df. split; [reflexivity |]. split; [intros [] | exact Hx].
    + destruct (IH _ _ H) as (l1 & l2 & -> & H1 & H2).
      exists (x :: l1), l2. split; [reflexivity |]. split.
      * cbn [map In]. intros [E | Hin]; [| contradiction].
        apply H2. left. exact E.
      * intros H3. apply H2. now right.
Qed.

Lemma drop_duplicates_on_NoDup (df : list A) :
  forall seen,
    NoDup (map col (drop_duplicates_on same col seen df))
    /\ forall r, In r (drop_duplicates_on same col seen df) ->
                 ~ In (col r) seen.
Proof.
  induction df as [| x df IH]; intros seen.
  - split; [constructor | intros r []].
  - cbn [drop_duplicates_on].
    destruct (existsb (same (col x)) seen) eqn:Hx; [apply IH |].
    apply seen_not_In in Hx.
    destruct (IH (col x :: seen)) as [Hnd Hout].
    split.
    + cbn [map]. constructor; [| exact Hnd].
      intros Hin. apply in_map_iff in Hin as (r & E & Hr).
      apply (Hout r Hr). left. now symmetry.
    + intros r [<- | Hr]; [exact Hx |].
      intros Hin. apply (Hout r Hr). now right.
Qed.

Lemma drop_duplicates_on_values (df : list A) :
  forall seen v,
    In v (map col (drop_duplicates_on same col seen df))
    <-> In v (map col df) /\ ~ In v seen.
Proof.
  induction df as [| x df IH]; intros seen v.
  - cbn [drop_duplicates_on map In]. tauto.
  - cbn [drop_duplicates_on].
    destruct (existsb (same (col x)) seen) eqn:Hx.
    + apply seen_In in Hx. rewrite IH. cbn [map In]. split.
      * intros [H1 H2]. split; [now right | exact H2].
      * intros [[E | H1] H2]; [subst; contradiction | now split].
    + apply seen_not_In in Hx. cbn [map In]. rewrite IH. cbn [In].
      destruct (same (col x) v) eqn:E.
      * apply same_eq in E. subst v. tauto.
      * assert (N : col x <> v).
        { intros E'. apply same_eq in E'. congruence. }
        tauto.
Qed.

End DuplicatesOn.

Lemma same_code_eq (a b : option string) : same_code a b = true <-> a = b.
Proof.
  destruct a as [x |], b as [y |]; cbn; split; intros H;
    try discriminate H; try reflexivity.
  - apply String.eqb_eq in H. now subst.
  - injection H as ->. apply String.eqb_refl.
Qed.

Lemma code_eq_missing (a : option string) : code_eq a None = false.
Proof. now destruct a. Qed.

Lemma filter_first_of_code (l1 l2 : list TopList.row) (r : TopList.row)
    (code : string) :
  TopList.ts_code r = Some code ->
  ~ In (TopList.ts_code r) (map TopList.ts_code l1) ->
  filter (fun x => code_eq (TopList.ts_code x) (Some code)) (l1 ++ r :: l2)
  = r :: filter (fun x => code_eq (TopList.ts_code x) (Some code)) l2.
Proof.
  intros Hc H. rewrite filter_app. cbn [filter]. rewrite Hc.
  cbn [code_eq]. rewrite String.eqb_refl.
  replace (filter _ l1) with (@nil TopList.row); [reflexivity |].
  symmetry. rewrite Hc in H. induction l1 as [| x l1 IH]; [reflexivity |].
  cbn [filter map In] in *.
  destruct (TopList.ts_code x) as [c |] eqn:Ex; cbn [code_eq].
  - destruct (String.eqb_spec c code) as [E | _].
    + exfalso. apply H. left. now subst.
    + apply IH. intros Hin. apply H. now right.
  - apply IH. intros Hin. apply H. now right.
Qed.

Section WithHistory.

Variables daily_frame historical : Type.
Variable _process_historical_data :
  option string -> daily_frame -> Py.M historical.

Lemma stock_entry_returns (player_profiles : list (string * profile_data))
    (top_list_df : list TopList.row) (top_data_df : list TopData.row)
    (daily_df : daily_frame) (hm_list_df : list HmList.row)
    (stock_row : TopList.row) (code : string) (h : historical) :
  In stock_row top_list_df ->
  TopList.ts_code stock_row = Some code ->
  _process_historical_data (Some code) daily_df = Py.ret h ->
  exists e,
    stock_entry daily_frame historical _process_historical_data
      player_profiles top_list_df top_data_df daily_df hm_list_df stock_row
    = Py.ret e
    /\ Spec.entry_of player_profiles top_list_df top_data_df hm_list_df
         stock_row code h e.
Proof.
  intros Hin Hc Hh. unfold stock_entry, Spec.entry_of. rewrite Hc.
  assert (Hne : In stock_row
                  (filter (fun r => code_eq (TopList.ts_code r) (Some code))
                     top_list_df)).
  { apply filter_In. split; [exact Hin |]. rewrite Hc. cbn [code_eq].
    apply String.eqb_refl. }
  destruct (filter _ top_list_df) as [| first rest] eqn:Hf; [destruct Hne |].
  unfold _merge_stock_records. cbn [Py.item0 Py.bind Py.ret].
  rewrite Hh. cbn [Py.bind Py.ret].
  eexists. split; [reflexivity |].
  cbn [StockInfo.ts_code StockInfo.name StockInfo.trade_date
       StockInfo.basic_info StockInfo.seat_data StockInfo.historical_data].
  repeat split.
Qed.

(** A row without a code selects no record, and the merge has no first
    record to read. *)
Lemma stock_entry_missing_code
    (player_profiles : list (string * profile_data))
    (top_list_df : list TopList.row) (top_data_df : list TopData.row)
    (daily_df : daily_frame) (hm_list_df : list HmList.row)
    (stock_row : TopList.row) :
  TopList.ts_code stock_row = None ->
  stock_entry daily_frame historical _process_historical_data
    player_profiles top_list_df top_data_df daily_df hm_list_df stock_row
  = Py.raise Py.IndexError.
Proof.
  intros Hc. unfold stock_entry. rewrite Hc.
  replace (filter _ top_list_df) with (@nil TopList.row); [reflexivity |].
  symmetry. induction top_list_df as [| x l IH]; [reflexivity |].
  cbn [filter]. now rewrite code_eq_missing.
Qed.

Lemma append_entries_returns (player_profiles : list (string * profile_data))
    (top_list_df : list TopList.row) (top_data_df : list TopData.row)
    (daily_df : daily_frame) (hm_list_df : list HmList.row)
    (unique_stocks : list TopList.row) :
  (forall code, exists h, _process_historical_data code daily_df = Py.ret h) ->
  (forall r, In r unique_stocks -> In r top_list_df) ->
  Forall (fun r => TopList.ts_code r <> None) unique_stocks ->
  forall stocks_data,
    exists entries,
      append_entries daily_frame historical _process_historical_data
        player_profiles top_list_df top_data_df daily_df hm_list_df
        unique_stocks stocks_data
      = Py.ret (stocks_data ++ entries)%list
      /\ Forall2
           (fun r e =>
              exists code h,
                _process_historical_data (Some code) daily_df = Py.ret h
                /\ Spec.entry_of player_profiles top_list_df top_data_df
                     hm_list_df r code h e)
           unique_stocks entries.
Proof.
  intros Hh.
  induction unique_stocks as [| r rest IH]; intros Hsub Hcodes stocks_data.
  - exists []. rewrite app_nil_r. split; [reflexivity | constructor].
  - cbn [append_entries].
    inversion Hcodes as [| ? ? Hr Hrest]; subst.
    destruct (TopList.ts_code r) as [code |] eqn:Hc; [| congruence].
    destruct (Hh (Some code)) as [h Hhist].
    destruct (stock_entry_returns player_profiles top_list_df top_data_df
                daily_df hm_list_df r code h
                (Hsub r (or_introl eq_refl)) Hc Hhist)
      as (e & -> & He).
    cbn [Py.bind Py.ret].
    destruct (IH (fun x Hx => Hsub x (or_intror Hx)) Hrest
                 (stocks_data ++ [e])%list) as (entries & -> & Hall).
    exists (e :: entries). rewrite <- app_assoc. split; [reflexivity |].
    constructor; [| exact Hall]. now exists code, h.
Qed.

Lemma append_entries_missing_code
    (player_profiles : list (string * profile_data))
    (top_list_df : list TopList.row) (top_data_df : list TopData.row)
    (daily_df : daily_frame) (hm_list_df : list HmList.row)
    (unique_stocks : list TopList.row) :
  (forall code, exists h, _process_historical_data code daily_df = Py.ret h) ->
  (forall r, In r unique_stocks -> In r top_list_df) ->
  Exists (fun r => TopList.ts_code r = None) unique_stocks ->
  forall stocks_data,
    append_entries daily_frame historical _process_historical_data
      player_profiles top_list_df top_data_df daily_df hm_list_df
      unique_stocks stocks_data
    = Py.raise Py.IndexError.
Proof.
  intros Hh.
  induction unique_stocks as [| r rest IH]; intros Hsub Hex stocks_data;
    [inversion Hex |].
  cbn [append_entries].
  destruct (TopList.ts_code r) as [code |] eqn:Hc.
  - destruct (Hh (Some code)) as [h Hhist].
    destruct (stock_entry_returns player_profiles top_list_df top_data_df
                daily_df hm_list_df r code h
                (Hsub r (or_introl eq_refl)) Hc Hhist)
      as (e & -> & _).
    cbn [Py.bind Py.ret].
    apply IH; [intros x Hx; apply Hsub; now right |].
    inversion Hex as [? ? H | ? ? H]; subst; [congruence | exact H].
  - now rewrite stock_entry_missing_code.
Qed.

(** X16: when the history of every code can be read, [_process_stock_data]
    returns if every row of the daily list has a code, and raises IndexError
    if some row has none: such a row selects no record to merge.  When it
    returns, there is one entry per stock code of the daily list, in the
    order in which the codes first appear: no code twice, none missing, none
    invented.  The entry of a code takes its name and date from the first
    row of that code, merges all the rows of the code, and holds the seat
    data and the history of that code. *)
Theorem one_entry_per_stock :
  forall (player_profiles : list (string * profile_data))
         (top_list_df : list TopList.row) (top_data_df : list TopData.row)
         (daily_df : daily_frame) (hm_list_df : list HmList.row),
    (forall code, exists h, _process_historical_data code daily_df = Py.ret h) ->
    (Forall (fun r => TopList.ts_code r <> None) top_list_df ->
     exists stocks,
       _process_stock_data daily_frame historical _process_historical_data
         player_profiles top_list_df top_data_df daily_df hm_list_df
       = Py.ret stocks
       /\ NoDup (map StockInfo.ts_code stocks)
       /\ (forall c, In c (map StockInfo.ts_code stocks)
                     <-> In c (map TopList.ts_code top_list_df))
       /\ map StockInfo.ts_code stocks
          = map TopList.ts_code
              (drop_duplicates_on same_code TopList.ts_code [] top_list_df)
       /\ forall e,
            In e stocks ->
            exists code first rest,
              StockInfo.ts_code e = Some code
              /\ filter (fun r => code_eq (TopList.ts_code r) (Some code))
                   top_list_df
                 = first :: rest
              /\ StockInfo.name e = TopList.name first
              /\ StockInfo.trade_date e = TopList.trade_date first
              /\ _merge_stock_records (first :: rest)
                 = Py.ret (StockInfo.basic_info e)
              /\ StockInfo.seat_data e
                 = _process_seat_data player_profiles code top_data_df
                     hm_list_df
              /\ _process_historical_data (Some code) daily_df
                 = Py.ret (StockInfo.historical_data e))
    /\ (Exists (fun r => TopList.ts_code r = None) top_list_df ->
        _process_stock_data daily_frame historical _process_historical_data
          player_profiles top_list_df top_data_df daily_df hm_list_df
        = Py.raise Py.IndexError).
Proof.
  intros pp top_list top_data daily hm Hh. unfold _process_stock_data.
  set (unique_stocks :=
         drop_duplicates_on same_code TopList.ts_code [] top_list).
  assert (Hsub : forall r, In r unique_stocks -> In r top_list).
  { intros r Hr.
    destruct (drop_duplicates_on_first same_code TopList.ts_code same_code_eq
                top_list [] r Hr) as (l1 & l2 & -> & _).
    apply in_or_app. right. now left. }
  split.
  - intros Hcodes.
    assert (Hu : Forall (fun r => TopList.ts_code r <> None) unique_stocks).
    { apply Forall_forall. intros r Hr.
      rewrite Forall_forall in Hcodes. now apply Hcodes, Hsub. }
    destruct (append_entries_returns pp top_list top_data daily hm
                unique_stocks Hh Hsub Hu []) as (stocks & -> & Hall).
    cbn [app]. exists stocks. split; [reflexivity |].
    assert (Hcodes' : map StockInfo.ts_code stocks
                      = map TopList.ts_code unique_stocks).
    { clear Hsub Hu. induction Hall as [| r e rows entries Hre _ IH];
        [reflexivity |].
      cbn [map]. destruct Hre as (code & h & _ & Hc & He & _).
      now rewrite Hc, He, IH. }
    split; [| split; [| split]].
    + rewrite Hcodes'.
      apply (drop_duplicates_on_NoDup same_code TopList.ts_code same_code_eq
               top_list []).
    + intros c. rewrite Hcodes'. subst unique_stocks.
      rewrite (drop_duplicates_on_values same_code TopList.ts_code
                 same_code_eq).
      cbn [In]. tauto.
    + exact Hcodes'.
    + intros e He.
      assert (Hrow : exists r code h,
                 In r unique_stocks
                 /\ _process_historical_data (Some code) daily = Py.ret h
                 /\ Spec.entry_of pp top_list top_data hm r code h e).
      { clear Hcodes' Hsub Hu.
        induction Hall as [| r e' rows entries Hre _ IH]; [destruct He |].
        destruct He as [<- | He].
        - destruct Hre as (code & h & H1 & H2). exists r, code, h.
          split; [now left |]. now split.
        - destruct (IH He) as (r' & code & h & Hr' & H1 & H2).
          exists r', code, h. split; [now right |]. now split. }
      destruct Hrow as (r & code & h & Hr & Hhist
                        & Hc & Hce & Hn & Hd & Hm & Hs & Hhd).
      destruct (drop_duplicates_on_first same_code TopList.ts_code
                  same_code_eq top_list [] r Hr)
        as (l1 & l2 & Htl & Hfirst & _).
      exists code, r,
        (filter (fun x => code_eq (TopList.ts_code x) (Some code)) l2).
      assert (Hf : filter (fun x => code_eq (TopList.ts_code x) (Some code))
                     top_list
                   = r :: filter (fun x => code_eq (TopList.ts_code x)
                                             (Some code)) l2).
      { rewrite Htl. now apply filter_first_of_code. }
      split; [exact Hce |]. split; [exact Hf |]. rewrite <- Hf.
      split; [exact Hn |]. split; [exact Hd |]. split; [exact Hm |].
      split; [exact Hs |]. now rewrite Hhd.
  - intros Hex.
    apply append_entries_missing_code; [exact Hh | exact Hsub |].
    apply Exists_exists in Hex as (r & Hr & Hc).
    assert (Hin : In None (map TopList.ts_code unique_stocks)).
    { subst unique_stocks.
      apply (drop_duplicates_on_values same_code TopList.ts_code
               same_code_eq).
      split; [| intros []]. rewrite <- Hc. now apply in_map. }
    apply in_map_iff in Hin as (r' & Hc' & Hr').
    apply Exists_exists. now exists r'.
Qed.

End WithHistory.

(** With two listings of one stock and a history that is always there, one
    entry is returned. *)
Lemma one_entry_per_stock_witness :
  (forall code, exists h, Examples.history_always code tt = Py.ret h)
  /\ Forall (fun r => TopList.ts_code r <> None)
       [Examples.listing_1; Examples.listing_2]
  /\ exists stocks,
       _process_stock_data unit unit Examples.history_always []
         [Examples.listing_1; Examples.listing_2] [] tt []
       = Py.ret stocks
       /\ NoDup (map StockInfo.ts_code stocks)
       /\ (forall c, In c (map StockInfo.ts_code stocks)
                     <-> In c (map TopList.ts_code
                                 [Examples.listing_1; Examples.listing_2]))
       /\ map StockInfo.ts_code stocks = [Some "000001.SZ"].
Proof.
  assert (Hh : forall code,
             exists h, Examples.history_always code tt = Py.ret h)
    by (intros code; now exists tt).
  assert (Hc : Forall (fun r => TopList.ts_code r <> None)
                 [Examples.listing_1; Examples.listing_2])
    by (repeat constructor; discriminate).
  split; [exact Hh |]. split; [exact Hc |].
  destruct (one_entry_per_stock unit unit Examples.history_always []
              [Examples.listing_1; Examples.listing_2] [] tt [] Hh)
    as [Hret _].
  destruct (Hret Hc) as (stocks & H1 & H2 & H3 & H4 & _).
  exists stocks. split; [exact H1 |]. split; [exact H2 |].
  split; [exact H3 |]. rewrite H4. reflexivity.
Defined.

End StockList.

(** ** Merging the listings of a stock *)

Section Merging.

Import DataProcessor.

Lemma fold_left_perm {A B} (f : B -> A -> B) (l l' : list A) :
  (forall b x y, f (f b x) y = f (f b y) x) ->
  Permutation l l' ->
  forall b, fold_left f l b = fold_left f l' b.
Proof.
  intros Hf. induction 1 as [| x l l' _ IH | x y l | l l' l'' _ IH1 _ IH2];
    intros b; cbn [fold_left].
  - reflexivity.
  - apply IH.
  - now rewrite Hf.
  - now rewrite IH1.
Qed.

Lemma series_max_perm (l l' : list cell) :
  Permutation l l' -> series_max l = series_max l'.
Proof.
  intros H. unfold series_max. apply fold_left_perm; [| exact H].
  intros [b |] [x |] [y |]; try reflexivity;
    repeat match goal with
           | |- context [Qclt_le_dec ?p ?q] => destruct (Qclt_le_dec p q)
           end;
    try reflexivity;
    unfold Qclt, Qcle in *;
    try (exfalso; lra);
    f_equal; apply Qc_is_canon; lra.
Qed.

Lemma series_max_single (c : cell) : series_max [c] = c.
Proof. now destruct c. Qed.

Lemma reasons_of_perm (l l' : list string) :
  Permutation l l' ->
  Permutation (drop_duplicates_on String.eqb (fun x => x) [] l)
              (drop_duplicates_on String.eqb (fun x => x) [] l').
Proof.
  intros H. apply NoDup_Permutation.
  - pose proof (drop_duplicates_on_NoDup String.eqb (fun x : string => x)
                  String.eqb_eq l []) as [Hn _].
    now rewrite map_id in Hn.
  - pose proof (drop_duplicates_on_NoDup String.eqb (fun x : string => x)
                  String.eqb_eq l' []) as [Hn _].
    now rewrite map_id in Hn.
  - intros v.
    pose proof (drop_duplicates_on_values String.eqb (fun x : string => x)
                  String.eqb_eq l [] v) as H1.
    pose proof (drop_duplicates_on_values String.eqb (fun x : string => x)
                  String.eqb_eq l' [] v) as H2.
    rewrite !map_id in H1, H2. rewrite H1, H2. cbn [In].
    split; intros [Hin Hf]; (split; [| exact Hf]).
    + now apply (Permutation_in _ H).
    + now apply (Permutation_in _ (Permutation_sym H)).
Qed.

(** X17: [_merge_stock_records] raises IndexError on an empty frame; on a
    single record it returns what [_extract_basic_info] returns for that
    record, with the one reason as the list of reasons. *)
Theorem merge_single_record :
  _merge_stock_records [] = Py.raise Py.IndexError
  /\ forall stock_row : TopList.row,
       _merge_stock_records [stock_row]
       = Py.ret (Spec.merged_of_basic (_extract_basic_info stock_row)).
Proof.
  split; [reflexivity |].
  intros r. unfold _merge_stock_records, _extract_basic_info,
    Spec.merged_of_basic.
  cbn [Py.item0 Py.bind Py.ret map BasicInfo.close BasicInfo.pct_change
       BasicInfo.turnover_rate BasicInfo.amount BasicInfo.l_sell
       BasicInfo.l_buy BasicInfo.l_amount BasicInfo.net_amount
       BasicInfo.net_rate BasicInfo.amount_rate BasicInfo.float_values
       BasicInfo.reason BasicInfo.trade_date_display].
  rewrite !series_max_single. reflexivity.
Qed.

(** X18: apart from the list of reasons, the merged record of a stock does
    not depend on the order of the records after the first: the record read
    for close, pct_change, float_values and the display date is the first
    one, and the other numbers are maxima.  The reasons are the distinct
    reasons of the records, each once, in either order. *)
Theorem merge_order_of_later_records :
  forall (first_record : TopList.row) (rest rest' : list TopList.row),
    Permutation rest rest' ->
    exists m m',
      _merge_stock_records (first_record :: rest) = Py.ret m
      /\ _merge_stock_records (first_record :: rest') = Py.ret m'
      /\ m' = Spec.with_reasons m (MergedInfo.reasons m')
      /\ Permutation (MergedInfo.reasons m) (MergedInfo.reasons m')
      /\ NoDup (MergedInfo.reasons m)
      /\ (forall reason,
             In reason (MergedInfo.reasons m)
             <-> In reason (map TopList.reason (first_record :: rest))).
Proof.
  intros r rest rest' Hp.
  assert (Hcol : forall {A} (col : TopList.row -> A),
             Permutation (map col (r :: rest)) (map col (r :: rest'))).
  { intros A col. apply Permutation_map. now constructor. }
  unfold _merge_stock_records. cbn [Py.item0 Py.bind Py.ret].
  do 2 eexists. split; [reflexivity |]. split; [reflexivity |].
  cbn [MergedInfo.reasons]. unfold Spec.with_reasons.
  cbn [MergedInfo.close MergedInfo.pct_change MergedInfo.turnover_rate
       MergedInfo.amount MergedInfo.l_sell MergedInfo.l_buy
       MergedInfo.l_amount MergedInfo.net_amount MergedInfo.net_rate
       MergedInfo.amount_rate MergedInfo.float_values
       MergedInfo.trade_date_display].
  split; [| split; [| split]].
  - rewrite (series_max_perm _ _ (Hcol _ TopList.turnover_rate)).
    rewrite (series_max_perm _ _ (Hcol _ TopList.amount)).
    rewrite (series_max_perm _ _ (Hcol _ TopList.l_sell)).
    rewrite (series_max_perm _ _ (Hcol _ TopList.l_buy)).
    rewrite (series_max_perm _ _ (Hcol _ TopList.l_amount)).
    rewrite (series_max_perm _ _ (Hcol _ TopList.net_amount)).
    rewrite (series_max_perm _ _ (Hcol _ TopList.net_rate)).
    rewrite (series_max_perm _ _ (Hcol _ TopList.amount_rate)).
    reflexivity.
  - apply reasons_of_perm, Hcol.
  - pose proof (drop_duplicates_on_NoDup String.eqb (fun x : string => x)
                  String.eqb_eq (map TopList.reason (r :: rest)) [])
      as [Hn _].
    now rewrite map_id in Hn.
  - intros reason.
    pose proof (drop_duplicates_on_values String.eqb (fun x : string => x)
                  String.eqb_eq (map TopList.reason (r :: rest)) [] reason)
      as H1.
    rewrite !map_id in H1. rewrite H1. cbn [In]. tauto.
Qed.

Lemma merge_order_of_later_records_witness :
  Permutation [Examples.listing_2; Examples.listing_3]
              [Examples.listing_3; Examples.listing_2]
  /\ exists m m',
       _merge_stock_records
         (Examples.listing_1 :: [Examples.listing_2; Examples.listing_3])
       = Py.ret m
       /\ _merge_stock_records
            (Examples.listing_1 :: [Examples.listing_3; Examples.listing_2])
          = Py.ret m'
       /\ m' = Spec.with_reasons m (MergedInfo.reasons m')
       /\ Permutation (MergedInfo.reasons m) (MergedInfo.reasons m')
       /\ NoDup (MergedInfo.reasons m)
       /\ (forall reason,
              In reason (MergedInfo.reasons m)
              <-> In reason
                    (map TopList.reason
                       (Examples.listing_1
                          :: [Examples.listing_2; Examples.listing_3]))).
Proof.
  split; [apply perm_swap |].
  exact (merge_order_of_later_records Examples.listing_1
           [Examples.listing_2; Examples.listing_3]
           [Examples.listing_3; Examples.listing_2]
           (perm_swap _ _ _)).
Defined.

End Merging.

(** ** The order of the rows of the seat table *)

Section RowOrder.

Import DataProcessor.

Lemma filter_perm {A} (f : A -> bool) (l l' : list A) :
  Permutation l l' -> Permutation (filter f l) (filter f l').
Proof.
  induction 1 as [| x l l' _ IH | x y l | l l' l'' _ IH1 _ IH2];
    cbn [filter].
  - constructor.
  - destruct (f x); [now constructor | exact IH].
  - destruct (f x), (f y); try reflexivity. apply perm_swap.
  - now transitivity (filter f l').
Qed.

Lemma sorted_dedup_keys_perm (l l' : list TopData.row) :
  Permutation l l' ->
  Permutation
    (map key_of (sort_values_net_buy_desc (drop_duplicates l)))
    (map key_of (sort_values_net_buy_desc (drop_duplicates l'))).
Proof.
  intros H.
  rewrite (Permutation_map key_of (sort_values_perm (drop_duplicates l))).
  rewrite (Permutation_map key_of (sort_values_perm (drop_duplicates l'))).
  apply NoDup_Permutation; try apply drop_duplicates_NoDup.
  intros k. rewrite !drop_duplicates_keys.
  split; apply Permutation_in; [| apply Permutation_sym];
    now apply Permutation_map.
Qed.

(** X19: the order of the rows of the seat table matters only for the order
    of the seats within each list: a table with the same rows in another
    order gives the same buy seats and the same sell seats, possibly in
    another order. *)
Theorem seat_data_row_order :
  forall (player_profiles : list (string * profile_data)) (ts_code : string)
         (top_data_df top_data_df' : list TopData.row)
         (hm_list_df : list HmList.row),
    Permutation top_data_df top_data_df' ->
    let d := _process_seat_data player_profiles ts_code top_data_df
               hm_list_df in
    let d' := _process_seat_data player_profiles ts_code top_data_df'
                hm_list_df in
    Permutation (buy_seats d) (buy_seats d')
    /\ Permutation (sell_seats d) (sell_seats d').
Proof.
  intros pp ts df df' hm Hp. cbv zeta.
  rewrite !process_seat_data_unfold.
  cbn [buy_seats sell_seats].
  set (F := filter (fun r => String.eqb (TopData.ts_code r) ts)).
  set (rows := sort_values_net_buy_desc (drop_duplicates (F df))).
  set (rows' := sort_values_net_buy_desc (drop_duplicates (F df'))).
  assert (Hk : Permutation (map key_of rows) (map key_of rows'))
    by (apply sorted_dedup_keys_perm; subst F; now apply filter_perm).
  apply Permutation_map_inv in Hk as (l3 & Hsame & Hperm).
  apply same_keys_Forall2 in Hsame.
  assert (Hnet : forall r r', key_of r = key_of r' ->
                              gt0 (TopData.net_buy r) = gt0 (TopData.net_buy r')).
  { intros r r' Hk. now destruct (key_fields r r' Hk) as (_ & _ & _ & -> & _). }
  assert (Hside : forall p : TopData.row -> bool,
             (forall r r', key_of r = key_of r' -> p r = p r') ->
             Permutation (map (make_seat_info pp hm) (filter p rows))
                         (map (make_seat_info pp hm) (filter p rows'))).
  { intros p Hpk.
    rewrite (map_same_keys (make_seat_info pp hm) (filter p rows) (filter p l3)
               (make_seat_info_key pp hm)
               (filter_same_keys p rows l3 Hpk Hsame)).
    apply Permutation_map, filter_perm. now apply Permutation_sym. }
  split; [apply Hside, Hnet |].
  apply Hside. intros r r' Hk. now rewrite (Hnet r r' Hk).
Qed.

Lemma seat_data_row_order_witness :
  Permutation Examples.three_seats (rev Examples.three_seats)
  /\ (let d := _process_seat_data [] "000001.SZ" Examples.three_seats [] in
      let d' :=
        _process_seat_data [] "000001.SZ" (rev Examples.three_seats) [] in
      Permutation (buy_seats d) (buy_seats d')
      /\ Permutation (sell_seats d) (sell_seats d')).
Proof.
  split; [apply Permutation_rev |].
  exact (seat_data_row_order [] "000001.SZ" Examples.three_seats
           (rev Examples.three_seats) [] (Permutation_rev _)).
Defined.

End RowOrder.
